(** * EstateIQ backend: the tenant / payment ledger, embedded and verified

    A shallow embedding of the request handlers of [src/index.js] over the
    tables of the schema (the SQL file of the repository): every handler is a
    function from the database state to a new state and an HTTP response.

    Conventions of the embedding.
    - A table is the list of its rows.  [UPDATE ... WHERE] is a [map],
      [DELETE ... WHERE] a [filter], [SELECT ... WHERE] a [filter] or [find].
    - The key constraints of the schema are enforced as the storage engine
      enforces them: primary keys and the foreign key of [payments] by the
      insert functions, ON DELETE CASCADE by the delete, NOT NULL of
      [tenant_name] by the full update.
    - The value domains of the ENUM columns and of [DECIMAL(15,2)] are
      enforced as the server enforces them in strict SQL mode, its default:
      a number bound to a money column is rounded to hundredths, half away
      from zero, and refused beyond the range of the column; a string bound
      to an ENUM column is refused unless it is, letter for letter, one of
      the members.  The lengths of the character columns and the validity
      of a date are not modelled, and the sums and differences the server
      computes on stored amounts are taken to stay within the range of
      their column.
    - Money columns are [DECIMAL(15,2)]: a stored value is carried as an
      integer number of hundredths.
    - A number of JavaScript is a double.  A number of a JSON body is given
      by the decimal that [String()] prints for it, which is what a
      statement is sent; a number the handlers compute ([parseInt],
      [parseFloat], [+ 1]) is given by its exact value, rounded as a double
      is.
    - The payments table keeps the row created last in front.  [created_at]
      is a time in seconds, as the TIMESTAMP column holds it; rows created
      within one second share it, and so do the rows of one INSERT.
    - A calendar date is a day number.
    - Strings are sequences of bytes, UTF-8 for text outside ASCII.
    - What the handlers obtain from outside the repository (token
      verification, password hashing, identifiers, the clock, the server's
      [LIKE] and its conversion of character strings to numbers and of
      numbers to character strings, the row it returns first among rows
      that tie in the ORDER BY of the receipt query, its comparison of
      identifiers in the one statement whose parameter the handler also
      tests in JavaScript, the deletion of an account) is a field of the
      environment [env]. *)

From Stdlib Require Import List String Ascii ZArith NArith QArith Lia Lqa Bool Permutation.
Import ListNotations.

Open Scope string_scope.
Open Scope Z_scope.

(* ------------------------------------------------------------------ *)
(** ** JavaScript values, truthiness and the string operations used *)

Module JS.

(** The primitive values a JSON body field can hold.  [JNum q] is the number
    that JavaScript prints as the decimal [q].  Arrays and objects are
    outside the model. *)
Inductive jsval : Type :=
| JUndefined
| JNull
| JBool (b : bool)
| JNum (q : Q)
| JStr (s : string).

Definition str_truthy (s : string) : bool :=
  match s with EmptyString => false | String _ _ => true end.

(** [ToBoolean]. *)
Definition truthy (v : jsval) : bool :=
  match v with
  | JUndefined | JNull => false
  | JBool b => b
  | JNum q => negb (Qnum q =? 0)
  | JStr s => str_truthy s
  end.

(** [a || b]. *)
Definition or (a b : jsval) : jsval := if truthy a then a else b.

(** A text field of a body: [None] when the field is omitted or null.
    [opt_truthy] is its truthiness, [str_or] is [x || dflt]. *)
Definition opt_truthy (x : option string) : bool :=
  match x with Some s => str_truthy s | None => false end.

Definition str_or (x : option string) (dflt : string) : string :=
  match x with
  | Some s => if str_truthy s then s else dflt
  | None => dflt
  end.

Definition code (c : ascii) : Z := Z.of_N (N_of_ascii c).

Definition is_digit (c : ascii) : bool := (48 <=? code c) && (code c <=? 57).

Definition digit_val (c : ascii) : Z := code c - 48.

Definition digit_char (d : Z) : ascii := ascii_of_N (Z.to_N (48 + d)).

(** Decimal digits of a non-negative integer, most significant first. *)
Fixpoint show_digits (fuel : nat) (n : Z) (acc : string) : string :=
  match fuel with
  | O => acc
  | S f =>
      let acc' := String (digit_char (n mod 10)) acc in
      if n / 10 =? 0 then acc' else show_digits f (n / 10) acc'
  end.

Definition show_nonneg (n : Z) : string :=
  show_digits (S (Z.to_nat (Z.log2 n))) n EmptyString.

Definition show_Z (z : Z) : string :=
  if z <? 0 then String "-" (show_nonneg (- z)) else show_nonneg z.

(** The number [n/d], [d > 0], to the nearest integer, a tie to the even one. *)
Definition round_even (n d : Z) : Z :=
  let q := n / d in
  let r := n mod d in
  if 2 * r <? d then q
  else if d <? 2 * r then q + 1
  else if Z.even q then q else q + 1.

(** [n/d] multiplied by [b^k], for [k] of either sign. *)
Definition scaled (b k n d : Z) : Z * Z :=
  if 0 <=? k then (n * b ^ k, d) else (n, d * b ^ (- k)).

(** [b^k <= n/d], for positive [n] and [d]. *)
Definition reaches (b k n d : Z) : bool :=
  let (n', d') := scaled b (- k) n d in d' <=? n'.

(** The integer [e] with [2^e <= n/d < 2^(e+1)], for positive [n] and [d]. *)
Definition log2_floor (n d : Z) : Z :=
  let e := Z.log2 n - Z.log2 d in
  if reaches 2 e n d then e else e - 1.

(** The integer [k] with [10^k <= n/d < 10^(k+1)], for positive [n] and [d]:
    an estimate from the binary logarithm, corrected by at most two steps. *)
Definition log10_floor (n d : Z) : Z :=
  let k := (log2_floor n d * 30103) / 100000 in
  if reaches 10 (k + 2) n d then k + 2
  else if reaches 10 (k + 1) n d then k + 1
  else if reaches 10 k n d then k
  else if reaches 10 (k - 1) n d then k - 1
  else k - 2.

(** A number of JavaScript, which is a double: NaN, an infinity, or a
    finite double given by its exact value. *)
Inductive jsnumber : Type :=
| NaN
| Inf (negative : bool)
| Num (q : Q).

(** The value [m * 2^u]. *)
Definition binary (m u : Z) : Q :=
  if 0 <=? u then inject_Z (m * 2 ^ u) else Qred (Qmake m (Z.to_pos (2 ^ (- u)))).

(** The double nearest to the positive number [n/d] (a tie to the even
    significand): 53 bits above 2^-1022, multiples of 2^-1074 below;
    infinite from 2^1024 - 2^970 on. *)
Definition nearest_double (n d : Z) : jsnumber :=
  let e := log2_floor n d in
  let u := Z.max (e - 52) (- 1074) in
  let (n', d') := scaled 2 (- u) n d in
  let m := round_even n' d' in
  if (971 <=? u) && (2 ^ 1024 <=? m * 2 ^ u) then Inf false
  else Num (binary m u).

Definition negate (v : jsnumber) : jsnumber :=
  match v with
  | NaN => NaN
  | Inf s => Inf (negb s)
  | Num q => Num (- q)
  end.

(** The double a number is rounded to.  An integer up to 2^53 is a double. *)
Definition to_double (q : Q) : jsnumber :=
  let n := Qnum q in
  let d := Zpos (Qden q) in
  if (d =? 1) && (Z.abs n <=? 2 ^ 53) then Num q
  else if n =? 0 then Num 0
  else if 0 <? n then nearest_double n d
  else negate (nearest_double (- n) d).

Definition same_double (v : jsnumber) (q : Q) : bool :=
  match v with
  | Num x => Qeq_bool x q
  | _ => false
  end.

(** The digits [String()] prints for the positive double [n/d], looked for
    among the decimals of [p] significant digits: the nearer one of the two
    around the double, then the other one, whichever reads back as the
    double; the result is [(s, j)] for the decimal [s * 10^j]. *)
Definition digits_at (k10 : Z) (n d : Z) (p : Z) : option (Z * Z) :=
  let j := k10 + 1 - p in
  let (n', d') := scaled 10 (- j) n d in
  let lo := n' / d' in
  let near := round_even n' d' in
  let far := if near =? lo then lo + 1 else lo in
  let value s := let (a, b) := scaled 10 j s 1 in Qred (Qmake a (Z.to_pos b)) in
  if same_double (to_double (value near)) (Qmake n (Z.to_pos d)) then Some (near, j)
  else if (0 <? far) && same_double (to_double (value far)) (Qmake n (Z.to_pos d))
       then Some (far, j)
       else None.

Fixpoint shortest_from (fuel : nat) (k10 n d p : Z) : Z * Z :=
  match fuel with
  | O => (round_even (fst (scaled 10 (- (k10 + 1 - p)) n d))
                     (snd (scaled 10 (- (k10 + 1 - p)) n d)), k10 + 1 - p)
  | S f =>
      match digits_at k10 n d p with
      | Some r => r
      | None => shortest_from f k10 n d (p + 1)
      end
  end.

(** The shortest decimal that reads back as the positive double [n/d]:
    at most 17 significant digits. *)
Definition shortest (n d : Z) : Z * Z :=
  shortest_from 16 (log10_floor n d) n d 1.

(** [s * 10^j] without the zeros at the end of [s]. *)
Fixpoint strip_zeros (fuel : nat) (s j : Z) : Z * Z :=
  match fuel with
  | O => (s, j)
  | S f => if (s mod 10 =? 0) && negb (s =? 0) then strip_zeros f (s / 10) (j + 1) else (s, j)
  end.

Fixpoint zeros (n : nat) : string :=
  match n with
  | O => EmptyString
  | S k => String "0" (zeros k)
  end.

(** The first [n] characters of [s], and the rest. *)
Fixpoint split_at (n : nat) (s : string) : string * string :=
  match n, s with
  | O, _ => (EmptyString, s)
  | S k, String c r => let (a, b) := split_at k r in (String c a, b)
  | S _, EmptyString => (EmptyString, EmptyString)
  end.

(** [Number::toString] for the positive decimal [s * 10^j]: the digits with
    the point where it falls, in full from 10^-6 up to 10^21, with an
    exponent otherwise. *)
Definition format (s j : Z) : string :=
  let (s', j') := strip_zeros (S (Z.to_nat (Z.log2 s))) s j in
  let digits := show_nonneg s' in
  let k := Z.of_nat (String.length digits) in
  let n := k + j' in
  if (k <=? n) && (n <=? 21) then digits ++ zeros (Z.to_nat (n - k))
  else if (0 <? n) && (n <=? 21)
       then let (a, b) := split_at (Z.to_nat n) digits in a ++ "." ++ b
  else if (-6 <? n) && (n <=? 0)
       then "0." ++ zeros (Z.to_nat (- n)) ++ digits
  else
    let e := n - 1 in
    let (a, b) := split_at 1 digits in
    (match b with EmptyString => a | _ => a ++ "." ++ b end)
    ++ "e" ++ (if 0 <=? e then "+" else "-") ++ show_nonneg (Z.abs e).

(** The decimal that [String()] prints for a finite double.  An integer
    below 2^53 is printed digit by digit. *)
Definition printed (q : Q) : Q :=
  let n := Qnum q in
  let d := Zpos (Qden q) in
  if (d =? 1) && (Z.abs n <? 2 ^ 53) then q
  else if n =? 0 then 0
  else
    let (s, j) := shortest (Z.abs n) d in
    let (a, b) := scaled 10 j s 1 in
    let v := Qred (Qmake a (Z.to_pos b)) in
    if 0 <? n then v else (- v)%Q.

(** [String(v)] of a number.  An integer below 2^53 is printed digit by
    digit. *)
Definition to_String (v : jsnumber) : string :=
  match v with
  | NaN => "NaN"
  | Inf s => if s then "-Infinity" else "Infinity"
  | Num q =>
      let n := Qnum q in
      let d := Zpos (Qden q) in
      if (d =? 1) && (Z.abs n <? 2 ^ 53) then show_Z n
      else if n =? 0 then "0"
      else
        let (s, j) := shortest (Z.abs n) d in
        (if n <? 0 then "-" else EmptyString) ++ format s j
  end.

Fixpoint repeat_char (c : ascii) (n : nat) : string :=
  match n with
  | O => EmptyString
  | S k => String c (repeat_char c k)
  end.

(** [s.padStart(width, c)] for a one-character filler. *)
Definition padStart (width : nat) (c : ascii) (s : string) : string :=
  repeat_char c (width - String.length s) ++ s.

(** [s.split(sep)] for a one-character separator: never empty. *)
Fixpoint split (sep : ascii) (s : string) : list string :=
  match s with
  | EmptyString => [EmptyString]
  | String c rest =>
      if Ascii.eqb c sep then EmptyString :: split sep rest
      else match split sep rest with
           | h :: t => String c h :: t
           | [] => [String c EmptyString]
           end
  end.

(** [a.pop()] of the array [split] returns. *)
Definition pop (a : list string) : string := last a EmptyString.

(** White space of one byte: TAB, LF, VT, FF, CR, SPACE. *)
Definition is_space1 (c : ascii) : bool :=
  ((9 <=? code c) && (code c <=? 13)) || (code c =? 32).

(** White space of two bytes in UTF-8: U+00A0. *)
Definition is_space2 (c1 c2 : ascii) : bool :=
  (code c1 =? 194) && (code c2 =? 160).

(** White space of three bytes in UTF-8: U+1680, U+2000..U+200A, U+2028,
    U+2029, U+202F, U+205F, U+3000, U+FEFF. *)
Definition is_space3 (c1 c2 c3 : ascii) : bool :=
  let a := code c1 in
  let b := code c2 in
  let c := code c3 in
  ((a =? 225) && (b =? 154) && (c =? 128))
  || ((a =? 226) && (b =? 128)
      && (((128 <=? c) && (c <=? 138)) || (c =? 168) || (c =? 169) || (c =? 175)))
  || ((a =? 226) && (b =? 129) && (c =? 159))
  || ((a =? 227) && (b =? 128) && (c =? 128))
  || ((a =? 239) && (b =? 187) && (c =? 191)).

(** [s.replace(/[\s_]/g, "")] on the UTF-8 bytes of [s]. *)
Fixpoint strip_space_underscore (s : string) : string :=
  match s with
  | EmptyString => EmptyString
  | String c1 r1 =>
      if is_space1 c1 || (code c1 =? 95) then strip_space_underscore r1
      else
        match r1 with
        | String c2 r2 =>
            if is_space2 c1 c2 then strip_space_underscore r2
            else
              match r2 with
              | String c3 r3 =>
                  if is_space3 c1 c2 c3 then strip_space_underscore r3
                  else String c1 (strip_space_underscore r1)
              | EmptyString => String c1 (strip_space_underscore r1)
              end
        | EmptyString => String c1 EmptyString
        end
  end.

(** [s.toLowerCase()] on the UTF-8 bytes of [s]: the ASCII capitals, and the
    two code points outside ASCII whose lower case contains an ASCII letter
    (U+212A KELVIN SIGN gives k, U+0130 gives i followed by U+0307).  Every
    other letter outside ASCII keeps its bytes; its lower case is outside
    ASCII too, so a comparison with an ASCII string is not affected. *)
Fixpoint toLowerCase (s : string) : string :=
  match s with
  | EmptyString => EmptyString
  | String c1 r1 =>
      if (65 <=? code c1) && (code c1 <=? 90)
      then String (ascii_of_N (Z.to_N (code c1 + 32))) (toLowerCase r1)
      else
        match r1 with
        | String c2 r2 =>
            if (code c1 =? 196) && (code c2 =? 176)
            then String "i" (String (ascii_of_N 204) (String (ascii_of_N 135) (toLowerCase r2)))
            else
              match r2 with
              | String c3 r3 =>
                  if (code c1 =? 226) && (code c2 =? 132) && (code c3 =? 170)
                  then String "k" (toLowerCase r3)
                  else String c1 (toLowerCase r1)
              | EmptyString => String c1 (toLowerCase r1)
              end
        | EmptyString => String c1 EmptyString
        end
  end.

(** [s.replace(/[^0-9.]/g, "")]: every byte of a character outside ASCII is
    dropped, as the character is. *)
Fixpoint keep_digits_dot (s : string) : string :=
  match s with
  | EmptyString => EmptyString
  | String c r =>
      if is_digit c || (code c =? 46) then String c (keep_digits_dot r)
      else keep_digits_dot r
  end.

(** The longest prefix of decimal digits, and what follows it. *)
Fixpoint span_digits (s : string) : string * string :=
  match s with
  | EmptyString => (EmptyString, EmptyString)
  | String c r =>
      if is_digit c
      then let (ds, rest) := span_digits r in (String c ds, rest)
      else (EmptyString, s)
  end.

(** The value of a string of decimal digits read after [acc]. *)
Fixpoint digits_value (acc : Z) (ds : string) : Z :=
  match ds with
  | EmptyString => acc
  | String c r => digits_value (10 * acc + digit_val c) r
  end.

Definition is_hex (c : ascii) : bool :=
  is_digit c || ((97 <=? code c) && (code c <=? 102)) || ((65 <=? code c) && (code c <=? 70)).

Definition hex_val (c : ascii) : Z :=
  if is_digit c then code c - 48
  else if 97 <=? code c then code c - 87 else code c - 55.

Fixpoint span_hex (s : string) : string * string :=
  match s with
  | EmptyString => (EmptyString, EmptyString)
  | String c r =>
      if is_hex c
      then let (ds, rest) := span_hex r in (String c ds, rest)
      else (EmptyString, s)
  end.

Fixpoint hex_value (acc : Z) (ds : string) : Z :=
  match ds with
  | EmptyString => acc
  | String c r => hex_value (16 * acc + hex_val c) r
  end.

(** Leading white space removed (what [parseInt] skips). *)
Fixpoint trim_start (s : string) : string :=
  match s with
  | EmptyString => EmptyString
  | String c1 r1 =>
      if is_space1 c1 then trim_start r1
      else
        match r1 with
        | String c2 r2 =>
            if is_space2 c1 c2 then trim_start r2
            else
              match r2 with
              | String c3 r3 => if is_space3 c1 c2 c3 then trim_start r3 else s
              | EmptyString => s
              end
        | EmptyString => s
        end
  end.

(** The decimal digits at the head of [s] as a number; [NaN] when there is
    none. *)
Definition parse_decimal (s : string) : jsnumber :=
  match span_digits s with
  | (EmptyString, _) => NaN
  | (ds, _) => to_double (inject_Z (digits_value 0 ds))
  end.

(** The digits of [parseInt] after the sign: radix 16 after [0x] or [0X],
    radix 10 otherwise. *)
Definition parse_unsigned (s : string) : jsnumber :=
  match s with
  | String c0 (String x r) =>
      if (code c0 =? 48) && ((code x =? 120) || (code x =? 88))
      then match span_hex r with
           | (EmptyString, _) => NaN
           | (ds, _) => to_double (inject_Z (hex_value 0 ds))
           end
      else parse_decimal s
  | _ => parse_decimal s
  end.

(** [parseInt(s)] with no radix argument: the double nearest to the integer
    the digits denote (the standard lets an implementation drop decimal
    digits after the twentieth; the value here is that of all the digits,
    as V8 reads them). *)
Definition parseInt (s : string) : jsnumber :=
  match trim_start s with
  | String c r =>
      if code c =? 45 then negate (parse_unsigned r)
      else if code c =? 43 then parse_unsigned r
      else parse_unsigned (String c r)
  | EmptyString => NaN
  end.

(** [v + 1]: the sum, rounded as a double is. *)
Definition plus_one (v : jsnumber) : jsnumber :=
  match v with
  | NaN => NaN
  | Inf s => Inf s
  | Num q => to_double (q + 1)
  end.

(** The number a string over the digits and the point denotes, which is
    what [keep_digits_dot] leaves: that of its longest prefix [digits],
    [digits.], [digits.digits] or [.digits]; [None] when there is no such
    prefix. *)
Definition decimal_prefix (s : string) : option Q :=
  let (ip, rest) := span_digits s in
  let fp := match rest with
            | String c r => if code c =? 46 then fst (span_digits r) else EmptyString
            | EmptyString => EmptyString
            end in
  match ip, fp with
  | EmptyString, EmptyString => None
  | _, _ =>
      Some (Qred (Qmake (digits_value 0 (ip ++ fp))
                        (Z.to_pos (10 ^ Z.of_nat (String.length fp)))))
  end.

(** [parseFloat(s)] for a string over the digits and the point: the double
    nearest to the number its prefix denotes (of all its digits, as for
    [parseInt]), NaN when there is none. *)
Definition parseFloat (s : string) : jsnumber :=
  match decimal_prefix s with
  | Some q => to_double q
  | None => NaN
  end.

(** [x || 0] for a number: NaN and zero give 0. *)
Definition number_or_zero (x : jsnumber) : jsnumber :=
  match x with
  | NaN => Num 0
  | Inf s => Inf s
  | Num q => if Qnum q =? 0 then Num 0 else Num q
  end.

(** The digits [s] and the exponent [j] of the decimal [n/d = s * 10^j],
    looked for with [j] from 0 down. *)
Fixpoint decimal_digits (fuel : nat) (n d : Z) (t : Z) : Z * Z :=
  match fuel with
  | O => ((n * 10 ^ t) / d, - t)
  | S f =>
      if (n * 10 ^ t) mod d =? 0 then ((n * 10 ^ t) / d, - t)
      else decimal_digits f n d (t + 1)
  end.

(** [String(v)] for a number of a JSON body. *)
Definition number_text (q : Q) : string :=
  let n := Qnum q in
  let d := Zpos (Qden q) in
  if n =? 0 then "0"
  else
    let (s, j) := decimal_digits 400 (Z.abs n) d 0 in
    (if n <? 0 then "-" else EmptyString) ++ format s j.

End JS.

(* ------------------------------------------------------------------ *)
(** ** The tables of the schema *)

(** Day number of a calendar date (proleptic Gregorian, day 0 is 1970-01-01). *)
Definition ymd (y m d : Z) : Z :=
  let y' := if m <=? 2 then y - 1 else y in
  let era := y' / 400 in
  let yoe := y' - era * 400 in
  let mp := (m + 9) mod 12 in
  let doy := (153 * mp + 2) / 5 + d - 1 in
  let doe := yoe * 365 + yoe / 4 - yoe / 100 + doy in
  era * 146097 + doe - 719468.

Module User.
(** Table [users] ([created_at], [updated_at] left out). *)
Record t : Type := mk {
  id : string;
  name : string;
  email : string;
  phone : option string;
  password_hash : string;
  role : string;
  is_active : bool;
  last_login : option Z
}.

Definition set_last_login (v : option Z) (u : t) : t :=
  mk (id u) (name u) (email u) (phone u) (password_hash u) (role u) (is_active u) v.
End User.

Module Tenant.
(** Table [tenants] ([property_id], which no handler writes, and the two
    timestamps left out).  [rent_per_annum] and [amount_paid] in hundredths. *)
Record t : Type := mk {
  id : string;
  sn : Z;
  tenant_name : string;
  accommodation_type : option string;
  property_address : option string;
  period : option string;
  lease_start : option Z;
  lease_end : option Z;
  rent_per_annum : Z;
  amount_paid : Z;
  phone : option string;
  email : option string;
  whatsapp : option string;
  notes : option string;
  quit_notice : bool;
  quit_notice_date : option Z;
  created_by : option string
}.

Definition set_sn (v : Z) (x : t) : t :=
  mk (id x) v (tenant_name x) (accommodation_type x) (property_address x) (period x)
     (lease_start x) (lease_end x) (rent_per_annum x) (amount_paid x) (phone x)
     (email x) (whatsapp x) (notes x) (quit_notice x) (quit_notice_date x) (created_by x).

Definition set_amount_paid (v : Z) (x : t) : t :=
  mk (id x) (sn x) (tenant_name x) (accommodation_type x) (property_address x) (period x)
     (lease_start x) (lease_end x) (rent_per_annum x) v (phone x)
     (email x) (whatsapp x) (notes x) (quit_notice x) (quit_notice_date x) (created_by x).

Definition set_quit (q : bool) (qd : option Z) (x : t) : t :=
  mk (id x) (sn x) (tenant_name x) (accommodation_type x) (property_address x) (period x)
     (lease_start x) (lease_end x) (rent_per_annum x) (amount_paid x) (phone x)
     (email x) (whatsapp x) (notes x) q qd (created_by x).
End Tenant.

Module Payment.
(** Table [payments]; [amount] in hundredths, [created_at] in seconds. *)
Record t : Type := mk {
  id : string;
  tenant_id : string;
  amount : Z;
  payment_date : Z;
  payment_method : string;
  reference : option string;
  notes : option string;
  receipt_number : option string;
  recorded_by : option string;
  created_at : Z
}.
End Payment.

(** The database: [payments] has the row created last first; [next_sn] is
    the AUTO_INCREMENT counter of [tenants.sn]. *)
Record db : Type := mkdb {
  users : list User.t;
  tenants : list Tenant.t;
  payments : list Payment.t;
  next_sn : Z
}.

Definition with_users (us : list User.t) (d : db) : db :=
  mkdb us (tenants d) (payments d) (next_sn d).

Definition with_tenants (ts : list Tenant.t) (d : db) : db :=
  mkdb (users d) ts (payments d) (next_sn d).

Definition with_payments (ps : list Payment.t) (d : db) : db :=
  mkdb (users d) (tenants d) ps (next_sn d).

(** What a handler catches: a failed statement, or a file the CSV parser
    rejects (the text of [e.message] is the thrower's).
    [ER_TRUNCATED_VALUE] stands for every value a column refuses: a text
    that is no number, a number out of range, a string that is no member of
    an ENUM. *)
Inductive failure : Type :=
| ER_DUP_ENTRY
| ER_NO_REFERENCED_ROW
| ER_BAD_NULL
| ER_TRUNCATED_VALUE
| CSV_INVALID.

(** [SELECT * FROM tenants WHERE id=?], first row. *)
Definition select_tenant (d : db) (id : string) : option Tenant.t :=
  find (fun t => String.eqb (Tenant.id t) id) (tenants d).

(** [SELECT * FROM payments WHERE id=?], first row. *)
Definition select_payment (d : db) (id : string) : option Payment.t :=
  find (fun p => String.eqb (Payment.id p) id) (payments d).

(** [INSERT INTO tenants]: the primary key must be new; [sn] is assigned from
    the counter. *)
Definition insert_tenant (row : Tenant.t) (d : db) : failure + db :=
  match select_tenant d (Tenant.id row) with
  | Some _ => inl ER_DUP_ENTRY
  | None =>
      inr (mkdb (users d) (tenants d ++ [Tenant.set_sn (next_sn d) row])
                (payments d) (next_sn d + 1))
  end.

(** A string bound to an ENUM column is, letter for letter, one of the
    members. *)
Definition enum_member (members : list string) (s : string) : bool :=
  existsb (String.eqb s) members.

(** [payments.payment_method]. *)
Definition payment_methods : list string :=
  ["cash"; "bank_transfer"; "cheque"; "pos"; "online"].

(** [INSERT INTO payments]: [payment_method] must be a member of its ENUM,
    the primary key must be new and the foreign key [tenant_id] must name a
    tenant. *)
Definition insert_payment (row : Payment.t) (d : db) : failure + db :=
  if negb (enum_member payment_methods (Payment.payment_method row))
  then inl ER_TRUNCATED_VALUE
  else
    match select_payment d (Payment.id row) with
    | Some _ => inl ER_DUP_ENTRY
    | None =>
        match select_tenant d (Payment.tenant_id row) with
        | None => inl ER_NO_REFERENCED_ROW
        | Some _ => inr (with_payments (row :: payments d) d)
        end
    end.

(** [UPDATE tenants SET ... WHERE id=?]. *)
Definition update_tenants (id : string) (f : Tenant.t -> Tenant.t) (d : db) : db :=
  with_tenants
    (map (fun t => if String.eqb (Tenant.id t) id then f t else t) (tenants d)) d.

(** [SUM(x)]: NULL values are skipped; NULL when nothing is summed. *)
Definition sql_sum (xs : list (option Z)) : option Z :=
  fold_left
    (fun acc x =>
       match x with
       | None => acc
       | Some v => Some (match acc with None => v | Some a => a + v end)
       end)
    xs None.

(** A comparison as the number SQL makes of it. *)
Definition sql_bool (b : bool) : option Z := Some (if b then 1 else 0).

(** [ORDER BY sn ASC]. *)
Fixpoint insert_by_sn (t : Tenant.t) (l : list Tenant.t) : list Tenant.t :=
  match l with
  | [] => [t]
  | x :: r =>
      if Tenant.sn t <=? Tenant.sn x then t :: x :: r else x :: insert_by_sn t r
  end.

Definition order_by_sn (l : list Tenant.t) : list Tenant.t :=
  fold_right insert_by_sn [] l.

(* ------------------------------------------------------------------ *)
(** ** Environment, requests and responses *)

(** The payload of a bearer token. *)
Record claims : Type := mkclaims {
  c_id : string;
  c_name : string;
  c_email : string;
  c_role : string
}.

(** Everything a handler takes from outside the repository. *)
Record env : Type := mkenv {
  jwt_verify : string -> option claims;       (* None: verification throws *)
  jwt_sign : claims -> string;
  bcrypt_compare : string -> string -> bool;
  uuid : nat -> string;                       (* the n-th identifier drawn by the request *)
  utc_today : Z;                              (* new Date().toISOString().split("T")[0] *)
  full_year : Z;                              (* new Date().getFullYear() *)
  curdate : Z;                                (* CURDATE() *)
  now : Z;                                    (* NOW() *)
  sql_like : string -> string -> bool;        (* pattern, then column value *)
  sql_number_of_string : string -> option Z;  (* character string to DECIMAL(15,2); None: rejected *)
  first_of_ties : nat -> nat;                 (* of n rows that tie for the first place of an
                                                 ORDER BY, in table order, the one returned *)
  sql_same : string -> string -> bool;        (* two identifiers, under the collation of the column *)
  sql_text_of_number : string -> string       (* the text a character column stores for
                                                 the number written so *)
}.

(** The summary row of the statistics query. *)
Record summary : Type := mksummary {
  total_tenants : Z;
  total_rent : option Z;
  total_paid : option Z;
  total_outstanding : option Z;
  quit_count : option Z;
  fully_paid : option Z;
  partial_paid : option Z;
  unpaid_count : option Z;
  expiring_soon : option Z
}.

(** The JSON bodies the handlers send. *)
Inductive json : Type :=
| Error (msg : string)                                   (* { error: msg } *)
| Thrown (err : failure)                              (* { error: e.message } *)
| Success                                                (* { success: true } *)
| TenantList (rows : list Tenant.t)
| TenantRow (row : option Tenant.t)                      (* undefined when no row matches *)
| PaymentRow (row : option (Payment.t * option string))  (* p.*, t.tenant_name *)
| Imported (n : nat) (rows : list (option Tenant.t))     (* { imported, tenants } *)
| Session (token : string) (user : claims) (phone : option string)
                                                         (* { token, user: { id, name, email, role, phone } } *)
| Stats (s : summary).                                   (* { summary, ... } *)

Record response : Type := mkresponse {
  status : Z;
  body : json
}.

Definition reply (code : Z) (b : json) : response := mkresponse code b.

(** The number [n/d], [d > 0], to the nearest integer, a tie away from
    zero. *)
Definition round_half_away (n d : Z) : Z :=
  if 0 <=? n then (2 * n + d) / (2 * d)
  else - ((2 * (- n) + d) / (2 * d)).

(** A decimal in hundredths, rounded as a [DECIMAL(15,2)] column rounds. *)
Definition decimal_of_Q (q : Q) : Z :=
  round_half_away (100 * Qnum q) (Zpos (Qden q)).

(** [amount_paid + ?] for a stored amount of [x] hundredths and the decimal
    [q]: the sum is exact, and is rounded when it is stored. *)
Definition add_decimal (x : Z) (q : Q) : Z :=
  round_half_away (x * Zpos (Qden q) + 100 * Qnum q) (Zpos (Qden q)).

(** What a [DECIMAL(15,2)] column stores for the decimal a statement is
    sent: the decimal rounded to hundredths, when that has at most thirteen
    digits before the point.  [None]: the statement fails. *)
Definition store_decimal (q : Q) : option Z :=
  let z := decimal_of_Q q in
  if Z.abs z <? 10 ^ 15 then Some z else None.

(** The value bound to a [DECIMAL(15,2)] parameter. [None]: the statement
    fails.  The handlers never bind null or undefined to such a parameter. *)
Definition sql_decimal (e : env) (v : JS.jsval) : option Z :=
  match v with
  | JS.JNum q => store_decimal q
  | JS.JBool b => Some (if b then 100 else 0)
  | JS.JStr s => sql_number_of_string e s
  | JS.JNull | JS.JUndefined => None
  end.

(** [amount_paid + ?] on a row whose balance is [x], for the body value [v]
    that an amount column stores as [amount]. *)
Definition sql_plus (v : JS.jsval) (amount x : Z) : Z :=
  match v with
  | JS.JNum q => add_decimal x q
  | _ => x + amount
  end.

(** The same for a number the handler computes: an infinity is sent as a
    word the statement cannot hold. *)
Definition sql_number (v : JS.jsnumber) : option Z :=
  match v with
  | JS.NaN => None
  | JS.Inf _ => None
  | JS.Num q => store_decimal (JS.printed q)
  end.

(** The [auth(roles)] middleware in front of a handler [next]. *)
Definition auth (e : env) (roles : list string) (authorization : option string)
           (next : claims -> db -> db * response) (d : db) : db * response :=
  match authorization with
  | None => (d, reply 401 (Error "No token"))
  | Some h =>
      match nth_error (JS.split " " h) 1 with
      | None => (d, reply 401 (Error "No token"))
      | Some token =>
          if negb (JS.str_truthy token) then (d, reply 401 (Error "No token"))
          else
            match jwt_verify e token with
            | None => (d, reply 401 (Error "Invalid token"))
            | Some decoded =>
                if negb (Nat.eqb (List.length roles) 0)
                   && negb (existsb (String.eqb (c_role decoded)) roles)
                then (d, reply 403 (Error "Forbidden"))
                else next decoded d
            end
      end
  end.

(* ------------------------------------------------------------------ *)
(** ** Authentication *)

(** POST /api/auth/login.  The query selects active accounts only. *)
Definition login (e : env) (email password : option string) (d : db) : db * response :=
  match email, password with
  | Some em, Some pw =>
      if negb (JS.str_truthy em) || negb (JS.str_truthy pw)
      then (d, reply 400 (Error "Email and password required"))
      else
        match find (fun u => String.eqb (User.email u) em && User.is_active u) (users d) with
        | None => (d, reply 401 (Error "Invalid credentials"))
        | Some user =>
            if negb (bcrypt_compare e pw (User.password_hash user))
            then (d, reply 401 (Error "Invalid credentials"))
            else
              let d' :=
                with_users
                  (map (fun u =>
                          if String.eqb (User.id u) (User.id user)
                          then User.set_last_login (Some (now e)) u else u)
                       (users d)) d in
              let payload :=
                mkclaims (User.id user) (User.name user) (User.email user) (User.role user) in
              (d', reply 200 (Session (jwt_sign e payload) payload (User.phone user)))
        end
  | _, _ => (d, reply 400 (Error "Email and password required"))
  end.

(* ------------------------------------------------------------------ *)
(** ** Tenants *)

(** GET /api/tenants: the WHERE clause built from [search] and [status]. *)
Definition tenants_where (e : env) (search status : option string) (t : Tenant.t) : bool :=
  let like (col : option string) : bool :=
    match search, col with
    | Some s, Some v => sql_like e ("%" ++ s ++ "%") v
    | _, _ => false
    end in
  (if JS.opt_truthy search
   then like (Some (Tenant.tenant_name t)) || like (Tenant.accommodation_type t)
        || like (Tenant.property_address t) || like (Tenant.email t)
   else true)
  &&
  match status with
  | Some "paid" =>
      (Tenant.amount_paid t >=? Tenant.rent_per_annum t) && (Tenant.rent_per_annum t >? 0)
  | Some "partial" =>
      (Tenant.amount_paid t >? 0) && (Tenant.amount_paid t <? Tenant.rent_per_annum t)
  | Some "unpaid" => Tenant.amount_paid t =? 0
  | Some "quit" => Tenant.quit_notice t
  | Some "expiring" =>
      match Tenant.lease_end t with
      | Some le => (curdate e <=? le) && (le <=? curdate e + 30)
      | None => false
      end
  | _ => true
  end.

Definition get_tenants (e : env) (search status : option string)
           (user : claims) (d : db) : db * response :=
  (d, reply 200 (TenantList (order_by_sn (filter (tenants_where e search status) (tenants d))))).

(** The body of POST /api/tenants and of PUT /api/tenants/:id. *)
Record tenant_body : Type := mktenant_body {
  b_tenant_name : option string;
  b_accommodation_type : option string;
  b_property_address : option string;
  b_period : option string;
  b_lease_start : option Z;
  b_lease_end : option Z;
  b_rent_per_annum : JS.jsval;
  b_amount_paid : JS.jsval;
  b_phone : option string;
  b_email : option string;
  b_whatsapp : option string;
  b_notes : option string;
  b_quit_notice : JS.jsval
}.

(** POST /api/tenants. *)
Definition post_tenant (e : env) (b : tenant_body) (user : claims) (d : db) : db * response :=
  if negb (JS.opt_truthy (b_tenant_name b))
  then (d, reply 400 (Error "tenant_name required"))
  else
    let id := uuid e 0 in
    match sql_decimal e (JS.or (b_rent_per_annum b) (JS.JNum 0)),
          sql_decimal e (JS.or (b_amount_paid b) (JS.JNum 0)) with
    | Some rent, Some paid =>
        match insert_tenant
                (Tenant.mk id 0
                   (JS.str_or (b_tenant_name b) EmptyString)
                   (Some (JS.str_or (b_accommodation_type b) EmptyString))
                   (Some (JS.str_or (b_property_address b) EmptyString))
                   (Some (JS.str_or (b_period b) EmptyString))
                   (b_lease_start b)
                   (b_lease_end b)
                   rent
                   paid
                   (Some (JS.str_or (b_phone b) EmptyString))
                   (Some (JS.str_or (b_email b) EmptyString))
                   (Some (JS.str_or (b_whatsapp b) EmptyString))
                   (Some (JS.str_or (b_notes b) EmptyString))
                   (JS.truthy (b_quit_notice b))
                   None
                   (Some (c_id user)))
                d with
        | inl err => (d, reply 500 (Thrown err))
        | inr d' => (d', reply 201 (TenantRow (select_tenant d' id)))
        end
    | _, _ => (d, reply 500 (Thrown ER_TRUNCATED_VALUE))
    end.

(** The SET clause of PUT /api/tenants/:id: every mutable column is replaced. *)
Definition replace_columns (b : tenant_body) (name : string) (rent paid : Z)
           (t : Tenant.t) : Tenant.t :=
  Tenant.mk (Tenant.id t) (Tenant.sn t)
    name
    (b_accommodation_type b)
    (b_property_address b)
    (b_period b)
    (b_lease_start b)
    (b_lease_end b)
    rent
    paid
    (b_phone b)
    (b_email b)
    (b_whatsapp b)
    (b_notes b)
    (JS.truthy (b_quit_notice b))
    (Tenant.quit_notice_date t)
    (Tenant.created_by t).

(** PUT /api/tenants/:id.  [tenant_name] is NOT NULL: an omitted name fails
    the statement on a matching row, and changes nothing when no row
    matches; so does an amount the column refuses. *)
Definition put_tenant (e : env) (id : string) (b : tenant_body)
           (user : claims) (d : db) : db * response :=
  match sql_decimal e (JS.or (b_rent_per_annum b) (JS.JNum 0)),
        sql_decimal e (JS.or (b_amount_paid b) (JS.JNum 0)) with
  | Some rent, Some paid =>
      match b_tenant_name b with
      | Some name =>
          let d' := update_tenants id (replace_columns b name rent paid) d in
          (d', reply 200 (TenantRow (select_tenant d' id)))
      | None =>
          match select_tenant d id with
          | Some _ => (d, reply 500 (Thrown ER_BAD_NULL))
          | None => (d, reply 200 (TenantRow None))
          end
      end
  | _, _ =>
      match select_tenant d id with
      | Some _ => (d, reply 500 (Thrown ER_TRUNCATED_VALUE))
      | None => (d, reply 200 (TenantRow None))
      end
  end.

(** PATCH /api/tenants/:id/payment: [amount_paid || 0] is bound with no
    validation; a value the column refuses fails the statement on a
    matching row, and changes nothing when no row matches. *)
Definition patch_tenant_payment (e : env) (id : string) (amount_paid : JS.jsval)
           (user : claims) (d : db) : db * response :=
  match sql_decimal e (JS.or amount_paid (JS.JNum 0)) with
  | Some v =>
      let d' := update_tenants id (Tenant.set_amount_paid v) d in
      (d', reply 200 (TenantRow (select_tenant d' id)))
  | None =>
      match select_tenant d id with
      | Some _ => (d, reply 500 (Thrown ER_TRUNCATED_VALUE))
      | None => (d, reply 200 (TenantRow None))
      end
  end.

(** PATCH /api/tenants/:id/quit. *)
Definition patch_tenant_quit (e : env) (id : string) (quit_notice : JS.jsval)
           (user : claims) (d : db) : db * response :=
  let d' :=
    update_tenants id
      (Tenant.set_quit (JS.truthy quit_notice)
                       (if JS.truthy quit_notice then Some (utc_today e) else None))
      d in
  (d', reply 200 (TenantRow (select_tenant d' id))).

(** DELETE /api/tenants/:id: the payments of the tenant go with it
    (ON DELETE CASCADE). *)
Definition delete_tenant (id : string) (user : claims) (d : db) : db * response :=
  (mkdb (users d)
        (filter (fun t => negb (String.eqb (Tenant.id t) id)) (tenants d))
        (filter (fun p => negb (String.eqb (Payment.tenant_id p) id)) (payments d))
        (next_sn d),
   reply 200 Success).

(* ------------------------------------------------------------------ *)
(** ** CSV import *)

(** A record of the parsed file: header and value of every column, in the
    order of the columns ([Object.keys]); a header occurs once. *)
Definition csv_row : Type := list (string * string).

(** [row[f]]. *)
Definition row_get (row : csv_row) (f : string) : string :=
  match find (fun kv => String.eqb (fst kv) f) row with
  | Some kv => snd kv
  | None => EmptyString
  end.

Definition normalize (s : string) : string :=
  JS.strip_space_underscore (JS.toLowerCase s).

(** The closure [g] of the import loop. *)
Fixpoint g (row : csv_row) (keys : list string) : string :=
  match keys with
  | [] => EmptyString
  | k :: ks =>
      match find (fun rk => String.eqb (normalize rk) (normalize k)) (map fst row) with
      | Some f =>
          if JS.str_truthy f && JS.str_truthy (row_get row f)
          then row_get row f
          else g row ks
      | None => g row ks
      end
  end.

(** [parseFloat(s.replace(/[^0-9.]/g, "")) || 0], as the column stores it;
    [None]: the column refuses it. *)
Definition csv_number (s : string) : option Z :=
  sql_number (JS.number_or_zero (JS.parseFloat (JS.keep_digits_dot s))).

(** The row an accepted record inserts, with the numbers as stored. *)
Definition csv_row_of (id : string) (user : claims) (row : csv_row)
           (rent paid : Z) : Tenant.t :=
  Tenant.mk id 0
    (g row ["nameoftenant"; "tenant"; "name"])
    (Some (g row ["typeofaccommodation"; "type"; "accommodation"]))
    (Some (g row ["property"; "address"; "block"]))
    (Some (g row ["period"]))
    None
    None
    rent
    paid
    (Some (g row ["phone"; "mobile"]))
    (Some (g row ["email"]))
    None
    (Some (g row ["notes"; "remarks"]))
    (String.eqb (JS.toLowerCase (g row ["quitnotice"; "quit"])) "yes")
    None
    (Some (c_id user)).

(** The row an accepted record inserts; [None] when the statement fails on
    one of its two numbers. *)
Definition csv_tenant (id : string) (user : claims) (row : csv_row) : option Tenant.t :=
  match csv_number (g row ["rentperannum"; "rent"]),
        csv_number (g row ["amountpaid"; "paid"]) with
  | Some rent, Some paid => Some (csv_row_of id user row rent paid)
  | _, _ => None
  end.

(** The loop over the records: [k] identifiers have been drawn, [inserted]
    is the array built so far. *)
Fixpoint import_rows (e : env) (user : claims) (rows : list csv_row) (k : nat)
         (inserted : list (option Tenant.t)) (d : db) : db * response :=
  match rows with
  | [] => (d, reply 200 (Imported (List.length inserted) inserted))
  | row :: rest =>
      if negb (JS.str_truthy (g row ["nameoftenant"; "tenant"; "name"]))
      then import_rows e user rest k inserted d
      else
        let id := uuid e k in
        match csv_tenant id user row with
        | None => (d, reply 500 (Thrown ER_TRUNCATED_VALUE))
        | Some t =>
            match insert_tenant t d with
            | inl err => (d, reply 500 (Thrown err))
            | inr d' =>
                import_rows e user rest (S k) (inserted ++ [select_tenant d' id]) d'
            end
        end
  end.

(** What the upload middleware and the CSV parser hand over. *)
Inductive upload : Type :=
| NoFile
| Unparsable
| Records (rows : list csv_row).

(** POST /api/tenants/import. *)
Definition import_tenants (e : env) (file : upload) (user : claims) (d : db) : db * response :=
  match file with
  | NoFile => (d, reply 400 (Error "No file"))
  | Unparsable => (d, reply 500 (Thrown CSV_INVALID))
  | Records rows => import_rows e user rows 0 [] d
  end.

(* ------------------------------------------------------------------ *)
(** ** Payments *)

(** The body of POST /api/payments. *)
Record payment_body : Type := mkpayment_body {
  b_tenant_id : option string;
  b_amount : JS.jsval;
  b_payment_date : option Z;
  b_payment_method : option string;
  b_reference : option string;
  b_payment_notes : option string
}.

(** The rows that no row was created after, in table order. *)
Definition newest (ps : list Payment.t) : list Payment.t :=
  filter (fun p => forallb (fun q => Payment.created_at q <=? Payment.created_at p) ps) ps.

(** [SELECT receipt_number FROM payments ORDER BY created_at DESC LIMIT 1]:
    the row created last; among several created within the same second,
    the one the server returns. *)
Definition lastReceipt (e : env) (d : db) : option Payment.t :=
  match newest (payments d) with
  | [] => None
  | p :: ps => Some (nth (first_of_ties e (List.length (p :: ps))) (p :: ps) p)
  end.

(** The constant [lastNum] of POST /api/payments, the sequence number of the
    next receipt: one more than what [parseInt] reads after the last dash of
    the receipt number of the payment created last, 1 when there is no
    payment or its receipt number is null or empty. *)
Definition lastNum (e : env) (d : db) : JS.jsnumber :=
  match lastReceipt e d with
  | Some p =>
      match Payment.receipt_number p with
      | Some r =>
          if JS.str_truthy r
          then JS.plus_one (JS.parseInt (JS.pop (JS.split "-" r)))
          else JS.Num 1
      | None => JS.Num 1
      end
  | None => JS.Num 1
  end.

(** The constant [receipt_number] of POST /api/payments. *)
Definition next_receipt_number (e : env) (d : db) : string :=
  "RCP-" ++ JS.show_Z (full_year e) ++ "-"
  ++ JS.padStart 4 "0" (JS.to_String (lastNum e d)).

(** POST /api/payments: the insert, then the update of the balance. *)
Definition post_payment (e : env) (b : payment_body) (user : claims) (d : db) : db * response :=
  match b_tenant_id b with
  | Some tenant_id =>
      if negb (JS.str_truthy tenant_id) || negb (JS.truthy (b_amount b))
      then (d, reply 400 (Error "tenant_id and amount required"))
      else
        let receipt_number := next_receipt_number e d in
        let id := uuid e 0 in
        match sql_decimal e (b_amount b) with
        | None => (d, reply 500 (Thrown ER_TRUNCATED_VALUE))
        | Some amount =>
            match insert_payment
                    (Payment.mk id tenant_id amount
                       (match b_payment_date b with Some pd => pd | None => utc_today e end)
                       (JS.str_or (b_payment_method b) "cash")
                       (Some (JS.str_or (b_reference b) EmptyString))
                       (Some (JS.str_or (b_payment_notes b) EmptyString))
                       (Some receipt_number)
                       (Some (c_id user))
                       (now e))
                    d with
            | inl err => (d, reply 500 (Thrown err))
            | inr d1 =>
                let d2 :=
                  update_tenants tenant_id
                    (fun t => Tenant.set_amount_paid
                                (sql_plus (b_amount b) amount (Tenant.amount_paid t)) t) d1 in
                (d2, reply 201
                       (PaymentRow
                          (match select_payment d2 id with
                           | Some p =>
                               Some (p, option_map Tenant.tenant_name
                                          (select_tenant d2 (Payment.tenant_id p)))
                           | None => None
                           end)))
            end
        end
  | None => (d, reply 400 (Error "tenant_id and amount required"))
  end.

(** DELETE /api/payments/:id. *)
Definition delete_payment (id : string) (user : claims) (d : db) : db * response :=
  match select_payment d id with
  | None => (d, reply 404 (Error "Not found"))
  | Some p =>
      let d1 :=
        update_tenants (Payment.tenant_id p)
          (fun t => Tenant.set_amount_paid
                      (Z.max 0 (Tenant.amount_paid t - Payment.amount p)) t) d in
      (with_payments
         (filter (fun q => negb (String.eqb (Payment.id q) id)) (payments d1)) d1,
       reply 200 Success)
  end.

(* ------------------------------------------------------------------ *)
(** ** Statistics *)

(** GET /api/stats: the summary row (the three other result sets of the
    response are not modelled). *)
Definition stats_summary (e : env) (d : db) : summary :=
  let ts := tenants d in
  mksummary
    (Z.of_nat (List.length ts))
    (sql_sum (map (fun t => Some (Tenant.rent_per_annum t)) ts))
    (sql_sum (map (fun t => Some (Tenant.amount_paid t)) ts))
    (sql_sum (map (fun t => Some (Z.max 0 (Tenant.rent_per_annum t - Tenant.amount_paid t))) ts))
    (sql_sum (map (fun t => sql_bool (Tenant.quit_notice t)) ts))
    (sql_sum (map (fun t => sql_bool ((Tenant.amount_paid t >=? Tenant.rent_per_annum t)
                                      && (Tenant.rent_per_annum t >? 0))) ts))
    (sql_sum (map (fun t => sql_bool ((Tenant.amount_paid t >? 0)
                                      && (Tenant.amount_paid t <? Tenant.rent_per_annum t))) ts))
    (sql_sum (map (fun t => sql_bool (Tenant.amount_paid t =? 0)) ts))
    (sql_sum (map (fun t => match Tenant.lease_end t with
                            | Some le => sql_bool ((curdate e <=? le) && (le <=? curdate e + 30))
                            | None => None
                            end) ts)).

Definition get_stats (e : env) (user : claims) (d : db) : db * response :=
  (d, reply 200 (Stats (stats_summary e d))).

(* ------------------------------------------------------------------ *)
(** ** The routes *)

(** A request to one of the modelled routes, with its [Authorization] header. *)
Inductive request : Type :=
| PostLogin (email password : option string)
| GetTenants (authorization : option string) (search status : option string)
| PostTenant (authorization : option string) (b : tenant_body)
| PutTenant (authorization : option string) (id : string) (b : tenant_body)
| PatchTenantPayment (authorization : option string) (id : string) (amount_paid : JS.jsval)
| PatchTenantQuit (authorization : option string) (id : string) (quit_notice : JS.jsval)
| DeleteTenant (authorization : option string) (id : string)
| PostTenantsImport (authorization : option string) (file : upload)
| PostPayment (authorization : option string) (b : payment_body)
| DeletePayment (authorization : option string) (id : string)
| GetStats (authorization : option string).

(** The application: the route table of [src/index.js]. *)
Definition app (e : env) (r : request) (d : db) : db * response :=
  match r with
  | PostLogin email password => login e email password d
  | GetTenants a search status => auth e [] a (get_tenants e search status) d
  | PostTenant a b => auth e [] a (post_tenant e b) d
  | PutTenant a id b => auth e [] a (put_tenant e id b) d
  | PatchTenantPayment a id v => auth e [] a (patch_tenant_payment e id v) d
  | PatchTenantQuit a id v => auth e [] a (patch_tenant_quit e id v) d
  | DeleteTenant a id => auth e ["admin"; "manager"] a (delete_tenant id) d
  | PostTenantsImport a file => auth e [] a (import_tenants e file) d
  | PostPayment a b => auth e [] a (post_payment e b) d
  | DeletePayment a id => auth e ["admin"; "manager"] a (delete_payment id) d
  | GetStats a => auth e [] a (get_stats e) d
  end.

(** A run of the server: every request is served in its own environment. *)
Fixpoint run (reqs : list (env * request)) (d : db) : db :=
  match reqs with
  | [] => d
  | (e, r) :: rest => run rest (fst (app e r d))
  end.

(* ------------------------------------------------------------------ *)
(** ** The seed rows of the schema file, and an environment to run them in *)

Definition seed_admin : User.t :=
  User.mk "admin-001" "Admin User" "admin@estateiq.ng" (Some "08000000000")
          "$2b$10$92IXUNpkjO0rOQ5byMi.Ye4oKoEa3Ro9llC/.og/at2.uheWG/igi"
          "admin" true None.

Definition seed_tenant (id : string) (sn : Z) (name type addr period : string)
           (ls le : Z) (rent paid : Z) (phone email : string) (quit : bool) : Tenant.t :=
  Tenant.mk id sn name (Some type) (Some addr) (Some period) (Some ls) (Some le)
            (rent * 100) (paid * 100) (Some phone) (Some email) (Some phone) None
            quit None None.

Definition seed_tenants : list Tenant.t :=
  [ seed_tenant "t-001" 1 "Adebayo Okafor" "2-Bedroom Flat" "Block A, No. 5"
      "Jan 2024 - Dec 2024" (ymd 2024 1 1) (ymd 2024 12 31) 480000 480000
      "08012345678" "adebayo@email.com" false;
    seed_tenant "t-002" 2 "Ngozi Eze" "Self-Contain" "Block B, No. 2"
      "Mar 2024 - Feb 2025" (ymd 2024 3 1) (ymd 2025 2 28) 220000 150000
      "08023456789" "ngozi@email.com" false;
    seed_tenant "t-003" 3 "Emeka Nwosu" "3-Bedroom Flat" "Block C, No. 1"
      "Jun 2023 - May 2024" (ymd 2023 6 1) (ymd 2024 5 31) 650000 0
      "08034567890" "emeka@email.com" true;
    seed_tenant "t-004" 4 "Fatima Bello" "1-Bedroom Flat" "Block A, No. 8"
      "Apr 2024 - Mar 2025" (ymd 2024 4 1) (ymd 2025 3 31) 320000 320000
      "08045678901" "fatima@email.com" false;
    seed_tenant "t-005" 5 "Chukwudi Obi" "Self-Contain" "Block D, No. 3"
      "Feb 2024 - Jan 2025" (ymd 2024 2 1) (ymd 2025 1 31) 200000 100000
      "08056789012" "chukwudi@email.com" false ].

(** The second in which the seed rows are created. *)
Definition seed_time : Z := 1704067200.

Definition seed_payment (id tenant : string) (amount : Z) (date : Z)
           (method receipt : string) : Payment.t :=
  Payment.mk id tenant (amount * 100) date method None None (Some receipt) None seed_time.

(** The four seed payments, the last one of the INSERT first (their
    identifiers are drawn by the server; the names here stand for them). *)
Definition seed_payments : list Payment.t :=
  [ seed_payment "seed-p4" "t-005" 100000 (ymd 2024 2 15) "pos" "RCP-2024-004";
    seed_payment "seed-p3" "t-004" 320000 (ymd 2024 4 2) "bank_transfer" "RCP-2024-003";
    seed_payment "seed-p2" "t-002" 150000 (ymd 2024 3 10) "cash" "RCP-2024-002";
    seed_payment "seed-p1" "t-001" 480000 (ymd 2024 1 5) "bank_transfer" "RCP-2024-001" ].

Definition seed_db : db := mkdb [seed_admin] seed_tenants seed_payments 6.

Definition empty_db : db := mkdb [] [] [] 1.

Definition admin_claims : claims :=
  mkclaims "admin-001" "Admin User" "admin@estateiq.ng" "admin".

Definition staff_claims : claims :=
  mkclaims "staff-007" "Front Desk" "desk@estateiq.ng" "staff".

(** An environment for the examples: two tokens verify, the seed password
    matches the seed hash, identifiers are numbered, the clock stands at
    2025-03-01, [LIKE] and the string conversion accept nothing, of rows
    that tie the first in table order is returned, identifiers are compared
    letter for letter, a number is stored in a character column as it is
    written. *)
Definition demo_env : env :=
  mkenv
    (fun token =>
       if String.eqb token "admin-token" then Some admin_claims
       else if String.eqb token "staff-token" then Some staff_claims
       else None)
    (fun c => "token-of-" ++ c_id c)
    (fun pw hash =>
       String.eqb pw "Admin@1234"
       && String.eqb hash "$2b$10$92IXUNpkjO0rOQ5byMi.Ye4oKoEa3Ro9llC/.og/at2.uheWG/igi")
    (fun n => "uuid-" ++ JS.show_Z (Z.of_nat n))
    (ymd 2025 3 1)
    2025
    (ymd 2025 3 1)
    1740787200
    (fun _ _ => false)
    (fun _ => None)
    (fun _ => 0%nat)
    String.eqb
    (fun s => s).

(* ------------------------------------------------------------------ *)
(** ** Requests and rows of the examples *)

Definition demo_payment : payment_body :=
  mkpayment_body (Some "t-002") (JS.JNum 50000) None None None None.

Definition seed_t002 : Tenant.t :=
  seed_tenant "t-002" 2 "Ngozi Eze" "Self-Contain" "Block B, No. 2"
    "Mar 2024 - Feb 2025" (ymd 2024 3 1) (ymd 2025 2 28) 220000 150000
    "08023456789" "ngozi@email.com" false.


(** The environment of the day after [demo_env]'s. *)
Definition next_day_env : env :=
  mkenv (jwt_verify demo_env) (jwt_sign demo_env) (bcrypt_compare demo_env)
        (uuid demo_env) (ymd 2025 3 2) 2025 (ymd 2025 3 2) 1740873600
        (sql_like demo_env) (sql_number_of_string demo_env)
        (first_of_ties demo_env) (sql_same demo_env) (sql_text_of_number demo_env).




(** The toggle to quit notice, sent on the first day and again on the next. *)
Definition quit_toggle : request :=
  PatchTenantQuit (Some "Bearer staff-token") "t-002" (JS.JBool true).

Definition toggled_once : db := fst (app demo_env quit_toggle seed_db).

Definition toggled_twice : db := fst (app next_day_env quit_toggle toggled_once).

(** A payment of a negative amount, and a balance patch to a negative value. *)
Definition negative_payment : payment_body :=
  mkpayment_body (Some "t-002") (JS.JNum (-500)) None None None None.

Definition negative_patch : request :=
  PatchTenantPayment (Some "Bearer staff-token") "t-002" (JS.JNum (-100)).

(** A day at the front desk: a payment is recorded, a seed payment is
    deleted, a balance is corrected, a tenant gives notice. *)
Definition demo_day : list (env * request) :=
  [ (demo_env, PostPayment (Some "Bearer admin-token") demo_payment);
    (demo_env, DeletePayment (Some "Bearer admin-token") "seed-p2");
    (demo_env, PatchTenantPayment (Some "Bearer staff-token") "t-005" (JS.JNum 200000));
    (next_day_env, quit_toggle) ].

(** The seed database with a second account, disabled. *)
Definition former_manager : User.t :=
  User.mk "user-002" "Former Manager" "former@estateiq.ng" None
          "$2b$10$92IXUNpkjO0rOQ5byMi.Ye4oKoEa3Ro9llC/.og/at2.uheWG/igi"
          "manager" false None.

Definition staffed_db : db := with_users [seed_admin; former_manager] seed_db.




(** The ledger scenario of the specification: a tenant with rent 200000.00
    and nothing paid; a payment of 50000.00; a payment of 150000.00; the
    second payment deleted. *)
Definition scenario_tenant : tenant_body :=
  mktenant_body (Some "Scenario Tenant") None None None None None
                (JS.JNum 200000) (JS.JNum 0) None None None None JS.JUndefined.

Definition scenario_env (id : string) : env :=
  mkenv (jwt_verify demo_env) (jwt_sign demo_env) (bcrypt_compare demo_env)
        (fun _ => id) (utc_today demo_env) (full_year demo_env) (curdate demo_env)
        (now demo_env) (sql_like demo_env) (sql_number_of_string demo_env)
        (first_of_ties demo_env) (sql_same demo_env) (sql_text_of_number demo_env).

Definition scenario_pay (amount : Q) : request :=
  PostPayment (Some "Bearer admin-token")
              (mkpayment_body (Some "t-new") (JS.JNum amount) None None None None).

Definition scenario_1 : db :=
  run [(scenario_env "t-new", PostTenant (Some "Bearer admin-token") scenario_tenant)] empty_db.

Definition scenario_2 : db := run [(scenario_env "pay-1", scenario_pay 50000)] scenario_1.

Definition scenario_3 : db := run [(scenario_env "pay-2", scenario_pay 150000)] scenario_2.

Definition scenario_4 : db :=
  run [(demo_env, DeletePayment (Some "Bearer admin-token") "pay-2")] scenario_3.

(* ------------------------------------------------------------------ *)
(** ** Vocabulary of the statements *)

(** The header [h] carries a token the verifier accepts as [user]. *)
Definition authenticates (e : env) (h : string) (user : claims) : Prop :=
  exists token,
    nth_error (JS.split " " h) 1 = Some token
    /\ JS.str_truthy token = true
    /\ jwt_verify e token = Some user.

(** The role of [user] is one of [roles], or no role is required. *)
Definition permitted (roles : list string) (user : claims) : Prop :=
  roles = [] \/ In (c_role user) roles.

(** The rows a listing returns. *)
Definition listing (r : db * response) : list Tenant.t :=
  match body (snd r) with
  | TenantList rows => rows
  | _ => []
  end.

(** The search term [s] is found in the column [col]: the column is not
    null and the server's [LIKE] accepts it against the term between two
    percent signs. *)
Definition column_like (e : env) (s : string) (col : option string) : Prop :=
  exists v, col = Some v /\ sql_like e ("%" ++ s ++ "%") v = true.

(** The tenant passes the search of a listing: no search is given, or an
    empty one, or the term is found in the name, the accommodation type,
    the address or the e-mail address. *)
Definition matches_search (e : env) (search : option string) (t : Tenant.t) : Prop :=
  match search with
  | None => True
  | Some s =>
      s = EmptyString
      \/ column_like e s (Some (Tenant.tenant_name t))
      \/ column_like e s (Tenant.accommodation_type t)
      \/ column_like e s (Tenant.property_address t)
      \/ column_like e s (Tenant.email t)
  end.

(** The identifiers a status listing returns. *)
Definition listed_ids (status : string) (d : db) : list string :=
  map Tenant.id (listing (get_tenants demo_env None (Some status) admin_claims d)).

(** The summary a statistics response carries. *)
Definition summary_of (r : db * response) : option summary :=
  match body (snd r) with
  | Stats s => Some s
  | _ => None
  end.

(** The derived payment status as the specification words it, on the pair
    (amount_paid, rent_per_annum). *)
Definition spec_paid (amount_paid rent_per_annum : Z) : Prop :=
  rent_per_annum > 0 /\ amount_paid >= rent_per_annum.

Definition spec_partial (amount_paid rent_per_annum : Z) : Prop :=
  0 < amount_paid /\ amount_paid < rent_per_annum.

Definition spec_unpaid (amount_paid rent_per_annum : Z) : Prop :=
  amount_paid = 0.

(** The same three predicates as decision procedures, for counting. *)
Definition is_paid (amount_paid rent_per_annum : Z) : bool :=
  (rent_per_annum >? 0) && (amount_paid >=? rent_per_annum).

Definition is_partial (amount_paid rent_per_annum : Z) : bool :=
  (0 <? amount_paid) && (amount_paid <? rent_per_annum).

Definition is_unpaid (amount_paid rent_per_annum : Z) : bool :=
  amount_paid =? 0.

(** The number of tenants whose pair satisfies [p]; NULL on an empty table,
    as SUM is. *)
Definition counted (p : Z -> Z -> bool) (d : db) : option Z :=
  match tenants d with
  | [] => None
  | ts =>
      Some (Z.of_nat
              (List.length
                 (filter (fun t => p (Tenant.amount_paid t) (Tenant.rent_per_annum t)) ts)))
  end.


(** A number that is not negative. *)
Definition nonneg_number (v : JS.jsnumber) : Prop :=
  match v with
  | JS.NaN => True
  | JS.Inf s => s = false
  | JS.Num q => 0 <= Qnum q
  end.

(** A body value that is a positive number. *)
Definition amount_positive (v : JS.jsval) : Prop :=
  exists q, v = JS.JNum q /\ (0 < q)%Q.

(** Whatever the statement stores for the body value [v] is not negative. *)
Definition supplies_nonneg (e : env) (v : JS.jsval) : Prop :=
  forall z, sql_decimal e v = Some z -> 0 <= z.

(** The amounts a request supplies are not negative: the amount_paid of a
    create, a full update or a payment-only patch, the amount of a payment. *)
Definition request_nonneg (e : env) (r : request) : Prop :=
  match r with
  | PostTenant _ b => supplies_nonneg e (JS.or (b_amount_paid b) (JS.JNum 0))
  | PutTenant _ _ b => supplies_nonneg e (JS.or (b_amount_paid b) (JS.JNum 0))
  | PatchTenantPayment _ _ v => supplies_nonneg e (JS.or v (JS.JNum 0))
  | PostPayment _ b => supplies_nonneg e (b_amount b)
  | _ => True
  end.

(** Every stored balance is non-negative. *)
Definition balances_nonneg (d : db) : Prop :=
  Forall (fun t => 0 <= Tenant.amount_paid t) (tenants d).

(** The receipt number of year [y] and sequence [n], as the specification
    words it: the sequence in decimal, padded with zeros to four digits. *)
Definition receipt_form (y n : Z) : string :=
  "RCP-" ++ JS.show_Z y ++ "-" ++ JS.padStart 4 "0" (JS.show_Z n).

(** A string of decimal digits. *)
Fixpoint all_digits (s : string) : bool :=
  match s with
  | EmptyString => true
  | String c r => JS.is_digit c && all_digits r
  end.

(** What [parseInt] is given when a receipt number is read back: the part
    after its last dash; and the number of that part when it is made of
    decimal digits. *)
Definition suffix (r : string) : string := JS.pop (JS.split "-" r).


(** Every payment has a receipt number that ends, after its last dash, in a
    non-empty string of decimal digits (the seed rows and every row the
    handler inserts do). *)
Definition receipts_wellformed (d : db) : Prop :=
  Forall (fun p =>
            exists r,
              Payment.receipt_number p = Some r
              /\ suffix r <> EmptyString
              /\ all_digits (suffix r) = true)
         (payments d).










(** The relation between a tenant row before and after a statement that
    rewrites [amount_paid] by [f] on the rows of identifier [id] and leaves
    every other row alone. *)
Definition balance_rewritten (id : string) (f : Z -> Z) (t t' : Tenant.t) : Prop :=
  if String.eqb (Tenant.id t) id
  then t' = Tenant.set_amount_paid (f (Tenant.amount_paid t)) t
  else t' = t.

(* ------------------------------------------------------------------ *)
(** ** The other tables and their routes

    The conventions are those of the ledger.  In addition:
    - the tables [maintenance], [notifications] and [message_log] keep the
      most recently created row first; [users] keeps the order of creation;
    - where a statement compares character strings (a key, a WHERE clause,
      the UNIQUE index of [users.email]) the comparison is the equality of
      the strings, as under a binary collation; the collation is the
      server's and the repository does not fix it.  The one statement whose
      parameter the handler has compared itself before, the DELETE of an
      account, takes the comparison from the environment;
    - the foreign keys of [maintenance] and [notifications] are enforced
      with their ON DELETE SET NULL; NOT NULL of [users.name] and
      [users.email] by the updates. *)

(** The decision of the [auth(roles)] middleware, apart from the handler it
    guards: the refusal it sends, or the decoded token it hands on as
    [req.user]. *)
Definition auth_gate (e : env) (roles : list string) (authorization : option string)
  : response + claims :=
  match authorization with
  | None => inl (reply 401 (Error "No token"))
  | Some h =>
      match nth_error (JS.split " " h) 1 with
      | None => inl (reply 401 (Error "No token"))
      | Some token =>
          if negb (JS.str_truthy token) then inl (reply 401 (Error "No token"))
          else
            match jwt_verify e token with
            | None => inl (reply 401 (Error "Invalid token"))
            | Some decoded =>
                if negb (Nat.eqb (List.length roles) 0)
                   && negb (existsb (String.eqb (c_role decoded)) roles)
                then inl (reply 403 (Error "Forbidden"))
                else inr decoded
            end
      end
  end.

Module Maintenance.
(** Table [maintenance] ([images], which no handler writes, and
    [updated_at] left out; [created_at] is the position in the table). *)
Record t : Type := mk {
  id : string;
  tenant_id : option string;
  tenant_name : option string;
  property_address : option string;
  category : option string;
  title : string;
  description : option string;
  priority : option string;
  status : option string;
  assigned_to : option string;
  resolved_at : option Z
}.
End Maintenance.

Module Notification.
(** Table [notifications] ([created_at] is the position in the table). *)
Record t : Type := mk {
  id : string;
  type : string;
  title : string;
  message : option string;
  tenant_id : option string;
  user_id : option string;
  is_read : bool
}.

Definition set_is_read (v : bool) (n : t) : t :=
  mk (id n) (type n) (title n) (message n) (tenant_id n) (user_id n) v.
End Notification.

Module MessageLog.
(** Table [message_log] ([created_at] is the position in the table). *)
Record t : Type := mk {
  id : string;
  tenant_id : option string;
  tenant_name : option string;
  phone : option string;
  channel : option string;
  message : option string;
  status : option string;
  sent_by : option string
}.
End MessageLog.

(** The whole database: the tables of the ledger and the three others, each
    of these with its most recently created row first.  In [users (base s)]
    the rows stand in the order of their creation. *)
Record store : Type := mkstore {
  base : db;
  maintenance : list Maintenance.t;
  notifications : list Notification.t;
  message_log : list MessageLog.t
}.

Definition with_base (d : db) (s : store) : store :=
  mkstore d (maintenance s) (notifications s) (message_log s).

Definition with_maintenance (ms : list Maintenance.t) (s : store) : store :=
  mkstore (base s) ms (notifications s) (message_log s).

Definition with_notifications (ns : list Notification.t) (s : store) : store :=
  mkstore (base s) (maintenance s) ns (message_log s).

Definition with_message_log (ls : list MessageLog.t) (s : store) : store :=
  mkstore (base s) (maintenance s) (notifications s) ls.

(** What these routes take from outside the repository besides [env]:
    [bcrypt.hash(password, 10)] and [Number(x).toLocaleString("en-NG")] of
    an amount in hundredths. *)
Record services : Type := mkservices {
  bcrypt_hash : string -> string;
  toLocaleString : Z -> string
}.

(** What a handler of these routes catches: a failed statement, a property
    read on [undefined], or an argument bcrypt refuses. *)
Inductive exception : Type :=
| Sql (err : failure)
| TypeError
| BcryptError.

(** [SELECT id,name,email,role,phone FROM users]. *)
Record account : Type := mkaccount {
  a_id : string;
  a_name : string;
  a_email : string;
  a_role : string;
  a_phone : option string
}.

Definition account_of (u : User.t) : account :=
  mkaccount (User.id u) (User.name u) (User.email u) (User.role u) (User.phone u).

(** The columns of the tenant portal. *)
Record portal_tenant : Type := mkportal_tenant {
  pt_id : string;
  pt_tenant_name : string;
  pt_accommodation_type : option string;
  pt_property_address : option string;
  pt_period : option string;
  pt_lease_start : option Z;
  pt_lease_end : option Z;
  pt_rent_per_annum : Z;
  pt_amount_paid : Z;
  pt_phone : option string
}.

Record portal_payment : Type := mkportal_payment {
  pp_amount : Z;
  pp_payment_date : Z;
  pp_payment_method : string;
  pp_receipt_number : option string
}.

(** The rows of the three alert queries. *)
Record expiring_row : Type := mkexpiring_row {
  ex_id : string;
  ex_tenant_name : string;
  ex_property_address : option string;
  ex_lease_end : Z;
  ex_phone : option string;
  ex_days_remaining : Z
}.

Record overdue_row : Type := mkoverdue_row {
  ov_id : string;
  ov_tenant_name : string;
  ov_property_address : option string;
  ov_rent_per_annum : Z;
  ov_amount_paid : Z;
  ov_phone : option string;
  ov_amount_owed : Z
}.

Record quit_row : Type := mkquit_row {
  qn_id : string;
  qn_tenant_name : string;
  qn_property_address : option string;
  qn_quit_notice_date : option Z;
  qn_phone : option string
}.

(** An entry of the [links] array of the bulk reminder; [rm_amount_owed]
    is the number to the nearest hundredth. *)
Record reminder : Type := mkreminder {
  rm_tenant : string;
  rm_phone : string;
  rm_link : string;
  rm_amount_owed : Z
}.

(** The JSON bodies of these routes. *)
Inductive json_ext : Type :=
| Core (j : json)                                    (* a body of the ledger routes *)
| Raised (x : exception)                             (* { error: e.message } *)
| AccountRow (row : option account)
| AccountList (rows : list (account * bool * option Z))
                                                     (* ..., is_active, last_login *)
| TenantDetail (t : Tenant.t) (payments : list Payment.t)
               (maintenance : list Maintenance.t)    (* { ...t, payments, maintenance } *)
| PaymentList (rows : list (Payment.t * option string * option string))
                                                     (* p.*, t.tenant_name, t.property_address *)
| TicketRow (row : option Maintenance.t)
| TicketList (rows : list (Maintenance.t * option string))
                                                     (* m.*, assigned_name *)
| NotificationList (rows : list Notification.t)
| MessageSent (id : string) (whatsapp_link : string) (* { success, id, whatsapp_link, message } *)
| MessageList (rows : list MessageLog.t)
| Reminders (sent : nat) (links : list reminder)     (* { sent, links } *)
| AlertLists (expiring : list expiring_row) (overdue : list overdue_row)
             (quitNotices : list quit_row)
| PortalView (t : portal_tenant) (payments : list portal_payment).

Record response_ext : Type := mkresponse_ext {
  status_ext : Z;
  body_ext : json_ext
}.

Definition answer (code : Z) (b : json_ext) : response_ext := mkresponse_ext code b.

(** A refusal of the middleware, or a response of a ledger route, as a
    response of these routes. *)
Definition lift (r : response) : response_ext := answer (status r) (Core (body r)).

(** The middleware in front of a handler on the whole database. *)
Definition guarded (e : env) (roles : list string) (authorization : option string)
           (next : claims -> store -> store * response_ext) (s : store)
  : store * response_ext :=
  match auth_gate e roles authorization with
  | inl refusal => (s, lift refusal)
  | inr decoded => next decoded s
  end.

(** [ORDER BY]: a stable insertion sort; [le x y] says that [x] may stand
    before [y]. *)
Fixpoint insert_sorted {A : Type} (le : A -> A -> bool) (x : A) (l : list A) : list A :=
  match l with
  | [] => [x]
  | y :: r => if le x y then x :: y :: r else y :: insert_sorted le x r
  end.

Definition order_by {A : Type} (le : A -> A -> bool) (l : list A) : list A :=
  fold_right (insert_sorted le) [] l.

(* ------------------------------------------------------------------ *)
(** ** Users *)

(** [SELECT ... FROM users WHERE id=?], first row. *)
Definition select_user (d : db) (id : string) : option User.t :=
  find (fun u => String.eqb (User.id u) id) (users d).

(** [users.role]. *)
Definition roles : list string := ["admin"; "manager"; "staff"].

(** [INSERT INTO users]: [role] must be a member of its ENUM, the primary
    key and the e-mail address must be new. *)
Definition insert_user (row : User.t) (d : db) : failure + db :=
  if negb (enum_member roles (User.role row))
  then inl ER_TRUNCATED_VALUE
  else if existsb (fun u => String.eqb (User.id u) (User.id row)
                            || String.eqb (User.email u) (User.email row)) (users d)
  then inl ER_DUP_ENTRY
  else inr (with_users (users d ++ [row]) d).

(** [UPDATE users SET ... WHERE id=?]. *)
Definition update_users (id : string) (f : User.t -> User.t) (d : db) : db :=
  with_users (map (fun u => if String.eqb (User.id u) id then f u else u) (users d)) d.

(** The body of POST /api/auth/register. *)
Record register_body : Type := mkregister_body {
  r_name : option string;
  r_email : option string;
  r_password : option string;
  r_role : option string;
  r_phone : option string
}.

(** POST /api/auth/register.  The handler answers 400 to every duplicate
    entry, of the address or of the identifier. *)
Definition register (e : env) (sv : services) (b : register_body)
           (user : claims) (s : store) : store * response_ext :=
  match r_name b, r_email b, r_password b with
  | Some name, Some email, Some password =>
      if negb (JS.str_truthy name) || negb (JS.str_truthy email)
         || negb (JS.str_truthy password)
      then (s, answer 400 (Core (Error "name, email, password required")))
      else
        let hash := bcrypt_hash sv password in
        let id := uuid e 0 in
        match insert_user
                (User.mk id name email (Some (JS.str_or (r_phone b) EmptyString)) hash
                         (JS.str_or (r_role b) "staff") true None)
                (base s) with
        | inl ER_DUP_ENTRY => (s, answer 400 (Core (Error "Email already exists")))
        | inl err => (s, answer 500 (Raised (Sql err)))
        | inr d' =>
            (with_base d' s,
             answer 201 (AccountRow (option_map account_of (select_user d' id))))
        end
  | _, _, _ => (s, answer 400 (Core (Error "name, email, password required")))
  end.

(** GET /api/auth/me. *)
Definition get_me (user : claims) (s : store) : store * response_ext :=
  (s, answer 200 (AccountRow (option_map account_of (select_user (base s) (c_id user))))).

(** PUT /api/auth/me.  [name] is NOT NULL. *)
Definition put_me (name phone : option string) (user : claims) (s : store)
  : store * response_ext :=
  match name with
  | Some n =>
      (with_base
         (update_users (c_id user)
            (fun u => User.mk (User.id u) n (User.email u) phone (User.password_hash u)
                              (User.role u) (User.is_active u) (User.last_login u))
            (base s)) s,
       answer 200 (Core Success))
  | None =>
      match select_user (base s) (c_id user) with
      | Some _ => (s, answer 500 (Raised (Sql ER_BAD_NULL)))
      | None => (s, answer 200 (Core Success))
      end
  end.

(** PUT /api/auth/change-password.  The row of the caller may be gone, and
    bcrypt refuses an argument that is not a string. *)
Definition change_password (e : env) (sv : services)
           (currentPassword newPassword : option string)
           (user : claims) (s : store) : store * response_ext :=
  match select_user (base s) (c_id user) with
  | None => (s, answer 500 (Raised TypeError))
  | Some u =>
      match currentPassword with
      | None => (s, answer 500 (Raised BcryptError))
      | Some current =>
          if negb (bcrypt_compare e current (User.password_hash u))
          then (s, answer 400 (Core (Error "Current password incorrect")))
          else
            match newPassword with
            | None => (s, answer 500 (Raised BcryptError))
            | Some new =>
                (with_base
                   (update_users (c_id user)
                      (fun v => User.mk (User.id v) (User.name v) (User.email v)
                                        (User.phone v) (bcrypt_hash sv new) (User.role v)
                                        (User.is_active v) (User.last_login v))
                      (base s)) s,
                 answer 200 (Core Success))
            end
      end
  end.

(** GET /api/users, in the order of creation. *)
Definition get_users (user : claims) (s : store) : store * response_ext :=
  (s, answer 200
        (AccountList
           (map (fun u => (account_of u, User.is_active u, User.last_login u))
                (users (base s))))).

(** The body of PUT /api/users/:id. *)
Record user_body : Type := mkuser_body {
  u_name : option string;
  u_email : option string;
  u_role : option string;
  u_phone : option string;
  u_is_active : JS.jsval
}.

(** A string bound to a nullable ENUM column: null, or a member. *)
Definition enum_or_null (members : list string) (x : option string) : bool :=
  match x with
  | Some v => enum_member members v
  | None => true
  end.

(** PUT /api/users/:id.  [name] and [email] are NOT NULL, [role] is null or
    a member of its ENUM and [email] is unique; a null [role] is carried as
    the empty string.  A statement that matches no row fails on none of
    these. *)
Definition put_user (id : string) (b : user_body) (user : claims) (s : store)
  : store * response_ext :=
  match select_user (base s) id with
  | None => (s, answer 200 (Core Success))
  | Some _ =>
      match u_name b, u_email b with
      | Some name, Some email =>
          if negb (enum_or_null roles (u_role b))
          then (s, answer 500 (Raised (Sql ER_TRUNCATED_VALUE)))
          else
          if existsb (fun u => negb (String.eqb (User.id u) id)
                               && String.eqb (User.email u) email) (users (base s))
          then (s, answer 500 (Raised (Sql ER_DUP_ENTRY)))
          else
            (with_base
               (update_users id
                  (fun u => User.mk (User.id u) name email (u_phone b)
                                    (User.password_hash u)
                                    (match u_role b with Some r => r | None => EmptyString end)
                                    (JS.truthy (u_is_active b)) (User.last_login u))
                  (base s)) s,
             answer 200 (Core Success))
      | _, _ => (s, answer 500 (Raised (Sql ER_BAD_NULL)))
      end
  end.

(** DELETE /api/users/:id.  The guard compares the parameter with the
    identifier of the primary administrator as JavaScript does, letter for
    letter; the statement compares it with the identifiers of the table as
    the server does. *)
Definition delete_user (e : env) (id : string) (user : claims) (s : store)
  : store * response_ext :=
  if String.eqb id "admin-001"
  then (s, answer 403 (Core (Error "Cannot delete primary admin")))
  else
    (with_base
       (with_users (filter (fun u => negb (sql_same e (User.id u) id)) (users (base s)))
                   (base s)) s,
     answer 200 (Core Success)).

(* ------------------------------------------------------------------ *)
(** ** One tenant, the payments list, the portal *)

(** [WHERE tenant_id=?] on a nullable column. *)
Definition refers_to (id : string) (ref : option string) : bool :=
  match ref with
  | Some x => String.eqb x id
  | None => false
  end.

(** [ORDER BY payment_date DESC]. *)
Definition by_payment_date_desc (p q : Payment.t) : bool :=
  Payment.payment_date q <=? Payment.payment_date p.

(** GET /api/tenants/:id. *)
Definition get_tenant (id : string) (user : claims) (s : store) : store * response_ext :=
  match select_tenant (base s) id with
  | None => (s, answer 404 (Core (Error "Not found")))
  | Some t =>
      (s, answer 200
            (TenantDetail t
               (order_by by_payment_date_desc
                  (filter (fun p => String.eqb (Payment.tenant_id p) id) (payments (base s))))
               (filter (fun m => refers_to id (Maintenance.tenant_id m)) (maintenance s))))
  end.

(** DELETE /api/tenants/:id on the whole database: the payments of the
    tenant go with it, its tickets and notifications lose their reference
    (ON DELETE SET NULL). *)
Definition delete_tenant_ext (id : string) (user : claims) (s : store)
  : store * response_ext :=
  (mkstore
     (fst (delete_tenant id user (base s)))
     (map (fun m =>
             if refers_to id (Maintenance.tenant_id m)
             then Maintenance.mk (Maintenance.id m) None (Maintenance.tenant_name m)
                    (Maintenance.property_address m) (Maintenance.category m)
                    (Maintenance.title m) (Maintenance.description m)
                    (Maintenance.priority m) (Maintenance.status m)
                    (Maintenance.assigned_to m) (Maintenance.resolved_at m)
             else m)
          (maintenance s))
     (map (fun n =>
             if refers_to id (Notification.tenant_id n)
             then Notification.mk (Notification.id n) (Notification.type n)
                    (Notification.title n) (Notification.message n) None
                    (Notification.user_id n) (Notification.is_read n)
             else n)
          (notifications s))
     (message_log s),
   answer 200 (Core Success)).

(** GET /api/payments: the WHERE clause built from the query; [from] and
    [to] are dates when they are given and not empty. *)
Definition payments_where (tenant_id : option string) (from to : option Z)
           (p : Payment.t) : bool :=
  (match tenant_id with
   | Some tid => if JS.str_truthy tid then String.eqb (Payment.tenant_id p) tid else true
   | None => true
   end)
  && (match from with Some f => f <=? Payment.payment_date p | None => true end)
  && (match to with Some t => Payment.payment_date p <=? t | None => true end).

Definition get_payments (tenant_id : option string) (from to : option Z)
           (user : claims) (s : store) : store * response_ext :=
  (s, answer 200
        (PaymentList
           (map (fun p =>
                   (p,
                    option_map Tenant.tenant_name
                               (select_tenant (base s) (Payment.tenant_id p)),
                    match select_tenant (base s) (Payment.tenant_id p) with
                    | Some t => Tenant.property_address t
                    | None => None
                    end))
                (order_by by_payment_date_desc
                   (filter (payments_where tenant_id from to) (payments (base s))))))).

(** GET /api/portal/:tenantId: no middleware in front of it. *)
Definition get_portal (tenantId : string) (s : store) : store * response_ext :=
  match select_tenant (base s) tenantId with
  | None => (s, answer 404 (Core (Error "Not found")))
  | Some t =>
      (s, answer 200
            (PortalView
               (mkportal_tenant (Tenant.id t) (Tenant.tenant_name t)
                  (Tenant.accommodation_type t) (Tenant.property_address t)
                  (Tenant.period t) (Tenant.lease_start t) (Tenant.lease_end t)
                  (Tenant.rent_per_annum t) (Tenant.amount_paid t) (Tenant.phone t))
               (map (fun p =>
                       mkportal_payment (Payment.amount p) (Payment.payment_date p)
                         (Payment.payment_method p) (Payment.receipt_number p))
                    (order_by by_payment_date_desc
                       (filter (fun p => String.eqb (Payment.tenant_id p) tenantId)
                               (payments (base s)))))))
  end.

(* ------------------------------------------------------------------ *)
(** ** Maintenance *)

(** [FIELD(m.priority,'urgent','high','medium','low')]: 0 for a priority
    that is null or not in the list. *)
Definition priority_rank (p : option string) : Z :=
  match p with
  | Some "urgent" => 1
  | Some "high" => 2
  | Some "medium" => 3
  | Some "low" => 4
  | _ => 0
  end.

Definition by_priority (m n : Maintenance.t) : bool :=
  priority_rank (Maintenance.priority m) <=? priority_rank (Maintenance.priority n).

(** [AND m.status=?] and [AND m.priority=?], each when the query gives it. *)
Definition maintenance_where (status priority : option string) (m : Maintenance.t) : bool :=
  (match status with
   | Some st => if JS.str_truthy st then refers_to st (Maintenance.status m) else true
   | None => true
   end)
  && (match priority with
      | Some pr => if JS.str_truthy pr then refers_to pr (Maintenance.priority m) else true
      | None => true
      end).

(** GET /api/maintenance: by priority, the newest first within one priority. *)
Definition get_maintenance (status priority : option string)
           (user : claims) (s : store) : store * response_ext :=
  (s, answer 200
        (TicketList
           (map (fun m =>
                   (m,
                    match Maintenance.assigned_to m with
                    | Some uid => option_map User.name (select_user (base s) uid)
                    | None => None
                    end))
                (order_by by_priority
                   (filter (maintenance_where status priority) (maintenance s)))))).

Definition select_ticket (s : store) (id : string) : option Maintenance.t :=
  find (fun m => String.eqb (Maintenance.id m) id) (maintenance s).

(** [maintenance.category], [maintenance.priority], [maintenance.status]. *)
Definition categories : list string :=
  ["plumbing"; "electrical"; "structural"; "painting"; "security"; "cleaning"; "other"].

Definition priorities : list string := ["low"; "medium"; "high"; "urgent"].

Definition statuses : list string := ["open"; "in_progress"; "resolved"; "closed"].

(** [INSERT INTO maintenance]: [category], [priority] and [status] must be
    null or members of their ENUMs, the primary key must be new, and a
    tenant reference must name a tenant. *)
Definition insert_ticket (row : Maintenance.t) (s : store) : failure + store :=
  if negb (enum_or_null categories (Maintenance.category row)
           && enum_or_null priorities (Maintenance.priority row)
           && enum_or_null statuses (Maintenance.status row))
  then inl ER_TRUNCATED_VALUE
  else
    match select_ticket s (Maintenance.id row) with
    | Some _ => inl ER_DUP_ENTRY
    | None =>
        match Maintenance.tenant_id row with
        | Some tid =>
            match select_tenant (base s) tid with
            | None => inl ER_NO_REFERENCED_ROW
            | Some _ => inr (with_maintenance (row :: maintenance s) s)
            end
        | None => inr (with_maintenance (row :: maintenance s) s)
        end
    end.

(** The body of POST /api/maintenance. *)
Record ticket_body : Type := mkticket_body {
  k_tenant_id : option string;
  k_tenant_name : option string;
  k_property_address : option string;
  k_category : option string;
  k_title : option string;
  k_description : option string;
  k_priority : option string
}.

(** [x || null]. *)
Definition or_null (x : option string) : option string :=
  if JS.opt_truthy x then x else None.

(** POST /api/maintenance: [status] takes the default of its column. *)
Definition post_maintenance (e : env) (b : ticket_body) (user : claims) (s : store)
  : store * response_ext :=
  if negb (JS.opt_truthy (k_title b))
  then (s, answer 400 (Core (Error "title required")))
  else
    let id := uuid e 0 in
    match insert_ticket
            (Maintenance.mk id
               (or_null (k_tenant_id b))
               (Some (JS.str_or (k_tenant_name b) EmptyString))
               (Some (JS.str_or (k_property_address b) EmptyString))
               (Some (JS.str_or (k_category b) "other"))
               (JS.str_or (k_title b) EmptyString)
               (Some (JS.str_or (k_description b) EmptyString))
               (Some (JS.str_or (k_priority b) "medium"))
               (Some "open")
               None
               None)
            s with
    | inl err => (s, answer 500 (Raised (Sql err)))
    | inr s' => (s', answer 201 (TicketRow (select_ticket s' id)))
    end.

(** PATCH /api/maintenance/:id: the three columns and [resolved_at] are
    written whatever the body holds; on a matching row the statement fails
    when [status] or [priority] is neither null nor a member of its ENUM.
    The instant of [new Date()] is taken to be [now e]. *)
Definition patch_maintenance (e : env) (id : string)
           (status assigned_to priority : option string)
           (user : claims) (s : store) : store * response_ext :=
  let resolved_at :=
    match status with
    | Some "resolved" => Some (now e)
    | _ => None
    end in
  match select_ticket s id with
  | Some _ =>
      if negb (enum_or_null statuses status && enum_or_null priorities priority)
      then (s, answer 500 (Raised (Sql ER_TRUNCATED_VALUE)))
      else
        let s' :=
          with_maintenance
            (map (fun m =>
                    if String.eqb (Maintenance.id m) id
                    then Maintenance.mk (Maintenance.id m) (Maintenance.tenant_id m)
                           (Maintenance.tenant_name m) (Maintenance.property_address m)
                           (Maintenance.category m) (Maintenance.title m)
                           (Maintenance.description m) priority status
                           (or_null assigned_to) resolved_at
                    else m)
                 (maintenance s)) s in
        (s', answer 200 (TicketRow (select_ticket s' id)))
  | None => (s, answer 200 (TicketRow None))
  end.

(** DELETE /api/maintenance/:id. *)
Definition delete_maintenance (id : string) (user : claims) (s : store)
  : store * response_ext :=
  (with_maintenance
     (filter (fun m => negb (String.eqb (Maintenance.id m) id)) (maintenance s)) s,
   answer 200 (Core Success)).

(* ------------------------------------------------------------------ *)
(** ** Notifications *)

(** [WHERE user_id=? OR user_id IS NULL]. *)
Definition addressed_to (user : claims) (n : Notification.t) : bool :=
  match Notification.user_id n with
  | Some uid => String.eqb uid (c_id user)
  | None => true
  end.

(** GET /api/notifications: the newest fifty. *)
Definition get_notifications (user : claims) (s : store) : store * response_ext :=
  (s, answer 200
        (NotificationList (firstn 50 (filter (addressed_to user) (notifications s))))).

(** PATCH /api/notifications/:id/read. *)
Definition read_notification (id : string) (user : claims) (s : store)
  : store * response_ext :=
  (with_notifications
     (map (fun n =>
             if String.eqb (Notification.id n) id
             then Notification.set_is_read true n else n)
          (notifications s)) s,
   answer 200 (Core Success)).

(** PATCH /api/notifications/read-all. *)
Definition read_all_notifications (user : claims) (s : store) : store * response_ext :=
  (with_notifications
     (map (fun n => if addressed_to user n then Notification.set_is_read true n else n)
          (notifications s)) s,
   answer 200 (Core Success)).

(* ------------------------------------------------------------------ *)
(** ** Messages *)

(** [s.replace(/\D/g, "")]. *)
Fixpoint keep_digits (s : string) : string :=
  match s with
  | EmptyString => EmptyString
  | String c r => if JS.is_digit c then String c (keep_digits r) else keep_digits r
  end.

(** [clean.startsWith("0") ? "234" + clean.slice(1) : clean]. *)
Definition international (clean : string) : string :=
  match clean with
  | String c r => if JS.code c =? 48 then "234" ++ r else clean
  | EmptyString => clean
  end.

(** The characters [encodeURIComponent] leaves as they are: letters, digits
    and [- _ . ! ~ * ' ( )]. *)
Definition unreserved (c : ascii) : bool :=
  let n := JS.code c in
  JS.is_digit c
  || ((65 <=? n) && (n <=? 90)) || ((97 <=? n) && (n <=? 122))
  || (n =? 45) || (n =? 95) || (n =? 46) || (n =? 33) || (n =? 126)
  || (n =? 42) || (n =? 39) || (n =? 40) || (n =? 41).

Definition hex_digit (d : Z) : ascii :=
  if d <? 10 then ascii_of_N (Z.to_N (48 + d)) else ascii_of_N (Z.to_N (55 + d)).

(** [encodeURIComponent(s)] on the UTF-8 bytes of [s]. *)
Fixpoint encodeURIComponent (s : string) : string :=
  match s with
  | EmptyString => EmptyString
  | String c r =>
      if unreserved c then String c (encodeURIComponent r)
      else String "%" (String (hex_digit (JS.code c / 16))
                         (String (hex_digit (JS.code c mod 16)) (encodeURIComponent r)))
  end.

(** A number of hundredths printed as a decimal. *)
Definition show_hundredths (z : Z) : string :=
  let a := Z.abs z in
  let f := a mod 100 in
  (if z <? 0 then "-" else EmptyString)
  ++ JS.show_nonneg (a / 100)
  ++ (if f =? 0 then EmptyString
      else String "." (String (JS.digit_char (f / 10))
                         (if f mod 10 =? 0 then EmptyString
                          else String (JS.digit_char (f mod 10)) EmptyString))).

(** [String(v)], as a template literal and [encodeURIComponent] apply it. *)
Definition js_String (v : JS.jsval) : string :=
  match v with
  | JS.JUndefined => "undefined"
  | JS.JNull => "null"
  | JS.JBool b => if b then "true" else "false"
  | JS.JNum q => JS.number_text q
  | JS.JStr s => s
  end.

(** The value bound to a text parameter: a number is sent as JavaScript
    prints it and stored as the server writes it. *)
Definition sql_text (e : env) (v : JS.jsval) : option string :=
  match v with
  | JS.JUndefined | JS.JNull => None
  | JS.JBool b => Some (if b then "1" else "0")
  | JS.JNum q => Some (sql_text_of_number e (JS.number_text q))
  | JS.JStr s => Some s
  end.

(** The click-to-chat link of a phone number and a message. *)
Definition wa_link (phone : string) (text : string) : string :=
  "https://wa.me/" ++ international (keep_digits phone) ++ "?text="
  ++ encodeURIComponent text.

Definition select_message (s : store) (id : string) : option MessageLog.t :=
  find (fun m => String.eqb (MessageLog.id m) id) (message_log s).

(** [message_log.channel], [message_log.status]. *)
Definition channels : list string := ["whatsapp"; "sms"; "email"].

Definition message_statuses : list string := ["sent"; "failed"; "pending"].

(** [INSERT INTO message_log]: [channel] and [status] must be null or
    members of their ENUMs, the primary key must be new. *)
Definition insert_message (row : MessageLog.t) (s : store) : failure + store :=
  if negb (enum_or_null channels (MessageLog.channel row)
           && enum_or_null message_statuses (MessageLog.status row))
  then inl ER_TRUNCATED_VALUE
  else
    match select_message s (MessageLog.id row) with
    | Some _ => inl ER_DUP_ENTRY
    | None => inr (with_message_log (row :: message_log s) s)
    end.

(** The body of POST /api/messages/send. *)
Record message_body : Type := mkmessage_body {
  m_tenant_id : option string;
  m_tenant_name : option string;
  m_phone : option string;
  m_channel : option string;
  m_message : JS.jsval
}.

(** POST /api/messages/send: the row is logged with [message || ""]; the
    link carries [encodeURIComponent(message)], of the body value as it is. *)
Definition post_message (e : env) (b : message_body) (user : claims) (s : store)
  : store * response_ext :=
  let id := uuid e 0 in
  match insert_message
          (MessageLog.mk id
             (or_null (m_tenant_id b))
             (Some (JS.str_or (m_tenant_name b) EmptyString))
             (Some (JS.str_or (m_phone b) EmptyString))
             (Some (JS.str_or (m_channel b) "whatsapp"))
             (sql_text e (JS.or (m_message b) (JS.JStr EmptyString)))
             (Some "sent")
             (Some (c_id user)))
          s with
  | inl err => (s, answer 500 (Raised (Sql err)))
  | inr s' =>
      (s', answer 200
             (MessageSent id
                (wa_link (JS.str_or (m_phone b) EmptyString) (js_String (m_message b)))))
  end.

(** GET /api/messages: the newest hundred. *)
Definition get_messages (user : claims) (s : store) : store * response_ext :=
  (s, answer 200 (MessageList (firstn 100 (message_log s)))).

(** [s] without the prefix [pat], when it starts with it. *)
Fixpoint strip_prefix (pat s : string) : option string :=
  match pat, s with
  | EmptyString, _ => Some s
  | String a p, String c r => if Ascii.eqb a c then strip_prefix p r else None
  | String _ _, EmptyString => None
  end.

(** The text before and the text after the first occurrence of [pat] in [s]. *)
Fixpoint split_at_first (pat s : string) : option (string * string) :=
  match strip_prefix pat s with
  | Some after => Some (EmptyString, after)
  | None =>
      match s with
      | String c r =>
          match split_at_first pat r with
          | Some (before, after) => Some (String c before, after)
          | None => None
          end
      | EmptyString => None
      end
  end.

(** The replacement text of [replace] for a string pattern: [$$] is a
    dollar, [$&] the match, [$`] the text before it, [$'] the text after
    it; every other character stands for itself. *)
Fixpoint substitution (matched before after replacement : string) : string :=
  match replacement with
  | EmptyString => EmptyString
  | String c r =>
      if JS.code c =? 36
      then
        match r with
        | String x r' =>
            if JS.code x =? 36 then String "$" (substitution matched before after r')
            else if JS.code x =? 38 then matched ++ substitution matched before after r'
            else if JS.code x =? 96 then before ++ substitution matched before after r'
            else if JS.code x =? 39 then after ++ substitution matched before after r'
            else String c (substitution matched before after r)
        | EmptyString => String c EmptyString
        end
      else String c (substitution matched before after r)
  end.

(** [s.replace(pat, replacement)] for a string pattern: the first occurrence
    only. *)
Definition replace (pat replacement s : string) : string :=
  match split_at_first pat s with
  | Some (before, after) => before ++ substitution pat before after replacement ++ after
  | None => s
  end.

Definition default_template : string :=
  "Dear {name}, your outstanding rent balance is ₦{amount}. Please contact us. - EstateIQ".

(** The text sent to a tenant: the three placeholders filled in, a null
    address printed as JavaScript prints null. *)
Definition reminder_text (sv : services) (template : string) (t : Tenant.t) : string :=
  replace "{property}"
    (match Tenant.property_address t with Some a => a | None => "null" end)
    (replace "{amount}"
       (toLocaleString sv (Tenant.rent_per_annum t - Tenant.amount_paid t))
       (replace "{name}" (Tenant.tenant_name t) template)).

(** [WHERE amount_paid < rent_per_annum AND phone != '']. *)
Definition owes_and_reachable (t : Tenant.t) : bool :=
  (Tenant.amount_paid t <? Tenant.rent_per_annum t)
  && match Tenant.phone t with
     | Some p => JS.str_truthy p
     | None => false
     end.

(** The loop of the bulk reminder over the selected tenants: [k]
    identifiers have been drawn, [links] is the array built so far. *)
Fixpoint remind (e : env) (sv : services) (template : string) (user : claims)
         (ts : list Tenant.t) (k : nat) (links : list reminder) (s : store)
  : store * response_ext :=
  match ts with
  | [] => (s, answer 200 (Reminders (List.length links) links))
  | t :: rest =>
      let owed := Tenant.rent_per_annum t - Tenant.amount_paid t in
      let msg := reminder_text sv template t in
      let id := uuid e k in
      match insert_message
              (MessageLog.mk id (Some (Tenant.id t)) (Some (Tenant.tenant_name t))
                 (Tenant.phone t) (Some "whatsapp") (Some msg) (Some "sent")
                 (Some (c_id user)))
              s with
      | inl err => (s, answer 500 (Raised (Sql err)))
      | inr s' =>
          match Tenant.phone t with
          | None => (s', answer 500 (Raised TypeError))
          | Some phone =>
              remind e sv template user rest (S k)
                     (links ++ [mkreminder (Tenant.tenant_name t) phone
                                           (wa_link phone msg) owed])
                     s'
          end
      end
  end.

(** POST /api/messages/bulk-reminder. *)
Definition bulk_reminder (e : env) (sv : services) (message_template : option string)
           (user : claims) (s : store) : store * response_ext :=
  remind e sv (JS.str_or message_template default_template) user
         (filter owes_and_reachable (tenants (base s))) 0 [] s.

(* ------------------------------------------------------------------ *)
(** ** Alerts *)

(** [lease_end BETWEEN CURDATE() AND DATE_ADD(CURDATE(), INTERVAL 60 DAY)]. *)
Definition expiring_rows (e : env) (ts : list Tenant.t) : list expiring_row :=
  order_by (fun x y => ex_lease_end x <=? ex_lease_end y)
    (flat_map
       (fun t =>
          match Tenant.lease_end t with
          | Some le =>
              if (curdate e <=? le) && (le <=? curdate e + 60)
              then [mkexpiring_row (Tenant.id t) (Tenant.tenant_name t)
                      (Tenant.property_address t) le (Tenant.phone t) (le - curdate e)]
              else []
          | None => []
          end)
       ts).

(** [WHERE amount_paid < rent_per_annum AND rent_per_annum > 0
    ORDER BY amount_owed DESC]. *)
Definition overdue_rows (ts : list Tenant.t) : list overdue_row :=
  order_by (fun x y => ov_amount_owed y <=? ov_amount_owed x)
    (map (fun t =>
            mkoverdue_row (Tenant.id t) (Tenant.tenant_name t) (Tenant.property_address t)
              (Tenant.rent_per_annum t) (Tenant.amount_paid t) (Tenant.phone t)
              (Tenant.rent_per_annum t - Tenant.amount_paid t))
         (filter (fun t => (Tenant.amount_paid t <? Tenant.rent_per_annum t)
                           && (Tenant.rent_per_annum t >? 0)) ts)).

Definition quit_rows (ts : list Tenant.t) : list quit_row :=
  map (fun t => mkquit_row (Tenant.id t) (Tenant.tenant_name t) (Tenant.property_address t)
                           (Tenant.quit_notice_date t) (Tenant.phone t))
      (filter Tenant.quit_notice ts).

(** GET /api/alerts. *)
Definition get_alerts (e : env) (user : claims) (s : store) : store * response_ext :=
  (s, answer 200
        (AlertLists (expiring_rows e (tenants (base s)))
                    (overdue_rows (tenants (base s)))
                    (quit_rows (tenants (base s))))).

(* ------------------------------------------------------------------ *)
(** ** The whole route table *)

(** A request to any modelled route: one of the ledger routes, or one of
    the others with its [Authorization] header. *)
Inductive request_ext : Type :=
| Ledger (r : request)
| PostRegister (authorization : option string) (b : register_body)
| GetMe (authorization : option string)
| PutMe (authorization : option string) (name phone : option string)
| PutChangePassword (authorization : option string)
                    (currentPassword newPassword : option string)
| GetUsers (authorization : option string)
| PutUser (authorization : option string) (id : string) (b : user_body)
| DeleteUser (authorization : option string) (id : string)
| GetTenant (authorization : option string) (id : string)
| GetPayments (authorization : option string) (tenant_id : option string)
              (from to : option Z)
| GetMaintenance (authorization : option string) (status priority : option string)
| PostMaintenance (authorization : option string) (b : ticket_body)
| PatchMaintenance (authorization : option string) (id : string)
                   (status assigned_to priority : option string)
| DeleteMaintenance (authorization : option string) (id : string)
| GetNotifications (authorization : option string)
| PatchNotificationRead (authorization : option string) (id : string)
| PatchNotificationsReadAll (authorization : option string)
| PostMessage (authorization : option string) (b : message_body)
| GetMessages (authorization : option string)
| PostBulkReminder (authorization : option string) (message_template : option string)
| GetAlerts (authorization : option string)
| GetPortal (tenantId : string).

(** The application on the whole database.  A ledger route works on the
    ledger tables; deleting a tenant reaches the other tables too. *)
Definition api (e : env) (sv : services) (r : request_ext) (s : store)
  : store * response_ext :=
  match r with
  | Ledger (DeleteTenant a id) => guarded e ["admin"; "manager"] a (delete_tenant_ext id) s
  | Ledger r0 => (with_base (fst (app e r0 (base s))) s, lift (snd (app e r0 (base s))))
  | PostRegister a b => guarded e ["admin"] a (register e sv b) s
  | GetMe a => guarded e [] a get_me s
  | PutMe a name phone => guarded e [] a (put_me name phone) s
  | PutChangePassword a cur new => guarded e [] a (change_password e sv cur new) s
  | GetUsers a => guarded e ["admin"; "manager"] a get_users s
  | PutUser a id b => guarded e ["admin"] a (put_user id b) s
  | DeleteUser a id => guarded e ["admin"] a (delete_user e id) s
  | GetTenant a id => guarded e [] a (get_tenant id) s
  | GetPayments a tid from to => guarded e [] a (get_payments tid from to) s
  | GetMaintenance a st pr => guarded e [] a (get_maintenance st pr) s
  | PostMaintenance a b => guarded e [] a (post_maintenance e b) s
  | PatchMaintenance a id st asg pr => guarded e [] a (patch_maintenance e id st asg pr) s
  | DeleteMaintenance a id => guarded e ["admin"; "manager"] a (delete_maintenance id) s
  | GetNotifications a => guarded e [] a get_notifications s
  | PatchNotificationRead a id => guarded e [] a (read_notification id) s
  | PatchNotificationsReadAll a => guarded e [] a read_all_notifications s
  | PostMessage a b => guarded e [] a (post_message e b) s
  | GetMessages a => guarded e [] a get_messages s
  | PostBulkReminder a tpl => guarded e ["admin"; "manager"] a (bulk_reminder e sv tpl) s
  | GetAlerts a => guarded e [] a (get_alerts e) s
  | GetPortal id => get_portal id s
  end.

(** A run of the server on the whole database. *)
Fixpoint run_api (sv : services) (reqs : list (env * request_ext)) (s : store) : store :=
  match reqs with
  | [] => s
  | (e, r) :: rest => run_api sv rest (fst (api e sv r s))
  end.

(* ------------------------------------------------------------------ *)
(** ** Vocabulary of the further statements *)

(** The [Authorization] header of a request; none for the two routes that
    have no middleware in front, the login and the tenant portal. *)
Definition authorization_of (r : request_ext) : option (option string) :=
  match r with
  | Ledger (PostLogin _ _) => None
  | Ledger (GetTenants a _ _) => Some a
  | Ledger (PostTenant a _) => Some a
  | Ledger (PutTenant a _ _) => Some a
  | Ledger (PatchTenantPayment a _ _) => Some a
  | Ledger (PatchTenantQuit a _ _) => Some a
  | Ledger (DeleteTenant a _) => Some a
  | Ledger (PostTenantsImport a _) => Some a
  | Ledger (PostPayment a _) => Some a
  | Ledger (DeletePayment a _) => Some a
  | Ledger (GetStats a) => Some a
  | PostRegister a _ => Some a
  | GetMe a => Some a
  | PutMe a _ _ => Some a
  | PutChangePassword a _ _ => Some a
  | GetUsers a => Some a
  | PutUser a _ _ => Some a
  | DeleteUser a _ => Some a
  | GetTenant a _ => Some a
  | GetPayments a _ _ _ => Some a
  | GetMaintenance a _ _ => Some a
  | PostMaintenance a _ => Some a
  | PatchMaintenance a _ _ _ _ => Some a
  | DeleteMaintenance a _ => Some a
  | GetNotifications a => Some a
  | PatchNotificationRead a _ => Some a
  | PatchNotificationsReadAll a => Some a
  | PostMessage a _ => Some a
  | GetMessages a => Some a
  | PostBulkReminder a _ => Some a
  | GetAlerts a => Some a
  | GetPortal _ => None
  end.

(** The roles the route of a request is registered with; empty when any
    verified token will do. *)
Definition required_roles (r : request_ext) : list string :=
  match r with
  | Ledger (DeleteTenant _ _) => ["admin"; "manager"]
  | Ledger (DeletePayment _ _) => ["admin"; "manager"]
  | PostRegister _ _ => ["admin"]
  | GetUsers _ => ["admin"; "manager"]
  | PutUser _ _ _ => ["admin"]
  | DeleteUser _ _ => ["admin"]
  | DeleteMaintenance _ _ => ["admin"; "manager"]
  | PostBulkReminder _ _ => ["admin"; "manager"]
  | _ => []
  end.

(** The three seed tickets of the schema file, the last one of the INSERT
    first (their identifiers are drawn by the server; the names here stand
    for them), and the whole seed database. *)
Definition seed_ticket (id tenant name addr category title priority status : string)
  : Maintenance.t :=
  Maintenance.mk id (Some tenant) (Some name) (Some addr) (Some category) title None
                 (Some priority) (Some status) None None.

Definition seed_maintenance : list Maintenance.t :=
  [ seed_ticket "seed-m3" "t-005" "Chukwudi Obi" "Block D, No. 3" "structural"
      "Crack in ceiling" "urgent" "open";
    seed_ticket "seed-m2" "t-004" "Fatima Bello" "Block A, No. 8" "electrical"
      "Faulty socket in bedroom" "medium" "in_progress";
    seed_ticket "seed-m1" "t-002" "Ngozi Eze" "Block B, No. 2" "plumbing"
      "Leaking pipe in kitchen" "high" "open" ].

Definition seed_store : store := mkstore seed_db seed_maintenance [] [].

(** Services for the examples: a hash that the comparison of [demo_env]
    does not know, and amounts printed without grouping. *)
Definition demo_services : services :=
  mkservices (fun pw => "hash-of-" ++ pw) show_hundredths.

(** A tenant with identifier [id] exists. *)
Definition tenant_exists (d : db) (id : string) : Prop :=
  In id (map Tenant.id (tenants d)).

(** Referential integrity: every payment, and every ticket and notification
    that names a tenant, names an existing one. *)
Definition references_kept (s : store) : Prop :=
  Forall (fun p => tenant_exists (base s) (Payment.tenant_id p)) (payments (base s))
  /\ Forall (fun m => forall tid, Maintenance.tenant_id m = Some tid ->
                                  tenant_exists (base s) tid) (maintenance s)
  /\ Forall (fun n => forall tid, Notification.tenant_id n = Some tid ->
                                  tenant_exists (base s) tid) (notifications s).

(** The keys of the ledger tables are unique: the identifiers of tenants,
    payments and users, the e-mail addresses of users, the sequence numbers
    of tenants, which all lie below the AUTO_INCREMENT counter. *)
Definition keys_unique_db (d : db) : Prop :=
  NoDup (map Tenant.id (tenants d))
  /\ NoDup (map Tenant.sn (tenants d))
  /\ Forall (fun t => Tenant.sn t < next_sn d) (tenants d)
  /\ NoDup (map Payment.id (payments d))
  /\ NoDup (map User.id (users d))
  /\ NoDup (map User.email (users d)).

(** The keys of every table are unique. *)
Definition keys_unique (s : store) : Prop :=
  keys_unique_db (base s)
  /\ NoDup (map Maintenance.id (maintenance s))
  /\ NoDup (map Notification.id (notifications s))
  /\ NoDup (map MessageLog.id (message_log s)).

(** A week of requests on the whole database. *)
Definition demo_week : list (env * request_ext) :=
  [ (demo_env, Ledger (PostPayment (Some "Bearer admin-token") demo_payment));
    (demo_env, PostMaintenance (Some "Bearer staff-token")
                 (mkticket_body (Some "t-001") (Some "Adebayo Okafor") None None
                                (Some "Broken gate") None (Some "high")));
    (demo_env, PostBulkReminder (Some "Bearer admin-token") None);
    (next_day_env, Ledger (DeleteTenant (Some "Bearer admin-token") "t-004"));
    (next_day_env, PatchMaintenance (Some "Bearer staff-token") "seed-m1"
                     (Some "resolved") None (Some "high")) ].

(** The sum of the amounts of the payments of tenant [id]. *)
Fixpoint paid_by (id : string) (ps : list Payment.t) : Z :=
  match ps with
  | [] => 0
  | p :: r =>
      (if String.eqb (Payment.tenant_id p) id then Payment.amount p else 0) + paid_by id r
  end.

(** The ledger is reconciled: the balance of every tenant is the sum of its
    payments; no payment is negative; the keys are unique and every payment
    names an existing tenant. *)
Definition reconciled (d : db) : Prop :=
  Forall (fun t => Tenant.amount_paid t = paid_by (Tenant.id t) (payments d)) (tenants d)
  /\ Forall (fun p => 0 <= Payment.amount p) (payments d)
  /\ keys_unique_db d
  /\ Forall (fun p => tenant_exists d (Payment.tenant_id p)) (payments d).



(** A pair (amount_paid, rent_per_annum) that none of the three status
    predicates accepts: a negative balance, or a positive balance against
    a rent that is not positive. *)
Definition unclassified (amount_paid rent_per_annum : Z) : bool :=
  (amount_paid <? 0) || ((0 <? amount_paid) && (rent_per_annum <=? 0)).

(** The sum of [f] over the tenants. *)
Definition total (f : Tenant.t -> Z) (ts : list Tenant.t) : Z :=
  fold_right (fun t acc => f t + acc) 0 ts.

(** The environment of the examples with a password comparison that knows
    the hashes of [demo_services]. *)
Definition office_env : env :=
  mkenv (jwt_verify demo_env) (jwt_sign demo_env)
        (fun pw hash => String.eqb hash (bcrypt_hash demo_services pw)
                        || bcrypt_compare demo_env pw hash)
        (uuid demo_env) (utc_today demo_env) (full_year demo_env) (curdate demo_env)
        (now demo_env) (sql_like demo_env) (sql_number_of_string demo_env)
        (first_of_ties demo_env) (sql_same demo_env) (sql_text_of_number demo_env).


(** The whole seed database with the two accounts of [staffed_db], and a
    third one that is active. *)
Definition clerk : User.t :=
  User.mk "user-003" "Clerk" "clerk@estateiq.ng" None
          (bcrypt_hash demo_services "Clerk@1234") "staff" true None.

Definition staffed_store : store :=
  mkstore (with_users [seed_admin; former_manager; clerk] seed_db) seed_maintenance [] [].

(** An environment in which the clerk holds a token. *)
Definition clerk_env : env :=
  mkenv (fun token =>
           if String.eqb token "clerk-token"
           then Some (mkclaims "user-003" "Clerk" "clerk@estateiq.ng" "staff")
           else jwt_verify demo_env token)
        (jwt_sign demo_env) (bcrypt_compare office_env)
        (uuid demo_env) (utc_today demo_env) (full_year demo_env) (curdate demo_env)
        (now demo_env) (sql_like demo_env) (sql_number_of_string demo_env)
        (first_of_ties demo_env) (sql_same demo_env) (sql_text_of_number demo_env).

(** An environment whose database compares identifiers without regard to
    the case of the letters. *)
Definition folding_env : env :=
  mkenv (jwt_verify demo_env) (jwt_sign demo_env) (bcrypt_compare demo_env)
        (uuid demo_env) (utc_today demo_env) (full_year demo_env) (curdate demo_env)
        (now demo_env) (sql_like demo_env) (sql_number_of_string demo_env)
        (first_of_ties demo_env)
        (fun a b => String.eqb (JS.toLowerCase a) (JS.toLowerCase b))
        (sql_text_of_number demo_env).

(** The rows of a payments listing, and the payments among their columns. *)
Definition listed_payments (r : response_ext)
  : list (Payment.t * option string * option string) :=
  match body_ext r with
  | PaymentList rows => rows
  | _ => []
  end.

Definition payment_of (row : Payment.t * option string * option string) : Payment.t :=
  fst (fst row).

(** The sum of the amounts the portal shows. *)
Definition sum_amounts (ps : list portal_payment) : Z :=
  fold_right (fun p acc => pp_amount p + acc) 0 ps.

(** [l] is in the order of [le]: every element may stand before all the
    later ones. *)
Fixpoint in_order {A : Type} (le : A -> A -> bool) (l : list A) : Prop :=
  match l with
  | [] => True
  | x :: r => Forall (fun y => le x y = true) r /\ in_order le r
  end.

(** The lease of [t] ends on [today] or within the [days] that follow. *)
Definition lease_ends_within (today days : Z) (t : Tenant.t) : bool :=
  match Tenant.lease_end t with
  | Some le => (today <=? le) && (le <=? today + days)
  | None => false
  end.

(** [t] has paid less than a rent that is positive. *)
Definition owes_on_rent (t : Tenant.t) : bool :=
  (Tenant.amount_paid t <? Tenant.rent_per_annum t) && (Tenant.rent_per_annum t >? 0).

(** [r] is the row of the expiring list for the tenant [t]: every column
    is the tenant's, and the days are counted from [today] to the end of
    the tenant's lease. *)
Definition expiring_of (today : Z) (t : Tenant.t) (r : expiring_row) : Prop :=
  ex_id r = Tenant.id t
  /\ ex_tenant_name r = Tenant.tenant_name t
  /\ ex_property_address r = Tenant.property_address t
  /\ Tenant.lease_end t = Some (ex_lease_end r)
  /\ ex_phone r = Tenant.phone t
  /\ ex_days_remaining r = ex_lease_end r - today.

(** [r] is the row of the overdue list for the tenant [t]. *)
Definition overdue_of (t : Tenant.t) (r : overdue_row) : Prop :=
  ov_id r = Tenant.id t
  /\ ov_tenant_name r = Tenant.tenant_name t
  /\ ov_property_address r = Tenant.property_address t
  /\ ov_rent_per_annum r = Tenant.rent_per_annum t
  /\ ov_amount_paid r = Tenant.amount_paid t
  /\ ov_phone r = Tenant.phone t
  /\ ov_amount_owed r = Tenant.rent_per_annum t - Tenant.amount_paid t.

(** [r] is the row of the quit list for the tenant [t]. *)
Definition quit_of (t : Tenant.t) (r : quit_row) : Prop :=
  qn_id r = Tenant.id t
  /\ qn_tenant_name r = Tenant.tenant_name t
  /\ qn_property_address r = Tenant.property_address t
  /\ qn_quit_notice_date r = Tenant.quit_notice_date t
  /\ qn_phone r = Tenant.phone t.

(** The tickets of a maintenance listing. *)
Definition listed_tickets (r : response_ext) : list Maintenance.t :=
  match body_ext r with
  | TicketList rows => map fst rows
  | _ => []
  end.



(** The rows of a notifications listing. *)
Definition listed_notifications (r : response_ext) : list Notification.t :=
  match body_ext r with
  | NotificationList rows => rows
  | _ => []
  end.

(** Three notifications: one to everybody, one to the administrator, one to
    the front desk; the store of the examples with them. *)
Definition notice (id : string) (user_id : option string) : Notification.t :=
  Notification.mk id "system" "Notice" None None user_id false.

Definition noticed_store : store :=
  mkstore seed_db seed_maintenance
          [notice "n-3" (Some "staff-007"); notice "n-2" (Some "admin-001"); notice "n-1" None]
          [].



(** The identifiers a request draws from the [k]-th on, [n] of them, are
    distinct and none of them is in [taken]. *)
Definition draws_fresh (e : env) (k n : nat) (taken : list string) : Prop :=
  NoDup (map (uuid e) (seq k n))
  /\ Forall (fun j => ~ In (uuid e j) taken) (seq k n).

(** The entry of the [links] array for tenant [t]. *)
Definition reminds (sv : services) (template : string) (t : Tenant.t) (l : reminder)
  : Prop :=
  rm_tenant l = Tenant.tenant_name t
  /\ Tenant.phone t = Some (rm_phone l)
  /\ rm_phone l <> EmptyString
  /\ rm_amount_owed l = Tenant.rent_per_annum t - Tenant.amount_paid t
  /\ 0 < rm_amount_owed l
  /\ rm_link l = wa_link (rm_phone l) (reminder_text sv template t).

(** The row of the message log for the reminder of tenant [t]. *)
Definition logs_reminder (sv : services) (template : string) (user : claims)
           (t : Tenant.t) (row : MessageLog.t) : Prop :=
  MessageLog.tenant_id row = Some (Tenant.id t)
  /\ MessageLog.tenant_name row = Some (Tenant.tenant_name t)
  /\ MessageLog.phone row = Tenant.phone t
  /\ MessageLog.channel row = Some "whatsapp"
  /\ MessageLog.message row = Some (reminder_text sv template t)
  /\ MessageLog.status row = Some "sent"
  /\ MessageLog.sent_by row = Some (c_id user).

(** [s] holds no dollar sign and no opening brace. *)
Fixpoint plain (s : string) : bool :=
  match s with
  | EmptyString => true
  | String c r => negb (JS.code c =? 36) && negb (JS.code c =? 123) && plain r
  end.

(** A notification as a later state carries it: the same row, but that it
    may have been read and may have lost its tenant. *)
Definition notice_carried (n n' : Notification.t) : Prop :=
  Notification.id n' = Notification.id n
  /\ Notification.type n' = Notification.type n
  /\ Notification.title n' = Notification.title n
  /\ Notification.message n' = Notification.message n
  /\ Notification.user_id n' = Notification.user_id n
  /\ (Notification.is_read n = true -> Notification.is_read n' = true)
  /\ (Notification.tenant_id n' = Notification.tenant_id n
      \/ Notification.tenant_id n' = None).

(** From [s] to [s'] the message log has only gained rows, on top, and the
    notifications are the same rows, carried. *)
Definition records_kept (s s' : store) : Prop :=
  (exists new, message_log s' = (new ++ message_log s)%list)
  /\ Forall2 notice_carried (notifications s) (notifications s').

(** A request of the GET method. *)
Definition is_get (r : request_ext) : bool :=
  match r with
  | Ledger (GetTenants _ _ _) | Ledger (GetStats _)
  | GetMe _ | GetUsers _ | GetTenant _ _ | GetPayments _ _ _ _
  | GetMaintenance _ _ _ | GetNotifications _ | GetMessages _
  | GetAlerts _ | GetPortal _ => true
  | _ => false
  end.

(* ------------------------------------------------------------------ *)
(** * Properties *)

(** ** The middleware *)

Lemma auth_pass :
  forall e roles h user next d,
    authenticates e h user -> permitted roles user ->
    auth e roles (Some h) next d = next user d.
Proof.
  intros e roles h user next d (token & Hnth & Htr & Hver) Hperm.
  unfold auth. rewrite Hnth, Htr, Hver. simpl.
  destruct Hperm as [-> | Hin]; [reflexivity|].
  assert (Hex : existsb (String.eqb (c_role user)) roles = true).
  { apply existsb_exists. exists (c_role user). split; [exact Hin | apply String.eqb_refl]. }
  rewrite Hex. simpl. rewrite andb_false_r. reflexivity.
Qed.

Lemma permitted_any : forall user, permitted [] user.
Proof. intros; left; reflexivity. Qed.

Lemma demo_admin_authenticates : authenticates demo_env "Bearer admin-token" admin_claims.
Proof. exists "admin-token". repeat split. Qed.

Lemma demo_staff_authenticates : authenticates demo_env "Bearer staff-token" staff_claims.
Proof. exists "staff-token". repeat split. Qed.

(** ** Ordering and counting *)

Lemma insert_by_sn_perm : forall t l, Permutation (insert_by_sn t l) (t :: l).
Proof.
  intros t l; induction l as [|x r IH]; simpl.
  - apply Permutation_refl.
  - destruct (Tenant.sn t <=? Tenant.sn x).
    + apply Permutation_refl.
    + eapply Permutation_trans; [apply perm_skip, IH | apply perm_swap].
Qed.

Lemma order_by_sn_perm : forall l, Permutation (order_by_sn l) l.
Proof.
  induction l as [|x r IH]; simpl.
  - apply Permutation_refl.
  - eapply Permutation_trans; [apply insert_by_sn_perm | apply perm_skip, IH].
Qed.

Lemma order_by_sn_In : forall t l, In t (order_by_sn l) <-> In t l.
Proof.
  intros t l; split; apply Permutation_in;
    [apply order_by_sn_perm | apply Permutation_sym, order_by_sn_perm].
Qed.

Lemma sql_sum_count_from :
  forall (p : Tenant.t -> bool) ts a,
    fold_left
      (fun acc x =>
         match x with
         | None => acc
         | Some v => Some (match acc with None => v | Some a0 => a0 + v end)
         end)
      (map (fun t => sql_bool (p t)) ts) (Some a)
    = Some (a + Z.of_nat (List.length (filter p ts))).
Proof.
  intros p ts; induction ts as [|t r IH]; intros a; simpl.
  - f_equal; lia.
  - rewrite IH. destruct (p t); simpl List.length; f_equal; lia.
Qed.

Lemma sql_sum_count :
  forall (p : Tenant.t -> bool) ts,
    sql_sum (map (fun t => sql_bool (p t)) ts)
    = match ts with
      | [] => None
      | _ => Some (Z.of_nat (List.length (filter p ts)))
      end.
Proof.
  intros p [|t r]; [reflexivity|].
  unfold sql_sum. cbn [map fold_left sql_bool].
  rewrite sql_sum_count_from. cbn [filter].
  destruct (p t); simpl List.length; f_equal; lia.
Qed.

(** ** C1: the derived payment status *)

Lemma listing_rows :
  forall e search st user d t,
    In t (listing (get_tenants e search st user d))
    <-> In t (tenants d) /\ tenants_where e search st t = true.
Proof.
  intros. unfold listing, get_tenants; cbn [snd body reply].
  rewrite order_by_sn_In, filter_In. reflexivity.
Qed.

Lemma listing_perm :
  forall e search st user d,
    Permutation (listing (get_tenants e search st user d))
                (filter (tenants_where e search st) (tenants d)).
Proof.
  intros. unfold listing, get_tenants; cbn [snd body reply]. apply order_by_sn_perm.
Qed.

Lemma where_split :
  forall e search st t,
    tenants_where e search (Some st) t
    = tenants_where e search None t && tenants_where e None (Some st) t.
Proof.
  intros. unfold tenants_where. cbn [JS.opt_truthy]. rewrite andb_true_r. reflexivity.
Qed.

Lemma column_like_some :
  forall e s v, column_like e s (Some v) <-> sql_like e ("%" ++ s ++ "%") v = true.
Proof.
  intros e s v; split.
  - intros (w & Hw & H). inversion Hw; subst. exact H.
  - intros H. exists v. split; [reflexivity | exact H].
Qed.

Lemma column_like_opt :
  forall e s col,
    column_like e s col
    <-> match col with Some v => sql_like e ("%" ++ s ++ "%") v | None => false end = true.
Proof.
  intros e s [v|]; [apply column_like_some|].
  split; [intros (w & Hw & _); discriminate | discriminate].
Qed.

Lemma where_search :
  forall e search t,
    tenants_where e search None t = true <-> matches_search e search t.
Proof.
  intros e [s|] t; unfold tenants_where, matches_search; cbn [JS.opt_truthy];
    [|rewrite andb_true_r; tauto].
  rewrite andb_true_r.
  destruct s as [|c r]; cbn [JS.str_truthy]; [tauto|].
  rewrite !orb_true_iff, column_like_some, !column_like_opt.
  split; [intros [[[H | H] | H] | H]; auto | intros [H | [H | [H | [H | H]]]]; auto].
  discriminate.
Qed.

Lemma listing_status :
  forall e search st user d t,
    In t (listing (get_tenants e search (Some st) user d))
    <-> In t (tenants d) /\ matches_search e search t
        /\ tenants_where e None (Some st) t = true.
Proof.
  intros. rewrite listing_rows, where_split, andb_true_iff, where_search. reflexivity.
Qed.

Lemma where_status_only :
  forall e st p,
    (forall t, tenants_where e None (Some st) t
               = p (Tenant.amount_paid t) (Tenant.rent_per_annum t)) ->
    forall user d,
      Permutation (listing (get_tenants e None (Some st) user d))
                  (filter (fun t => p (Tenant.amount_paid t) (Tenant.rent_per_annum t))
                          (tenants d)).
Proof.
  intros e st p Hp user d.
  rewrite (filter_ext _ _ (fun t => eq_sym (Hp t))). apply listing_perm.
Qed.

Lemma is_paid_spec : forall a r, is_paid a r = true <-> spec_paid a r.
Proof. intros; unfold is_paid, spec_paid; rewrite andb_true_iff; lia. Qed.

Lemma is_partial_spec : forall a r, is_partial a r = true <-> spec_partial a r.
Proof. intros; unfold is_partial, spec_partial; rewrite andb_true_iff; lia. Qed.

Lemma is_unpaid_spec : forall a r, is_unpaid a r = true <-> spec_unpaid a r.
Proof. intros; unfold is_unpaid, spec_unpaid; lia. Qed.

Lemma where_paid :
  forall e t,
    tenants_where e None (Some "paid") t = true
    <-> spec_paid (Tenant.amount_paid t) (Tenant.rent_per_annum t).
Proof.
  intros; unfold tenants_where, spec_paid; cbn [JS.opt_truthy andb].
  rewrite andb_true_iff; lia.
Qed.

Lemma where_partial :
  forall e t,
    tenants_where e None (Some "partial") t = true
    <-> spec_partial (Tenant.amount_paid t) (Tenant.rent_per_annum t).
Proof.
  intros; unfold tenants_where, spec_partial; cbn [JS.opt_truthy andb].
  rewrite andb_true_iff; lia.
Qed.

Lemma where_unpaid :
  forall e t,
    tenants_where e None (Some "unpaid") t = true
    <-> spec_unpaid (Tenant.amount_paid t) (Tenant.rent_per_annum t).
Proof.
  intros; unfold tenants_where, spec_unpaid; cbn [JS.opt_truthy andb]; lia.
Qed.

Lemma counters_of_stats :
  forall e d,
    fully_paid (stats_summary e d) = counted is_paid d
    /\ partial_paid (stats_summary e d) = counted is_partial d
    /\ unpaid_count (stats_summary e d) = counted is_unpaid d.
Proof.
  intros e d. unfold stats_summary, counted.
  cbn [fully_paid partial_paid unpaid_count].
  rewrite !sql_sum_count.
  destruct (tenants d) as [|t ts]; [auto|].
  repeat split; do 3 f_equal; apply filter_ext; intros x;
    unfold is_paid, is_partial, is_unpaid.
  - apply andb_comm.
  - f_equal. rewrite Z.gtb_ltb. reflexivity.
Qed.

(** The seed rows: two tenants are paid, two partial, one unpaid. *)
Example seed_statuses :
  listed_ids "paid" seed_db = ["t-001"; "t-004"]
  /\ listed_ids "partial" seed_db = ["t-002"; "t-005"]
  /\ listed_ids "unpaid" seed_db = ["t-003"]
  /\ fully_paid (stats_summary demo_env seed_db) = Some 2
  /\ partial_paid (stats_summary demo_env seed_db) = Some 2
  /\ unpaid_count (stats_summary demo_env seed_db) = Some 1.
Proof. repeat split; vm_compute; reflexivity. Qed.

(** The scenario of the specification: unpaid, then partial, then paid, and
    partial again once the second payment is deleted. *)
Example ledger_scenario :
  (listed_ids "unpaid" scenario_1 = ["t-new"]
   /\ option_map Tenant.amount_paid (select_tenant scenario_1 "t-new") = Some 0)
  /\ (listed_ids "partial" scenario_2 = ["t-new"]
      /\ option_map Tenant.amount_paid (select_tenant scenario_2 "t-new") = Some 5000000)
  /\ (listed_ids "paid" scenario_3 = ["t-new"]
      /\ option_map Tenant.amount_paid (select_tenant scenario_3 "t-new") = Some 20000000
      /\ map Payment.receipt_number (payments scenario_3)
         = [Some "RCP-2025-0002"; Some "RCP-2025-0001"])
  /\ (listed_ids "partial" scenario_4 = ["t-new"]
      /\ option_map Tenant.amount_paid (select_tenant scenario_4 "t-new") = Some 5000000
      /\ map Payment.id (payments scenario_4) = ["pay-1"]).
Proof. repeat split; vm_compute; reflexivity. Qed.

(** C1.  The status filter of the tenant list and the three status counters
    of the dashboard classify a tenant by its pair (amount_paid,
    rent_per_annum) alone.  The listing answers 200, writes nothing and
    returns rows of the tenants table: without a status, those that pass the
    search; under "paid" those of them with rent_per_annum > 0 and
    amount_paid >= rent_per_annum, under "partial" those with
    0 < amount_paid < rent_per_annum, under "unpaid" those with
    amount_paid = 0, and no others; without a search each such row of the
    table is listed once.  The counters count the tenants of the table that
    satisfy the same three predicates; two tenants of the table with the
    same pair are listed under the same statuses; a tenant with
    rent_per_annum = 0 is never listed or counted as paid. *)
Theorem derived_payment_status :
  forall (e : env) (search : option string) (user : claims) (d : db) (t : Tenant.t),
    (forall st,
       fst (get_tenants e search st user d) = d
       /\ status (snd (get_tenants e search st user d)) = 200)
    /\ (In t (listing (get_tenants e search None user d))
        <-> In t (tenants d) /\ matches_search e search t)
    /\ (In t (listing (get_tenants e search (Some "paid") user d))
        <-> In t (tenants d) /\ matches_search e search t
            /\ spec_paid (Tenant.amount_paid t) (Tenant.rent_per_annum t))
    /\ (In t (listing (get_tenants e search (Some "partial") user d))
        <-> In t (tenants d) /\ matches_search e search t
            /\ spec_partial (Tenant.amount_paid t) (Tenant.rent_per_annum t))
    /\ (In t (listing (get_tenants e search (Some "unpaid") user d))
        <-> In t (tenants d) /\ matches_search e search t
            /\ spec_unpaid (Tenant.amount_paid t) (Tenant.rent_per_annum t))
    /\ (Permutation (listing (get_tenants e None (Some "paid") user d))
                    (filter (fun x => is_paid (Tenant.amount_paid x) (Tenant.rent_per_annum x))
                            (tenants d))
        /\ Permutation (listing (get_tenants e None (Some "partial") user d))
                       (filter (fun x => is_partial (Tenant.amount_paid x)
                                                    (Tenant.rent_per_annum x))
                               (tenants d))
        /\ Permutation (listing (get_tenants e None (Some "unpaid") user d))
                       (filter (fun x => is_unpaid (Tenant.amount_paid x)
                                                   (Tenant.rent_per_annum x))
                               (tenants d)))
    /\ (summary_of (get_stats e user d) = Some (stats_summary e d)
        /\ fully_paid (stats_summary e d) = counted is_paid d
        /\ partial_paid (stats_summary e d) = counted is_partial d
        /\ unpaid_count (stats_summary e d) = counted is_unpaid d)
    /\ (forall a r, (is_paid a r = true <-> spec_paid a r)
                    /\ (is_partial a r = true <-> spec_partial a r)
                    /\ (is_unpaid a r = true <-> spec_unpaid a r))
    /\ (forall st t2,
          In st ["paid"; "partial"; "unpaid"] ->
          In t (tenants d) -> In t2 (tenants d) ->
          Tenant.amount_paid t2 = Tenant.amount_paid t ->
          Tenant.rent_per_annum t2 = Tenant.rent_per_annum t ->
          (In t2 (listing (get_tenants e None (Some st) user d))
           <-> In t (listing (get_tenants e None (Some st) user d))))
    /\ (Tenant.rent_per_annum t = 0 ->
        ~ In t (listing (get_tenants e search (Some "paid") user d))
        /\ is_paid (Tenant.amount_paid t) (Tenant.rent_per_annum t) = false).
Proof.
  intros e search user d t.
  split; [intros st; split; reflexivity|].
  split; [rewrite listing_rows, where_search; reflexivity|].
  split; [rewrite listing_status, where_paid; reflexivity|].
  split; [rewrite listing_status, where_partial; reflexivity|].
  split; [rewrite listing_status, where_unpaid; reflexivity|].
  split.
  { split; [|split]; apply where_status_only; intros x;
      unfold tenants_where, is_paid, is_partial, is_unpaid; cbn [JS.opt_truthy andb].
    - apply andb_comm.
    - rewrite Z.gtb_ltb. reflexivity.
    - reflexivity. }
  split; [split; [reflexivity | apply counters_of_stats]|].
  split; [intros a r; auto using is_paid_spec, is_partial_spec, is_unpaid_spec|].
  split.
  - intros st t2 Hst Hin Hin2 Ha Hr. rewrite !listing_rows.
    assert (Heq : tenants_where e None (Some st) t2 = tenants_where e None (Some st) t).
    { destruct Hst as [<- | [<- | [<- | []]]];
        unfold tenants_where; cbn [JS.opt_truthy andb]; rewrite ?Ha, ?Hr; reflexivity. }
    rewrite Heq. tauto.
  - intros H0. split.
    + rewrite listing_status, where_paid. unfold spec_paid. lia.
    + unfold is_paid. rewrite H0. reflexivity.
Qed.

(** ** Rows and statements *)

Lemma select_tenant_In :
  forall d id t, select_tenant d id = Some t -> In t (tenants d) /\ Tenant.id t = id.
Proof.
  unfold select_tenant; intros d id t H.
  apply find_some in H. destruct H as [Hin Heq].
  split; [exact Hin | apply String.eqb_eq; exact Heq].
Qed.




Lemma update_tenants_rows :
  forall id f d,
    Forall2 (fun t t' => if String.eqb (Tenant.id t) id then t' = f t else t' = t)
            (tenants d) (tenants (update_tenants id f d)).
Proof.
  intros id f d. unfold update_tenants; cbn [tenants with_tenants].
  induction (tenants d) as [|t r IH]; simpl; constructor; [|exact IH].
  destruct (String.eqb (Tenant.id t) id); reflexivity.
Qed.

Lemma select_updated :
  forall id f d,
    (forall t, Tenant.id (f t) = Tenant.id t) ->
    select_tenant (update_tenants id f d) id = option_map f (select_tenant d id).
Proof.
  intros id f d Hid. unfold select_tenant, update_tenants; cbn [tenants with_tenants].
  induction (tenants d) as [|t r IH]; simpl; [reflexivity|].
  destruct (String.eqb (Tenant.id t) id) eqn:Heq.
  - rewrite Hid, Heq. reflexivity.
  - rewrite Heq. exact IH.
Qed.

Lemma select_not_updated :
  forall id id' f d,
    (forall t, Tenant.id (f t) = Tenant.id t) -> id' <> id ->
    select_tenant (update_tenants id f d) id' = select_tenant d id'.
Proof.
  intros id id' f d Hid Hne. unfold select_tenant, update_tenants; cbn [tenants with_tenants].
  induction (tenants d) as [|t r IH]; simpl; [reflexivity|].
  destruct (String.eqb (Tenant.id t) id) eqn:Heq.
  - rewrite Hid. apply String.eqb_eq in Heq.
    destruct (String.eqb (Tenant.id t) id') eqn:Heq'.
    + apply String.eqb_eq in Heq'. congruence.
    + exact IH.
  - destruct (String.eqb (Tenant.id t) id'); [reflexivity | exact IH].
Qed.



(** ** Amounts *)

Lemma round_half_away_exact :
  forall z d, 0 < d -> round_half_away (z * d) d = z.
Proof.
  intros z d Hd. unfold round_half_away.
  destruct (0 <=? z * d) eqn:E.
  - replace (2 * (z * d) + d) with (z * (2 * d) + d) by ring.
    rewrite Z.div_add_l by lia. rewrite Z.div_small by lia. lia.
  - replace (2 * - (z * d) + d) with ((- z) * (2 * d) + d) by ring.
    rewrite Z.div_add_l by lia. rewrite Z.div_small by lia. lia.
Qed.

Lemma round_half_away_shift :
  forall x n d,
    0 < d -> 0 <= x -> 0 <= round_half_away n d ->
    round_half_away (x * d + n) d = x + round_half_away n d.
Proof.
  intros x n d Hd Hx. unfold round_half_away.
  destruct (0 <=? n) eqn:En.
  - apply Z.leb_le in En. intros _.
    assert (E : (0 <=? x * d + n) = true) by (apply Z.leb_le; nia). rewrite E.
    replace (2 * (x * d + n) + d) with (x * (2 * d) + (2 * n + d)) by ring.
    rewrite Z.div_add_l by lia. reflexivity.
  - apply Z.leb_gt in En. intros H.
    assert (Hq : (2 * - n + d) / (2 * d) = 0).
    { pose proof (Z.div_pos (2 * - n + d) (2 * d) ltac:(lia) ltac:(lia)). lia. }
    assert (Hs : 2 * - n + d < 2 * d).
    { apply Z.div_small_iff in Hq; lia. }
    rewrite Hq.
    destruct (0 <=? x * d + n) eqn:E.
    + apply Z.leb_le in E.
      replace (2 * (x * d + n) + d) with (x * (2 * d) + (2 * n + d)) by ring.
      rewrite Z.div_add_l by lia. rewrite (Z.div_small (2 * n + d)) by lia. lia.
    + apply Z.leb_gt in E.
      assert (x = 0) by nia. subst x.
      replace (0 * d + n) with n by ring. rewrite Hq. reflexivity.
Qed.

Lemma add_decimal_nonneg :
  forall x q,
    0 <= x -> 0 <= decimal_of_Q q -> add_decimal x q = x + decimal_of_Q q.
Proof.
  intros x q Hx Hq. unfold add_decimal, decimal_of_Q in *.
  apply round_half_away_shift; [reflexivity | exact Hx | exact Hq].
Qed.

Lemma hundredths_exact :
  forall q z,
    (q == (z # 100))%Q ->
    decimal_of_Q q = z /\ forall x, add_decimal x q = x + z.
Proof.
  intros q z H. unfold Qeq in H. cbn [Qnum Qden] in H.
  assert (Hn : 100 * Qnum q = z * Zpos (Qden q)) by lia.
  unfold decimal_of_Q, add_decimal. rewrite Hn. split.
  - apply round_half_away_exact. reflexivity.
  - intros x. replace (x * Zpos (Qden q) + z * Zpos (Qden q)) with ((x + z) * Zpos (Qden q))
      by ring.
    apply round_half_away_exact. reflexivity.
Qed.


Lemma store_zero : store_decimal 0 = Some 0.
Proof. vm_compute. reflexivity. Qed.

Lemma sql_plus_number :
  forall q amount x, sql_plus (JS.JNum q) amount x = add_decimal x q.
Proof. reflexivity. Qed.

(** ** C2: recording a payment *)






(** ** C4: deleting a payment *)




(** ** C10: the payment-only patch *)

(** C10 as amended.  A payment-only patch of an authenticated caller on an
    existing tenant stores, when the supplied amount_paid is a number other
    than zero, that number rounded to hundredths (a tie away from zero) and
    is answered 200 with the row, provided the rounded number is within the
    range of the column; a number beyond the range is answered 500 and
    nothing is written.  A number that is a whole number of hundredths is
    stored as it is.  The patch stores 0 when the field is omitted or holds
    any falsy value (undefined, null, false, 0, the empty string): a body
    without amount_paid zeroes the balance, no validation error is raised.
    Every other column of the row and every other tenant stay as they were. *)
Theorem payment_patch_stores_value_or_zero :
  forall (e : env) (h : string) (user : claims) (id : string) (v : JS.jsval)
         (d : db) (t : Tenant.t),
    authenticates e h user ->
    select_tenant d id = Some t ->
    (forall q,
        v = JS.JNum q -> ~ (q == 0)%Q ->
        (Z.abs (decimal_of_Q q) < 10 ^ 15 ->
         exists d',
           app e (PatchTenantPayment (Some h) id v) d
           = (d', reply 200 (TenantRow (Some (Tenant.set_amount_paid (decimal_of_Q q) t))))
           /\ select_tenant d' id = Some (Tenant.set_amount_paid (decimal_of_Q q) t)
           /\ Forall2 (balance_rewritten id (fun _ => decimal_of_Q q))
                      (tenants d) (tenants d'))
        /\ (10 ^ 15 <= Z.abs (decimal_of_Q q) ->
            app e (PatchTenantPayment (Some h) id v) d
            = (d, reply 500 (Thrown ER_TRUNCATED_VALUE)))
        /\ (forall z, (q == (z # 100))%Q -> decimal_of_Q q = z))
    /\ (JS.truthy v = false ->
        exists d',
          app e (PatchTenantPayment (Some h) id v) d
          = (d', reply 200 (TenantRow (Some (Tenant.set_amount_paid 0 t))))
          /\ select_tenant d' id = Some (Tenant.set_amount_paid 0 t)
          /\ Forall2 (balance_rewritten id (fun _ => 0)) (tenants d) (tenants d'))
    /\ JS.truthy JS.JUndefined = false
    /\ JS.truthy JS.JNull = false
    /\ JS.truthy (JS.JNum 0) = false
    /\ JS.truthy (JS.JStr EmptyString) = false
    /\ JS.truthy (JS.JBool false) = false.
Proof.
  intros e h user id v d t Hauth Hsel.
  cbn [app]. rewrite (auth_pass _ _ _ _ _ _ Hauth (permitted_any user)).
  unfold patch_tenant_payment.
  assert (Hstore : forall z,
             select_tenant (update_tenants id (Tenant.set_amount_paid z) d) id
             = Some (Tenant.set_amount_paid z t)).
  { intros z. rewrite select_updated by reflexivity. rewrite Hsel. reflexivity. }
  split; [|split; [|repeat split]].
  - intros q -> Hq.
    assert (Htr : JS.truthy (JS.JNum q) = true).
    { cbn [JS.truthy]. apply negb_true_iff, Z.eqb_neq. intros H0. apply Hq.
      unfold Qeq. cbn. rewrite H0. reflexivity. }
    unfold JS.or. rewrite Htr. cbn [sql_decimal]. unfold store_decimal.
    split; [|split].
    + intros Hr. apply Z.ltb_lt in Hr. rewrite Hr.
      exists (update_tenants id (Tenant.set_amount_paid (decimal_of_Q q)) d).
      rewrite Hstore. split; [reflexivity|]. split; [reflexivity|].
      apply (update_tenants_rows id (Tenant.set_amount_paid (decimal_of_Q q)) d).
    + intros Hr. apply Z.ltb_ge in Hr. rewrite Hr, Hsel. reflexivity.
    + intros z Hz. apply (hundredths_exact q z Hz).
  - intros Hf. unfold JS.or. rewrite Hf. cbn [sql_decimal]. rewrite store_zero.
    exists (update_tenants id (Tenant.set_amount_paid 0) d).
    rewrite Hstore. split; [reflexivity|]. split; [reflexivity|].
    apply (update_tenants_rows id (Tenant.set_amount_paid 0) d).
Qed.

Lemma payment_patch_stores_value_or_zero_witness :
  (exists d',
      app demo_env
          (PatchTenantPayment (Some "Bearer staff-token") "t-002" (JS.JNum 75000)) seed_db
      = (d', reply 200 (TenantRow (Some (Tenant.set_amount_paid 7500000 seed_t002))))
      /\ select_tenant d' "t-002" = Some (Tenant.set_amount_paid 7500000 seed_t002)
      /\ Forall2 (balance_rewritten "t-002" (fun _ => 7500000))
                 (tenants seed_db) (tenants d'))
  /\ (exists d',
         app demo_env
             (PatchTenantPayment (Some "Bearer staff-token") "t-002" JS.JUndefined) seed_db
         = (d', reply 200 (TenantRow (Some (Tenant.set_amount_paid 0 seed_t002))))
         /\ select_tenant d' "t-002" = Some (Tenant.set_amount_paid 0 seed_t002)
         /\ Forall2 (balance_rewritten "t-002" (fun _ => 0)) (tenants seed_db) (tenants d')).
Proof.
  split.
  - apply (proj1 (proj1 (payment_patch_stores_value_or_zero demo_env "Bearer staff-token"
                           staff_claims "t-002" (JS.JNum 75000) seed_db seed_t002
                           (ex_intro _ "staff-token" (conj eq_refl (conj eq_refl eq_refl)))
                           eq_refl) 75000%Q eq_refl ltac:(discriminate))).
    vm_compute. reflexivity.
  - apply (proj1 (proj2 (payment_patch_stores_value_or_zero demo_env "Bearer staff-token"
                           staff_claims "t-002" JS.JUndefined seed_db seed_t002
                           (ex_intro _ "staff-token" (conj eq_refl (conj eq_refl eq_refl)))
                           eq_refl))).
    reflexivity.
Defined.

(** C10 as stated fails.  A patch of tenant t-002 with amount_paid 1234.567,
    a number other than zero, is answered 200 and the balance stored is
    1234.57, which is not the value supplied.  A patch with 10^13 is
    answered 500 and the balance stays at 150000.00. *)
Lemma rounded_patch_counterexample :
  (status (snd (app demo_env
                    (PatchTenantPayment (Some "Bearer staff-token") "t-002"
                                        (JS.JNum (1234567 # 1000))) seed_db)) = 200
   /\ option_map Tenant.amount_paid
        (select_tenant
           (fst (app demo_env
                     (PatchTenantPayment (Some "Bearer staff-token") "t-002"
                                         (JS.JNum (1234567 # 1000))) seed_db)) "t-002")
      = Some 123457
   /\ ~ ((123457 # 100) == (1234567 # 1000))%Q)
  /\ (status (snd (app demo_env
                       (PatchTenantPayment (Some "Bearer staff-token") "t-002"
                                           (JS.JNum (inject_Z (10 ^ 13)))) seed_db)) = 500
      /\ option_map Tenant.amount_paid
           (select_tenant
              (fst (app demo_env
                        (PatchTenantPayment (Some "Bearer staff-token") "t-002"
                                            (JS.JNum (inject_Z (10 ^ 13)))) seed_db)) "t-002")
         = Some 15000000).
Proof.
  split; [split; [vm_compute; reflexivity | split; [vm_compute; reflexivity|]]|].
  - intros H. vm_compute in H. discriminate.
  - split; vm_compute; reflexivity.
Qed.

(** ** C7: the quit-notice toggle *)

(** C7 as amended.  The quit-notice toggle of an authenticated caller on an
    existing tenant stores the requested flag and, whatever the flag was
    before, stamps quit_notice_date with the current date when the requested
    flag is truthy and clears it to null when it is falsy; nothing else of
    the row changes and every other tenant row is untouched.  In particular
    a transition from false to true sets the date to the current date and a
    transition to false clears it. *)
Theorem quit_toggle_stamps_or_clears :
  forall (e : env) (h : string) (user : claims) (id : string) (q : JS.jsval)
         (d : db) (t : Tenant.t),
    authenticates e h user ->
    select_tenant d id = Some t ->
    exists d',
      app e (PatchTenantQuit (Some h) id q) d
      = (d', reply 200 (TenantRow (select_tenant d' id)))
      /\ select_tenant d' id
         = Some (Tenant.set_quit (JS.truthy q)
                   (if JS.truthy q then Some (utc_today e) else None) t)
      /\ (forall id', id' <> id -> select_tenant d' id' = select_tenant d id')
      /\ payments d' = payments d.
Proof.
  intros e h user id q d t Hauth Hsel.
  cbn [app]. rewrite (auth_pass _ _ _ _ _ _ Hauth (permitted_any user)).
  unfold patch_tenant_quit.
  eexists. split; [reflexivity|]. split; [|split; [|reflexivity]].
  - rewrite select_updated by reflexivity. rewrite Hsel. reflexivity.
  - intros id' Hne. apply select_not_updated; [reflexivity | exact Hne].
Qed.

Lemma quit_toggle_stamps_or_clears_witness :
  exists d',
    app demo_env (PatchTenantQuit (Some "Bearer staff-token") "t-002" (JS.JBool true)) seed_db
    = (d', reply 200 (TenantRow (select_tenant d' "t-002")))
    /\ select_tenant d' "t-002"
       = Some (Tenant.set_quit (JS.truthy (JS.JBool true))
                 (if JS.truthy (JS.JBool true) then Some (utc_today demo_env) else None)
                 seed_t002)
    /\ (forall id', id' <> "t-002" -> select_tenant d' id' = select_tenant seed_db id')
    /\ payments d' = payments seed_db.
Proof.
  apply (quit_toggle_stamps_or_clears demo_env "Bearer staff-token" staff_claims
           "t-002" (JS.JBool true) seed_db seed_t002).
  - exists "staff-token". repeat split.
  - reflexivity.
Defined.

(** C7 as stated fails: a tenant toggled to quit notice on 2025-03-01 and
    toggled again, to the state it is already in, on 2025-03-02 has its
    quit_notice_date moved to 2025-03-02. *)
Lemma quit_toggle_restamps_counterexample :
  option_map Tenant.quit_notice (select_tenant toggled_once "t-002")
  = Some (JS.truthy (JS.JBool true))
  /\ option_map Tenant.quit_notice_date (select_tenant toggled_once "t-002")
     = Some (Some (ymd 2025 3 1))
  /\ option_map Tenant.quit_notice_date (select_tenant toggled_twice "t-002")
     = Some (Some (ymd 2025 3 2))
  /\ option_map Tenant.quit_notice_date (select_tenant toggled_twice "t-002")
     <> option_map Tenant.quit_notice_date (select_tenant toggled_once "t-002").
Proof.
  repeat split. vm_compute. discriminate.
Qed.

(** ** C6: validation of a record-payment request *)

Lemma post_payment_status :
  forall e b user d,
    status (snd (post_payment e b user d)) = 400
    <-> (JS.opt_truthy (b_tenant_id b) = false \/ JS.truthy (b_amount b) = false).
Proof.
  intros e b user d. unfold post_payment, JS.opt_truthy.
  destruct (b_tenant_id b) as [tid|]; [|cbn; tauto].
  destruct (JS.str_truthy tid); cbn [negb orb]; [|cbn; tauto].
  destruct (JS.truthy (b_amount b)); cbn [negb]; [|cbn; tauto].
  destruct (sql_decimal e (b_amount b)) as [amount|]; [|cbn; split; [discriminate | intros [|]; discriminate]].
  destruct (insert_payment _ d) as [err|d1]; cbn;
    (split; [discriminate | intros [|]; discriminate]).
Qed.

Lemma post_payment_defaults :
  forall e b user d d' answer,
    post_payment e b user d = (d', reply 201 answer) ->
    exists row,
      payments d' = row :: payments d
      /\ Payment.payment_date row
         = match b_payment_date b with Some pd => pd | None => utc_today e end
      /\ Payment.payment_method row = JS.str_or (b_payment_method b) "cash".
Proof.
  intros e b user d d' answer. unfold post_payment.
  destruct (b_tenant_id b) as [tid|]; [|discriminate].
  destruct (negb (JS.str_truthy tid) || negb (JS.truthy (b_amount b))); [discriminate|].
  destruct (sql_decimal e (b_amount b)) as [amount|]; [|discriminate].
  unfold insert_payment. cbn [Payment.id Payment.tenant_id].
  destruct (negb (enum_member payment_methods _)); [discriminate|].
  destruct (select_payment d (uuid e 0)); [discriminate|].
  destruct (select_tenant d tid); [|discriminate].
  intros H. inversion H; subst. eexists. cbn. repeat split.
Qed.

(** C6 as amended.  A record-payment request of an authenticated caller is
    answered 400 ("tenant_id and amount required") exactly when tenant_id is
    absent or empty or the amount is absent or falsy (null, zero, false, the
    empty string); the sign of the amount is not examined.  A request with a
    non-empty tenant_id and a positive amount passes this validation, and a
    payment it records takes payment_date from the body or today's date and
    payment_method from the body or "cash". *)
Theorem payment_validation :
  forall (e : env) (h : string) (user : claims) (b : payment_body) (d : db),
    authenticates e h user ->
    (status (snd (app e (PostPayment (Some h) b) d)) = 400
     <-> (JS.opt_truthy (b_tenant_id b) = false \/ JS.truthy (b_amount b) = false))
    /\ (status (snd (app e (PostPayment (Some h) b) d)) = 400 ->
        app e (PostPayment (Some h) b) d
        = (d, reply 400 (Error "tenant_id and amount required")))
    /\ (JS.opt_truthy (b_tenant_id b) = true -> amount_positive (b_amount b) ->
        status (snd (app e (PostPayment (Some h) b) d)) <> 400)
    /\ (forall d' answer,
          app e (PostPayment (Some h) b) d = (d', reply 201 answer) ->
          exists row,
            payments d' = row :: payments d
            /\ Payment.payment_date row
               = match b_payment_date b with Some pd => pd | None => utc_today e end
            /\ Payment.payment_method row = JS.str_or (b_payment_method b) "cash").
Proof.
  intros e h user b d Hauth.
  cbn [app]. rewrite (auth_pass _ _ _ _ _ _ Hauth (permitted_any user)).
  split; [apply post_payment_status|].
  split; [|split; [|apply post_payment_defaults]].
  - intros H. apply post_payment_status in H. unfold post_payment, JS.opt_truthy in *.
    destruct (b_tenant_id b) as [tid|]; [|reflexivity].
    destruct H as [-> | ->]; cbn [negb orb]; [reflexivity|].
    rewrite orb_true_r. reflexivity.
  - intros Ht (z & Hz & Hpos) H. apply post_payment_status in H.
    destruct H as [H | H]; [congruence|].
    rewrite Hz in H. cbn [JS.truthy] in H.
    apply negb_false_iff, Z.eqb_eq in H. unfold Qlt in Hpos. cbn in Hpos. lia.
Qed.

Lemma payment_validation_witness :
  (status (snd (app demo_env (PostPayment (Some "Bearer admin-token") demo_payment) seed_db)) = 400
   <-> (JS.opt_truthy (b_tenant_id demo_payment) = false
        \/ JS.truthy (b_amount demo_payment) = false))
  /\ (status (snd (app demo_env (PostPayment (Some "Bearer admin-token") demo_payment) seed_db)) = 400 ->
      app demo_env (PostPayment (Some "Bearer admin-token") demo_payment) seed_db
      = (seed_db, reply 400 (Error "tenant_id and amount required")))
  /\ (JS.opt_truthy (b_tenant_id demo_payment) = true ->
      amount_positive (b_amount demo_payment) ->
      status (snd (app demo_env (PostPayment (Some "Bearer admin-token") demo_payment) seed_db))
      <> 400)
  /\ (forall d' answer,
        app demo_env (PostPayment (Some "Bearer admin-token") demo_payment) seed_db
        = (d', reply 201 answer) ->
        exists row,
          payments d' = row :: payments seed_db
          /\ Payment.payment_date row
             = match b_payment_date demo_payment with
               | Some pd => pd
               | None => utc_today demo_env
               end
          /\ Payment.payment_method row = JS.str_or (b_payment_method demo_payment) "cash").
Proof.
  apply (payment_validation demo_env "Bearer admin-token" admin_claims demo_payment seed_db).
  exists "admin-token". repeat split.
Defined.

(** C6 as stated fails: a payment of -500.00 for tenant t-002 has an amount
    that is not positive, yet it is not rejected: the answer is 201, a
    payment row of -500.00 is stored and the balance of the tenant drops
    from 150000.00 to 149500.00. *)
Lemma negative_amount_accepted_counterexample :
  b_tenant_id negative_payment = Some "t-002"
  /\ ~ amount_positive (b_amount negative_payment)
  /\ status (snd (app demo_env (PostPayment (Some "Bearer admin-token") negative_payment)
                      seed_db)) = 201
  /\ option_map Payment.amount
       (hd_error (payments (fst (app demo_env
                                     (PostPayment (Some "Bearer admin-token") negative_payment)
                                     seed_db))))
     = Some (-50000)
  /\ option_map Tenant.amount_paid
       (select_tenant (fst (app demo_env
                                (PostPayment (Some "Bearer admin-token") negative_payment)
                                seed_db)) "t-002")
     = Some 14950000
  /\ ~ (status (snd (app demo_env (PostPayment (Some "Bearer admin-token") negative_payment)
                         seed_db)) = 400
        <-> (b_tenant_id negative_payment = None
             \/ ~ amount_positive (b_amount negative_payment))).
Proof.
  assert (Hneg : ~ amount_positive (b_amount negative_payment)).
  { intros (z & Hz & Hpos). cbn in Hz. inversion Hz. subst z. vm_compute in Hpos.
    discriminate. }
  split; [reflexivity|]. split; [exact Hneg|].
  split; [vm_compute; reflexivity|].
  split; [vm_compute; reflexivity|].
  split; [vm_compute; reflexivity|].
  intros [_ H]. specialize (H (or_intror Hneg)). vm_compute in H. discriminate.
Qed.

(** ** C5: the sign of the stored balance *)

Lemma span_digits_all_digits : forall s, all_digits (fst (JS.span_digits s)) = true.
Proof.
  induction s as [|c r IH]; [reflexivity|].
  cbn [JS.span_digits]. destruct (JS.is_digit c) eqn:Hc; [|reflexivity].
  destruct (JS.span_digits r) as [ds rest]. cbn [fst all_digits] in *.
  rewrite Hc, IH. reflexivity.
Qed.

Lemma all_digits_app :
  forall a b, all_digits a = true -> all_digits b = true -> all_digits (a ++ b) = true.
Proof.
  induction a as [|c r IH]; intros b Ha Hb; [exact Hb|].
  cbn [all_digits String.append] in *. apply andb_true_iff in Ha. destruct Ha as [Hc Hr].
  rewrite Hc. cbn [andb]. apply IH; assumption.
Qed.

Lemma digit_val_range : forall c, JS.is_digit c = true -> 0 <= JS.digit_val c <= 9.
Proof.
  intros c H. unfold JS.is_digit in H. unfold JS.digit_val.
  apply andb_true_iff in H. lia.
Qed.

Lemma digits_value_nonneg :
  forall ds acc, all_digits ds = true -> 0 <= acc -> 0 <= JS.digits_value acc ds.
Proof.
  induction ds as [|c r IH]; intros acc Hd Hacc; [exact Hacc|].
  cbn [all_digits JS.digits_value] in *. apply andb_true_iff in Hd. destruct Hd as [Hc Hr].
  apply IH; [exact Hr|]. pose proof (digit_val_range c Hc). lia.
Qed.

Lemma Qred_nonneg : forall q, 0 <= Qnum q -> 0 <= Qnum (Qred q).
Proof.
  intros q Hq.
  assert (H : (0 <= Qred q)%Q).
  { rewrite Qred_correct. unfold Qle. cbn. lia. }
  unfold Qle in H. cbn in H. lia.
Qed.

Lemma scaled_nonneg :
  forall b k n d,
    0 < b -> 0 <= n -> 0 < d ->
    0 <= fst (JS.scaled b k n d) /\ 0 < snd (JS.scaled b k n d).
Proof.
  intros b k n d Hb Hn Hd. unfold JS.scaled.
  destruct (0 <=? k) eqn:E; cbn [fst snd].
  - apply Z.leb_le in E. pose proof (Z.pow_pos_nonneg b k Hb E). split; [nia | lia].
  - apply Z.leb_gt in E. pose proof (Z.pow_pos_nonneg b (- k) Hb ltac:(lia)).
    split; [lia | nia].
Qed.

Lemma round_even_nonneg :
  forall n d, 0 <= n -> 0 < d -> 0 <= JS.round_even n d.
Proof.
  intros n d Hn Hd. unfold JS.round_even.
  pose proof (Z.div_pos n d Hn Hd).
  destruct (2 * (n mod d) <? d); [lia|].
  destruct (d <? 2 * (n mod d)); [lia|].
  destruct (Z.even (n / d)); lia.
Qed.

Lemma binary_nonneg : forall m u, 0 <= m -> 0 <= Qnum (JS.binary m u).
Proof.
  intros m u Hm. unfold JS.binary.
  destruct (0 <=? u) eqn:E.
  - apply Z.leb_le in E. cbn. pose proof (Z.pow_pos_nonneg 2 u ltac:(lia) E). nia.
  - apply Qred_nonneg. exact Hm.
Qed.

Lemma nearest_double_nonneg :
  forall n d, 0 <= n -> 0 < d -> nonneg_number (JS.nearest_double n d).
Proof.
  intros n d Hn Hd. unfold JS.nearest_double.
  set (u := Z.max (JS.log2_floor n d - 52) (- 1074)).
  pose proof (scaled_nonneg 2 (- u) n d ltac:(lia) Hn Hd) as [H1 H2].
  destruct (JS.scaled 2 (- u) n d) as [n' d']. cbn [fst snd] in *.
  destruct ((971 <=? u) && _); cbn [nonneg_number]; [reflexivity|].
  apply binary_nonneg, round_even_nonneg; assumption.
Qed.

Lemma to_double_nonneg : forall q, 0 <= Qnum q -> nonneg_number (JS.to_double q).
Proof.
  intros q Hq. unfold JS.to_double.
  destruct ((Zpos (Qden q) =? 1) && _); [exact Hq|].
  destruct (Qnum q =? 0) eqn:E0; [cbn; lia|].
  destruct (0 <? Qnum q) eqn:E; [apply nearest_double_nonneg; lia|].
  apply Z.ltb_ge in E. apply Z.eqb_neq in E0. lia.
Qed.

Lemma digits_at_nonneg :
  forall k10 n d p s j,
    0 <= n -> 0 < d -> JS.digits_at k10 n d p = Some (s, j) -> 0 <= s.
Proof.
  intros k10 n d p s j Hn Hd. unfold JS.digits_at.
  pose proof (scaled_nonneg 10 (- (k10 + 1 - p)) n d ltac:(lia) Hn Hd) as [H1 H2].
  destruct (JS.scaled 10 (- (k10 + 1 - p)) n d) as [n' d']. cbn [fst snd] in *.
  pose proof (round_even_nonneg n' d' H1 H2) as Hr.
  destruct (JS.same_double _ _).
  - intros H; inversion H; subst. exact Hr.
  - destruct (0 <? _) eqn:E; cbn [andb]; [|discriminate].
    destruct (JS.same_double _ _); [|discriminate].
    intros H; inversion H; subst. apply Z.ltb_lt in E. lia.
Qed.

Lemma shortest_from_nonneg :
  forall fuel k10 n d p,
    0 <= n -> 0 < d -> 0 <= fst (JS.shortest_from fuel k10 n d p).
Proof.
  induction fuel as [|f IH]; intros k10 n d p Hn Hd; cbn [JS.shortest_from].
  - cbn [fst].
    pose proof (scaled_nonneg 10 (- (k10 + 1 - p)) n d ltac:(lia) Hn Hd) as [H1 H2].
    apply round_even_nonneg; assumption.
  - destruct (JS.digits_at k10 n d p) as [[s j]|] eqn:E.
    + cbn [fst]. eapply digits_at_nonneg; eassumption.
    + apply IH; assumption.
Qed.

Lemma printed_nonneg : forall q, 0 <= Qnum q -> 0 <= Qnum (JS.printed q).
Proof.
  intros q Hq. unfold JS.printed.
  destruct ((Zpos (Qden q) =? 1) && _); [exact Hq|].
  destruct (Qnum q =? 0) eqn:E0; [cbn; lia|].
  apply Z.eqb_neq in E0.
  pose proof (shortest_from_nonneg 16 (JS.log10_floor (Z.abs (Qnum q)) (Zpos (Qden q)))
                (Z.abs (Qnum q)) (Zpos (Qden q)) 1 ltac:(lia) ltac:(lia)) as Hs.
  unfold JS.shortest.
  destruct (JS.shortest_from _ _ _ _ _) as [s j]. cbn [fst] in Hs.
  pose proof (scaled_nonneg 10 j s 1 ltac:(lia) Hs ltac:(lia)) as [H1 H2].
  destruct (JS.scaled 10 j s 1) as [a b]. cbn [fst snd] in *.
  assert (E : (0 <? Qnum q) = true) by (apply Z.ltb_lt; lia). rewrite E.
  apply Qred_nonneg. exact H1.
Qed.

Lemma round_half_away_nonneg :
  forall n d, 0 <= n -> 0 < d -> 0 <= round_half_away n d.
Proof.
  intros n d Hn Hd. unfold round_half_away.
  assert (E : (0 <=? n) = true) by (apply Z.leb_le; lia). rewrite E.
  apply Z.div_pos; lia.
Qed.

Lemma store_decimal_nonneg :
  forall q z, 0 <= Qnum q -> store_decimal q = Some z -> 0 <= z.
Proof.
  intros q z Hq. unfold store_decimal.
  destruct (_ <? _); [|discriminate]. intros H; inversion H; subst.
  apply round_half_away_nonneg; lia.
Qed.

Lemma round_even_spec :
  forall n d,
    0 <= n -> 0 < d ->
    - d <= 2 * (JS.round_even n d * d - n) <= d.
Proof.
  intros n d Hn Hd. unfold JS.round_even.
  pose proof (Z.div_mod n d ltac:(lia)) as Hdm.
  pose proof (Z.mod_pos_bound n d Hd) as Hr.
  destruct (2 * (n mod d) <? d) eqn:E1; [apply Z.ltb_lt in E1; nia|].
  apply Z.ltb_ge in E1.
  destruct (d <? 2 * (n mod d)) eqn:E2; [apply Z.ltb_lt in E2; nia|].
  apply Z.ltb_ge in E2.
  destruct (Z.even (n / d)); nia.
Qed.

Lemma round_even_upper :
  forall n d, 0 <= n -> 0 < d -> JS.round_even n d * d <= n + d.
Proof. intros n d Hn Hd. pose proof (round_even_spec n d Hn Hd). nia. Qed.





















Lemma decimal_prefix_nonneg :
  forall s q, JS.decimal_prefix s = Some q -> 0 <= Qnum q.
Proof.
  intros s q. unfold JS.decimal_prefix.
  pose proof (span_digits_all_digits s) as Hip.
  destruct (JS.span_digits s) as [ip rest]. cbn [fst] in Hip.
  set (fp := match rest with
             | EmptyString => EmptyString
             | String c r => if JS.code c =? 46 then fst (JS.span_digits r) else EmptyString
             end).
  assert (Hfp : all_digits fp = true).
  { subst fp. destruct rest as [|c r]; [reflexivity|].
    destruct (JS.code c =? 46); [apply span_digits_all_digits | reflexivity]. }
  assert (Hq : 0 <= JS.digits_value 0 (ip ++ fp))
    by (apply digits_value_nonneg; [apply all_digits_app; assumption | lia]).
  destruct ip; [destruct fp; [discriminate|]|]; intros H;
    match type of H with Some ?x = Some _ => assert (Hx : q = x) by congruence end;
    rewrite Hx; apply Qred_nonneg; exact Hq.
Qed.

Lemma parseFloat_nonneg : forall s, nonneg_number (JS.parseFloat s).
Proof.
  intros s. unfold JS.parseFloat.
  destruct (JS.decimal_prefix s) as [q|] eqn:E; [|exact I].
  apply to_double_nonneg. eapply decimal_prefix_nonneg; exact E.
Qed.

Lemma number_or_zero_nonneg :
  forall v, nonneg_number v -> nonneg_number (JS.number_or_zero v).
Proof.
  intros [|sg|q] H; cbn [JS.number_or_zero nonneg_number] in *; [cbn; lia | exact H |].
  destruct (Qnum q =? 0); cbn; lia.
Qed.

Lemma sql_number_nonneg :
  forall v z, nonneg_number v -> sql_number v = Some z -> 0 <= z.
Proof.
  intros [|sg|q] z H; cbn [sql_number]; try discriminate.
  apply store_decimal_nonneg, printed_nonneg. exact H.
Qed.

Lemma csv_number_nonneg : forall s z, csv_number s = Some z -> 0 <= z.
Proof.
  intros s z. unfold csv_number.
  apply sql_number_nonneg, number_or_zero_nonneg, parseFloat_nonneg.
Qed.

Lemma sql_plus_nonneg :
  forall e v amount x,
    sql_decimal e v = Some amount -> 0 <= amount -> 0 <= x ->
    sql_plus v amount x = x + amount.
Proof.
  intros e v amount x Hv Ha Hx. destruct v; try reflexivity.
  cbn [sql_decimal sql_plus] in *. unfold store_decimal in Hv.
  destruct (_ <? _); [|discriminate]. inversion Hv; subst amount.
  apply add_decimal_nonneg; assumption.
Qed.

Lemma auth_keeps :
  forall (P : db -> Prop) e roles a next d,
    P d -> (forall user, P (fst (next user d))) -> P (fst (auth e roles a next d)).
Proof.
  intros P e roles a next d Hd Hnext. unfold auth.
  destruct a as [h|]; [|exact Hd].
  destruct (nth_error (JS.split " " h) 1) as [token|]; [|exact Hd].
  destruct (negb (JS.str_truthy token)); [exact Hd|].
  destruct (jwt_verify e token) as [decoded|]; [|exact Hd].
  destruct (_ && _); [exact Hd | apply Hnext].
Qed.

Lemma update_keeps_nonneg :
  forall id f d,
    balances_nonneg d ->
    (forall t, 0 <= Tenant.amount_paid t -> 0 <= Tenant.amount_paid (f t)) ->
    balances_nonneg (update_tenants id f d).
Proof.
  unfold balances_nonneg, update_tenants; intros id f d Hd Hf.
  cbn [tenants with_tenants]. rewrite Forall_map.
  eapply Forall_impl; [|exact Hd]. intros t Ht. cbn beta.
  destruct (String.eqb (Tenant.id t) id); [apply Hf; exact Ht | exact Ht].
Qed.

Lemma insert_keeps_nonneg :
  forall row d d',
    balances_nonneg d -> 0 <= Tenant.amount_paid row ->
    insert_tenant row d = inr d' -> balances_nonneg d'.
Proof.
  unfold balances_nonneg, insert_tenant; intros row d d' Hd Hrow.
  destruct (select_tenant d (Tenant.id row)); [discriminate|].
  intros H; inversion H; subst d'. cbn [tenants].
  apply Forall_app. split; [exact Hd|]. constructor; [exact Hrow | constructor].
Qed.

Lemma import_rows_keeps_nonneg :
  forall e user rows k inserted d,
    balances_nonneg d -> balances_nonneg (fst (import_rows e user rows k inserted d)).
Proof.
  intros e user rows; induction rows as [|row rest IH]; intros k inserted d Hd;
    cbn [import_rows]; [exact Hd|].
  destruct (negb (JS.str_truthy (g row _))); [apply IH; exact Hd|].
  unfold csv_tenant.
  destruct (csv_number (g row ["rentperannum"; "rent"])) as [rent|]; [|exact Hd].
  destruct (csv_number (g row ["amountpaid"; "paid"])) as [paid|] eqn:Hp; [|exact Hd].
  destruct (insert_tenant _ d) as [err|d'] eqn:Hins; [exact Hd|].
  apply IH. eapply insert_keeps_nonneg; [exact Hd | | exact Hins].
  cbn [csv_row_of Tenant.amount_paid]. eapply csv_number_nonneg; exact Hp.
Qed.

Lemma app_keeps_nonneg :
  forall e r d,
    balances_nonneg d -> request_nonneg e r -> balances_nonneg (fst (app e r d)).
Proof.
  intros e r d Hd Hr.
  destruct r; cbn [app]; try (apply auth_keeps; [exact Hd|]; intros user).
  - (* login *)
    unfold login. destruct email as [em|]; [|exact Hd]. destruct password as [pw|]; [|exact Hd].
    destruct (_ || _); [exact Hd|].
    destruct (find _ (users d)) as [u|]; [|exact Hd].
    destruct (negb _); exact Hd.
  - exact Hd.
  - (* create *)
    unfold post_tenant. destruct (negb _); [exact Hd|].
    destruct (sql_decimal e (JS.or (b_rent_per_annum b) _)) as [rent|]; [|exact Hd].
    destruct (sql_decimal e (JS.or (b_amount_paid b) _)) as [paid|] eqn:Hp; [|exact Hd].
    destruct (insert_tenant _ d) as [err|d'] eqn:Hins; [exact Hd|].
    eapply insert_keeps_nonneg; [exact Hd | | exact Hins].
    cbn [Tenant.amount_paid]. exact (Hr paid Hp).
  - (* full update *)
    unfold put_tenant.
    destruct (sql_decimal e (JS.or (b_rent_per_annum b) (JS.JNum 0))) as [rent|];
      destruct (sql_decimal e (JS.or (b_amount_paid b) (JS.JNum 0))) as [paid|] eqn:Hp;
      [destruct (b_tenant_name b) as [name|] | | |].
    + apply update_keeps_nonneg; [exact Hd|].
      intros t _. cbn [Tenant.amount_paid replace_columns]. exact (Hr paid Hp).
    + destruct (select_tenant d id); exact Hd.
    + destruct (select_tenant d id); exact Hd.
    + destruct (select_tenant d id); exact Hd.
    + destruct (select_tenant d id); exact Hd.
  - (* payment-only patch *)
    unfold patch_tenant_payment.
    destruct (sql_decimal e (JS.or amount_paid _)) as [v|] eqn:Hv;
      [|destruct (select_tenant d id); exact Hd].
    apply update_keeps_nonneg; [exact Hd|]. intros t _. exact (Hr v Hv).
  - (* quit toggle *)
    unfold patch_tenant_quit. apply update_keeps_nonneg; [exact Hd|]. intros t Ht; exact Ht.
  - (* delete tenant *)
    unfold delete_tenant, balances_nonneg in *. cbn [fst tenants].
    apply Forall_forall. intros t Ht. apply filter_In in Ht.
    rewrite Forall_forall in Hd. apply Hd. tauto.
  - (* import *)
    unfold import_tenants. destruct file; [exact Hd | exact Hd |].
    apply import_rows_keeps_nonneg; exact Hd.
  - (* record payment *)
    unfold post_payment. destruct (b_tenant_id b) as [tid|]; [|exact Hd].
    destruct (_ || _); [exact Hd|].
    destruct (sql_decimal e (b_amount b)) as [amount|] eqn:Ha; [|exact Hd].
    destruct (insert_payment _ d) as [err|d1] eqn:Hins; [exact Hd|].
    cbn [fst]. apply update_keeps_nonneg.
    + unfold insert_payment in Hins.
      destruct (negb (enum_member payment_methods _)) in Hins; [discriminate|].
      destruct (select_payment d _); [discriminate|].
      destruct (select_tenant d _); [|discriminate].
      inversion Hins; subst d1. exact Hd.
    + intros t Ht. cbn [Tenant.amount_paid Tenant.set_amount_paid].
      pose proof (Hr amount Ha).
      rewrite (sql_plus_nonneg e _ amount _ Ha) by assumption. lia.
  - (* delete payment *)
    unfold delete_payment. destruct (select_payment d id) as [p|]; [|exact Hd].
    cbn [fst]. unfold balances_nonneg. cbn [tenants with_payments].
    apply (update_keeps_nonneg (Payment.tenant_id p)
             (fun t => Tenant.set_amount_paid
                         (Z.max 0 (Tenant.amount_paid t - Payment.amount p)) t) d Hd).
    intros t _. cbn [Tenant.amount_paid Tenant.set_amount_paid]. lia.
  - exact Hd.
Qed.

(** C5 as amended.  Over every sequence of requests to the modelled routes
    (login, list, create, full update, payment-only patch, quit toggle,
    delete tenant, CSV import, record payment, delete payment, statistics),
    no stored amount_paid becomes negative provided the amounts the callers
    supply are not negative: deleting a payment floors the balance at zero,
    the import stores no negative number, and create, full update,
    payment-only patch and record payment store or add what they are
    given. *)
Theorem balance_stays_nonnegative :
  forall (reqs : list (env * request)) (d : db),
    balances_nonneg d ->
    Forall (fun er => request_nonneg (fst er) (snd er)) reqs ->
    balances_nonneg (run reqs d).
Proof.
  induction reqs as [|[e r] rest IH]; intros d Hd Hreqs; cbn [run]; [exact Hd|].
  inversion Hreqs as [|? ? Hr Hrest]; subst.
  apply IH; [|exact Hrest]. apply app_keeps_nonneg; [exact Hd | exact Hr].
Qed.

Lemma seed_balances_nonneg : balances_nonneg seed_db.
Proof.
  unfold balances_nonneg. cbn. repeat constructor; cbn; lia.
Defined.

Lemma balance_stays_nonnegative_witness : balances_nonneg (run demo_day seed_db).
Proof.
  apply (balance_stays_nonnegative demo_day seed_db seed_balances_nonneg).
  unfold demo_day. repeat constructor; cbn [fst snd request_nonneg]; try exact I;
    intros z H; vm_compute in H; inversion H; subst z; lia.
Defined.

(** C5 as stated fails: a payment-only patch that supplies -100.00 is stored
    as it is, so from the seed rows, whose balances are all non-negative,
    one request leads to a negative stored amount_paid. *)
Lemma negative_balance_counterexample :
  balances_nonneg seed_db
  /\ option_map Tenant.amount_paid
       (select_tenant (run [(demo_env, negative_patch)] seed_db) "t-002")
     = Some (-10000)
  /\ ~ balances_nonneg (run [(demo_env, negative_patch)] seed_db).
Proof.
  split; [exact seed_balances_nonneg|]. split; [vm_compute; reflexivity|].
  intros H. unfold balances_nonneg in H. rewrite Forall_forall in H.
  assert (Hin : In (Tenant.set_amount_paid (-10000) seed_t002)
                   (tenants (run [(demo_env, negative_patch)] seed_db))).
  { vm_compute. right. left. reflexivity. }
  specialize (H _ Hin). cbn in H. lia.
Qed.

(** ** Decimal strings *)


Lemma append_assoc : forall a b c : string, (a ++ b) ++ c = a ++ (b ++ c).
Proof. induction a as [|x r IH]; intros b c; cbn; [reflexivity | rewrite IH; reflexivity]. Qed.












(** ** Reading a receipt number back *)

















Lemma receipt_form_truthy : forall y n, JS.str_truthy (receipt_form y n) = true.
Proof. reflexivity. Qed.

(** ** C3: the receipt number *)














(** In the environment of the examples, where of several payments created
    in one second the first in table order is returned, the receipt after
    the seed rows, in 2025, is RCP-2025-0005; where the third is returned it
    is RCP-2025-0003.  In an empty table the receipt is RCP-2025-0001; after
    RCP-2024-9999 it is RCP-2025-10000. *)
Example next_receipt_examples :
  next_receipt_number demo_env seed_db = "RCP-2025-0005"
  /\ next_receipt_number
       (mkenv (jwt_verify demo_env) (jwt_sign demo_env) (bcrypt_compare demo_env)
              (uuid demo_env) (utc_today demo_env) (full_year demo_env) (curdate demo_env)
              (now demo_env) (sql_like demo_env) (sql_number_of_string demo_env)
              (fun _ => 2%nat) (sql_same demo_env) (sql_text_of_number demo_env))
       seed_db
     = "RCP-2025-0003"
  /\ next_receipt_number demo_env empty_db = "RCP-2025-0001"
  /\ next_receipt_number demo_env
       (mkdb [] seed_tenants
             [seed_payment "p" "t-001" 1 (ymd 2024 12 31) "cash" (receipt_form 2024 9999)] 6)
     = "RCP-2025-10000".
Proof. repeat split; vm_compute; reflexivity. Qed.

(** ** C9: login with a disabled account *)

Lemma find_no_email :
  forall (us : list User.t) em,
    ~ In em (map User.email us) ->
    find (fun u => String.eqb (User.email u) em && User.is_active u) us = None.
Proof.
  induction us as [|x r IH]; intros em Hnot; [reflexivity|].
  cbn [find]. cbn [map] in Hnot.
  destruct (String.eqb (User.email x) em) eqn:E.
  - apply String.eqb_eq in E. exfalso. apply Hnot. left. exact E.
  - cbn [andb]. apply IH. intros H. apply Hnot. right. exact H.
Qed.

Lemma find_active_account :
  forall (us : list User.t) u,
    NoDup (map User.email us) -> In u us ->
    find (fun x => String.eqb (User.email x) (User.email u) && User.is_active x) us
    = if User.is_active u then Some u else None.
Proof.
  induction us as [|x r IH]; intros u Hnd Hin; [destruct Hin|].
  cbn [map] in Hnd. inversion Hnd as [|? ? Hnot Hnd']; subst.
  cbn [find]. destruct Hin as [-> | Hin].
  - rewrite String.eqb_refl. cbn [andb].
    destruct (User.is_active u); [reflexivity | apply find_no_email; exact Hnot].
  - destruct (String.eqb (User.email x) (User.email u)) eqn:E.
    + apply String.eqb_eq in E. exfalso. apply Hnot. rewrite E. apply in_map; exact Hin.
    + cbn [andb]. apply IH; assumption.
Qed.

(** C9.  Against one database (e-mail addresses unique, as the schema
    requires), a login with the address of a disabled account and a login
    with the address of an active account and a password that does not match
    are answered alike: status 401 with the error "Invalid credentials",
    and the database is left as it was in both cases. *)
Theorem disabled_login_indistinguishable :
  forall (e : env) (d : db) (pw1 pw2 : string) (u1 u2 : User.t),
    NoDup (map User.email (users d)) ->
    In u1 (users d) -> User.is_active u1 = false ->
    In u2 (users d) -> User.is_active u2 = true ->
    JS.str_truthy (User.email u1) = true -> JS.str_truthy pw1 = true ->
    JS.str_truthy (User.email u2) = true -> JS.str_truthy pw2 = true ->
    bcrypt_compare e pw2 (User.password_hash u2) = false ->
    app e (PostLogin (Some (User.email u1)) (Some pw1)) d
    = (d, reply 401 (Error "Invalid credentials"))
    /\ app e (PostLogin (Some (User.email u2)) (Some pw2)) d
       = (d, reply 401 (Error "Invalid credentials"))
    /\ snd (app e (PostLogin (Some (User.email u1)) (Some pw1)) d)
       = snd (app e (PostLogin (Some (User.email u2)) (Some pw2)) d).
Proof.
  intros e d pw1 pw2 u1 u2 Hnd Hin1 Hoff Hin2 Hon He1 Hp1 He2 Hp2 Hbad.
  assert (H1 : app e (PostLogin (Some (User.email u1)) (Some pw1)) d
               = (d, reply 401 (Error "Invalid credentials"))).
  { cbn [app]. unfold login. rewrite He1, Hp1. cbn [negb orb].
    rewrite (find_active_account (users d) u1 Hnd Hin1), Hoff. reflexivity. }
  assert (H2 : app e (PostLogin (Some (User.email u2)) (Some pw2)) d
               = (d, reply 401 (Error "Invalid credentials"))).
  { cbn [app]. unfold login. rewrite He2, Hp2. cbn [negb orb].
    rewrite (find_active_account (users d) u2 Hnd Hin2), Hon, Hbad. reflexivity. }
  split; [exact H1|]. split; [exact H2|]. rewrite H1, H2. reflexivity.
Qed.

Lemma staffed_emails_distinct : NoDup (map User.email (users staffed_db)).
Proof.
  cbn. repeat constructor; cbn; intuition discriminate.
Defined.

Lemma disabled_login_indistinguishable_witness :
  app demo_env (PostLogin (Some (User.email former_manager)) (Some "Admin@1234")) staffed_db
  = (staffed_db, reply 401 (Error "Invalid credentials"))
  /\ app demo_env (PostLogin (Some (User.email seed_admin)) (Some "letmein")) staffed_db
     = (staffed_db, reply 401 (Error "Invalid credentials"))
  /\ snd (app demo_env (PostLogin (Some (User.email former_manager)) (Some "Admin@1234"))
              staffed_db)
     = snd (app demo_env (PostLogin (Some (User.email seed_admin)) (Some "letmein"))
                staffed_db).
Proof.
  apply (disabled_login_indistinguishable demo_env staffed_db "Admin@1234" "letmein"
           former_manager seed_admin staffed_emails_distinct).
  - cbn. tauto.
  - reflexivity.
  - cbn. tauto.
  - reflexivity.
  - reflexivity.
  - reflexivity.
  - reflexivity.
  - reflexivity.
  - reflexivity.
Defined.

(** ** C8: the CSV import *)









Lemma import_rows_payments :
  forall e user rows k inserted d,
    payments (fst (import_rows e user rows k inserted d)) = payments d.
Proof.
  intros e user rows; induction rows as [|row rest IH]; intros k inserted d;
    cbn [import_rows]; [reflexivity|].
  destruct (negb (JS.str_truthy (g row _))); [apply IH|].
  destruct (csv_tenant _ user row) as [t|]; [|reflexivity].
  unfold insert_tenant. destruct (select_tenant d _); [reflexivity|].
  rewrite IH. reflexivity.
Qed.


















(* ------------------------------------------------------------------ *)
(** * Further properties *)

(** ** The middleware on every route *)

Lemma auth_by_gate :
  forall e roles a next d,
    auth e roles a next d
    = match auth_gate e roles a with
      | inl refusal => (d, refusal)
      | inr decoded => next decoded d
      end.
Proof.
  intros e roles a next d. unfold auth, auth_gate.
  destruct a as [h|]; [|reflexivity].
  destruct (nth_error (JS.split " " h) 1) as [token|]; [|reflexivity].
  destruct (negb (JS.str_truthy token)); [reflexivity|].
  destruct (jwt_verify e token) as [decoded|]; [|reflexivity].
  destruct (_ && _); reflexivity.
Qed.

Lemma with_base_same : forall s, with_base (base s) s = s.
Proof. intros [d ms ns ls]. reflexivity. Qed.

Lemma gate_refusals :
  forall e roles a refusal,
    auth_gate e roles a = inl refusal ->
    refusal = reply 401 (Error "No token")
    \/ refusal = reply 401 (Error "Invalid token")
    \/ refusal = reply 403 (Error "Forbidden").
Proof.
  intros e roles a refusal. unfold auth_gate.
  destruct a as [h|]; [|intros H; inversion H; auto].
  destruct (nth_error (JS.split " " h) 1) as [token|]; [|intros H; inversion H; auto].
  destruct (negb (JS.str_truthy token)); [intros H; inversion H; auto|].
  destruct (jwt_verify e token) as [decoded|]; [|intros H; inversion H; auto].
  destruct (_ && _); intros H; inversion H; auto.
Qed.

(** X1.  On every route that stands behind the middleware (all but the
    login and the tenant portal), a request the middleware refuses, for a
    missing token, a token that does not verify or a role the route does
    not admit, is answered with that refusal (401 or 403) and leaves every
    table as it was. *)
Theorem refused_requests_change_nothing :
  forall (e : env) (sv : services) (r : request_ext) (s : store)
         (a : option string) (refusal : response),
    authorization_of r = Some a ->
    auth_gate e (required_roles r) a = inl refusal ->
    api e sv r s = (s, lift refusal)
    /\ (refusal = reply 401 (Error "No token")
        \/ refusal = reply 401 (Error "Invalid token")
        \/ refusal = reply 403 (Error "Forbidden")).
Proof.
  intros e sv r s a refusal Ha Hgate.
  split; [|eapply gate_refusals; exact Hgate].
  destruct r as [r0| | | | | | | | | | | | | | | | | | | | |];
    try (cbn in Ha; inversion Ha; subst; cbn [api required_roles] in *;
         unfold guarded; rewrite Hgate; reflexivity).
  destruct r0; cbn in Ha; inversion Ha; subst; cbn [api required_roles app] in *;
    try (unfold guarded; rewrite Hgate; reflexivity);
    rewrite auth_by_gate, Hgate; cbn [fst snd]; rewrite with_base_same; reflexivity.
Qed.

Lemma refused_requests_change_nothing_witness :
  api demo_env demo_services (DeleteUser (Some "Bearer staff-token") "user-002") seed_store
  = (seed_store, lift (reply 403 (Error "Forbidden")))
  /\ (reply 403 (Error "Forbidden") = reply 401 (Error "No token")
      \/ reply 403 (Error "Forbidden") = reply 401 (Error "Invalid token")
      \/ reply 403 (Error "Forbidden") = reply 403 (Error "Forbidden")).
Proof.
  apply (refused_requests_change_nothing demo_env demo_services
           (DeleteUser (Some "Bearer staff-token") "user-002") seed_store
           (Some "Bearer staff-token") (reply 403 (Error "Forbidden"))).
  - reflexivity.
  - reflexivity.
Defined.

Lemma existsb_role :
  forall role roles, existsb (String.eqb role) roles = true <-> In role roles.
Proof.
  intros role roles. rewrite existsb_exists. split.
  - intros (x & Hin & Heq). apply String.eqb_eq in Heq. subst x. exact Hin.
  - intros Hin. exists role. split; [exact Hin | apply String.eqb_refl].
Qed.

Lemma roles_check :
  forall roles user,
    negb (Nat.eqb (List.length roles) 0) && negb (existsb (String.eqb (c_role user)) roles)
    = false
    <-> permitted roles user.
Proof.
  intros roles user. unfold permitted. rewrite andb_false_iff, !negb_false_iff.
  rewrite Nat.eqb_eq, existsb_role. split; (intros [H | H]; [left | right; exact H]).
  - destruct roles; [reflexivity | discriminate H].
  - subst roles. reflexivity.
Qed.

(** X2.  The middleware hands a request on to the handler exactly when its
    header carries a token that verifies and the role in the token is one
    the route admits (or the route admits any); it answers 403 exactly when
    the token verifies and the role is not admitted.  The database plays no
    part in the decision: only the token is consulted. *)
Theorem gate_decision :
  forall (e : env) (roles : list string) (a : option string),
    (forall user,
        auth_gate e roles a = inr user
        <-> exists h, a = Some h /\ authenticates e h user /\ permitted roles user)
    /\ (auth_gate e roles a = inl (reply 403 (Error "Forbidden"))
        <-> exists h user,
              a = Some h /\ authenticates e h user /\ ~ permitted roles user).
Proof.
  intros e roles a. unfold auth_gate, authenticates.
  destruct a as [h|].
  2:{ split; [intros user|]; (split; [discriminate|]).
      - intros (h' & Heq & _). discriminate Heq.
      - intros (h' & user & Heq & _). discriminate Heq. }
  destruct (nth_error (JS.split " " h) 1) as [token|] eqn:Hnth.
  2:{ split; [intros user|]; (split; [discriminate|]).
      - intros (h' & Heq & (tok & Hn & _) & _). inversion Heq; subst. congruence.
      - intros (h' & user & Heq & (tok & Hn & _) & _). inversion Heq; subst. congruence. }
  destruct (JS.str_truthy token) eqn:Htr; cbn [negb].
  2:{ split; [intros user|]; (split; [discriminate|]).
      - intros (h' & Heq & (tok & Hn & Ht & _) & _). inversion Heq; subst. congruence.
      - intros (h' & user & Heq & (tok & Hn & Ht & _) & _). inversion Heq; subst. congruence. }
  destruct (jwt_verify e token) as [decoded|] eqn:Hver.
  2:{ split; [intros user|]; (split; [discriminate|]).
      - intros (h' & Heq & (tok & Hn & Ht & Hv) & _). inversion Heq; subst. congruence.
      - intros (h' & user & Heq & (tok & Hn & Ht & Hv) & _). inversion Heq; subst. congruence. }
  destruct (negb (Nat.eqb (List.length roles) 0)
            && negb (existsb (String.eqb (c_role decoded)) roles)) eqn:Hroles.
  - assert (Hnot : ~ permitted roles decoded)
      by (intros Hp; apply roles_check in Hp; congruence).
    split; [intros user|]; split.
    + discriminate.
    + intros (h' & Heq & (tok & Hn & Ht & Hv) & Hp). inversion Heq; subst.
      assert (tok = token) by congruence. subst tok.
      assert (user = decoded) by congruence. subst user. contradiction.
    + intros _. exists h, decoded. split; [reflexivity|]. split; [|exact Hnot].
      exists token. auto.
    + reflexivity.
  - apply roles_check in Hroles.
    split; [intros user|]; split.
    + intros H. inversion H; subst. exists h. split; [reflexivity|]. split; [|exact Hroles].
      exists token. auto.
    + intros (h' & Heq & (tok & Hn & Ht & Hv) & Hp). inversion Heq; subst.
      assert (tok = token) by congruence. subst tok.
      assert (user = decoded) by congruence. subst user. reflexivity.
    + discriminate.
    + intros (h' & user & Heq & (tok & Hn & Ht & Hv) & Hp). inversion Heq; subst.
      assert (tok = token) by congruence. subst tok.
      assert (user = decoded) by congruence. subst user. contradiction.
Qed.

(** ** Referential integrity *)

Lemma select_tenant_exists :
  forall d id, select_tenant d id <> None <-> tenant_exists d id.
Proof.
  intros d id. unfold select_tenant, tenant_exists.
  induction (tenants d) as [|t r IH]; cbn [find map In].
  - split; [congruence | tauto].
  - destruct (String.eqb (Tenant.id t) id) eqn:E.
    + apply String.eqb_eq in E. split; [auto | discriminate].
    + apply String.eqb_neq in E. rewrite IH. tauto.
Qed.

Lemma update_tenants_ids :
  forall id f d,
    (forall t, Tenant.id (f t) = Tenant.id t) ->
    map Tenant.id (tenants (update_tenants id f d)) = map Tenant.id (tenants d).
Proof.
  intros id f d Hf. unfold update_tenants. cbn [tenants with_tenants].
  rewrite map_map. apply map_ext. intros t.
  destruct (String.eqb (Tenant.id t) id); [apply Hf | reflexivity].
Qed.

Lemma insert_tenant_rows :
  forall row d d',
    insert_tenant row d = inr d' ->
    tenants d' = (tenants d ++ [Tenant.set_sn (next_sn d) row])%list
    /\ payments d' = payments d /\ users d' = users d /\ next_sn d' = next_sn d + 1
    /\ ~ tenant_exists d (Tenant.id row).
Proof.
  intros row d d'. unfold insert_tenant.
  destruct (select_tenant d (Tenant.id row)) eqn:E; [discriminate|].
  intros H. inversion H; subst d'. cbn. repeat split.
  rewrite <- select_tenant_exists. congruence.
Qed.

Lemma import_rows_tenant_ids :
  forall e user rows k inserted d id,
    tenant_exists d id -> tenant_exists (fst (import_rows e user rows k inserted d)) id.
Proof.
  intros e user rows; induction rows as [|row rest IH]; intros k inserted d id Hid;
    cbn [import_rows]; [exact Hid|].
  destruct (negb (JS.str_truthy (g row _))); [apply IH; exact Hid|].
  destruct (csv_tenant _ user row) as [t|]; [|exact Hid].
  destruct (insert_tenant _ d) as [err|d'] eqn:Hins; [exact Hid|].
  apply IH. destruct (insert_tenant_rows _ _ _ Hins) as (Ht & _).
  unfold tenant_exists in *. rewrite Ht, map_app. apply in_or_app. left. exact Hid.
Qed.

Lemma app_tenant_ids :
  forall e r d id,
    match r with
    | DeleteTenant _ _ => True
    | _ => tenant_exists d id -> tenant_exists (fst (app e r d)) id
    end.
Proof.
  intros e r d id.
  destruct r; cbn [app]; try exact I; intros Hid;
    try (apply (auth_keeps (fun d' => tenant_exists d' id)); [exact Hid|]; intros user).
  - unfold login. destruct email as [em|]; [|exact Hid]. destruct password as [pw|]; [|exact Hid].
    destruct (_ || _); [exact Hid|].
    destruct (find _ (users d)) as [u|]; [|exact Hid].
    destruct (negb _); exact Hid.
  - exact Hid.
  - unfold post_tenant. destruct (negb _); [exact Hid|].
    destruct (sql_decimal e _) as [rent|]; [|exact Hid].
    destruct (sql_decimal e _) as [paid|]; [|exact Hid].
    destruct (insert_tenant _ d) as [err|d'] eqn:Hins; [exact Hid|].
    destruct (insert_tenant_rows _ _ _ Hins) as (Ht & _). cbn [fst].
    unfold tenant_exists in *. rewrite Ht, map_app. apply in_or_app. left. exact Hid.
  - unfold put_tenant.
    destruct (sql_decimal e _) as [rent|]; [|destruct (select_tenant d _); exact Hid].
    destruct (sql_decimal e _) as [paid|]; [|destruct (select_tenant d _); exact Hid].
    destruct (b_tenant_name b) as [name|].
    + cbn [fst]. unfold tenant_exists. rewrite update_tenants_ids by reflexivity. exact Hid.
    + destruct (select_tenant d id0); exact Hid.
  - unfold patch_tenant_payment. destruct (sql_decimal e _); [|destruct (select_tenant d _); exact Hid].
    cbn [fst]. unfold tenant_exists. rewrite update_tenants_ids by reflexivity. exact Hid.
  - unfold patch_tenant_quit. cbn [fst]. unfold tenant_exists.
    rewrite update_tenants_ids by reflexivity. exact Hid.
  - unfold import_tenants. destruct file; [exact Hid | exact Hid |].
    apply import_rows_tenant_ids; exact Hid.
  - unfold post_payment. destruct (b_tenant_id b) as [tid|]; [|exact Hid].
    destruct (_ || _); [exact Hid|].
    destruct (sql_decimal e (b_amount b)) as [amount|]; [|exact Hid].
    unfold insert_payment. cbn [Payment.id Payment.tenant_id].
    destruct (negb (enum_member payment_methods _)); [exact Hid|].
    destruct (select_payment d _); [exact Hid|].
    destruct (select_tenant d tid); [|exact Hid].
    cbn [fst]. unfold tenant_exists. rewrite update_tenants_ids by reflexivity. exact Hid.
  - unfold delete_payment. destruct (select_payment d id0) as [p|]; [|exact Hid].
    cbn [fst]. unfold tenant_exists. cbn [tenants with_payments].
    rewrite update_tenants_ids by reflexivity. exact Hid.
  - exact Hid.
Qed.

Lemma refs_carried :
  forall d d',
    (forall id, tenant_exists d id -> tenant_exists d' id) ->
    incl (payments d') (payments d) ->
    Forall (fun p => tenant_exists d (Payment.tenant_id p)) (payments d) ->
    Forall (fun p => tenant_exists d' (Payment.tenant_id p)) (payments d').
Proof.
  intros d d' Hmono Hincl Hd. rewrite Forall_forall in *.
  intros p Hp. apply Hmono, Hd, Hincl, Hp.
Qed.

Lemma app_payments_incl :
  forall e r d,
    match r with
    | PostPayment _ _ => True
    | _ => incl (payments (fst (app e r d))) (payments d)
    end.
Proof.
  intros e r d.
  destruct r; cbn [app]; try exact I;
    try (apply (auth_keeps (fun d' => incl (payments d') (payments d)));
         [apply incl_refl|]; intros user).
  - unfold login. destruct email as [em|]; [|apply incl_refl].
    destruct password as [pw|]; [|apply incl_refl].
    destruct (_ || _); [apply incl_refl|].
    destruct (find _ (users d)) as [u|]; [|apply incl_refl].
    destruct (negb _); apply incl_refl.
  - apply incl_refl.
  - unfold post_tenant. destruct (negb _); [apply incl_refl|].
    destruct (sql_decimal e _) as [rent|]; [|apply incl_refl].
    destruct (sql_decimal e _) as [paid|]; [|apply incl_refl].
    destruct (insert_tenant _ d) as [err|d'] eqn:Hins; [apply incl_refl|].
    destruct (insert_tenant_rows _ _ _ Hins) as (_ & Hp & _). cbn [fst]. rewrite Hp.
    apply incl_refl.
  - unfold put_tenant.
    destruct (sql_decimal e _) as [rent|]; [|destruct (select_tenant d _); apply incl_refl].
    destruct (sql_decimal e _) as [paid|]; [|destruct (select_tenant d _); apply incl_refl].
    destruct (b_tenant_name b) as [name|]; [apply incl_refl|].
    destruct (select_tenant d id); apply incl_refl.
  - unfold patch_tenant_payment. destruct (sql_decimal e _); [|destruct (select_tenant d _)]; apply incl_refl.
  - apply incl_refl.
  - unfold delete_tenant. cbn [fst payments]. apply incl_filter.
  - unfold import_tenants. destruct file; [apply incl_refl | apply incl_refl |].
    rewrite import_rows_payments. apply incl_refl.
  - unfold delete_payment. destruct (select_payment d id) as [p|]; [|apply incl_refl].
    cbn [fst payments with_payments update_tenants with_tenants]. apply incl_filter.
  - apply incl_refl.
Qed.

Lemma app_tenant_ids_kept :
  forall e r d id,
    (forall a i, r <> DeleteTenant a i) ->
    tenant_exists d id -> tenant_exists (fst (app e r d)) id.
Proof.
  intros e r d id Hr. pose proof (app_tenant_ids e r d id) as H.
  destruct r; try exact H. destruct (Hr authorization id0 eq_refl).
Qed.

Lemma app_payments_kept :
  forall e r d,
    (forall a b, r <> PostPayment a b) ->
    incl (payments (fst (app e r d))) (payments d).
Proof.
  intros e r d Hr. pose proof (app_payments_incl e r d) as H.
  destruct r; try exact H. destruct (Hr authorization b eq_refl).
Qed.

Lemma app_payment_refs :
  forall e r d,
    Forall (fun p => tenant_exists d (Payment.tenant_id p)) (payments d) ->
    Forall (fun p => tenant_exists (fst (app e r d)) (Payment.tenant_id p))
           (payments (fst (app e r d))).
Proof.
  intros e r d Hd.
  destruct r;
    try (apply (refs_carried d);
         [intros id0; apply app_tenant_ids_kept; intros; discriminate
         | apply app_payments_kept; intros; discriminate
         | exact Hd]).
  - (* delete tenant *)
    cbn [app].
    apply (auth_keeps (fun d' => Forall (fun p => tenant_exists d' (Payment.tenant_id p))
                                        (payments d'))); [exact Hd|].
    intros user. unfold delete_tenant. cbn [fst payments]. unfold tenant_exists. cbn [tenants].
    rewrite Forall_forall in *. intros p Hp. apply filter_In in Hp. destruct Hp as [Hin Hne].
    apply negb_true_iff, String.eqb_neq in Hne.
    specialize (Hd p Hin). unfold tenant_exists in Hd.
    apply in_map_iff in Hd. destruct Hd as (t & Hid & Ht).
    apply in_map_iff. exists t. split; [exact Hid|].
    apply filter_In. split; [exact Ht|].
    apply negb_true_iff, String.eqb_neq. congruence.
  - (* record payment *)
    cbn [app].
    apply (auth_keeps (fun d' => Forall (fun p => tenant_exists d' (Payment.tenant_id p))
                                        (payments d'))); [exact Hd|].
    intros user. unfold post_payment. destruct (b_tenant_id b) as [tid|]; [|exact Hd].
    destruct (_ || _); [exact Hd|].
    destruct (sql_decimal e (b_amount b)) as [amount|]; [|exact Hd].
    unfold insert_payment. cbn [Payment.id Payment.tenant_id].
    destruct (negb (enum_member payment_methods _)); [exact Hd|].
    destruct (select_payment d _); [exact Hd|].
    destruct (select_tenant d tid) eqn:Hsel; [|exact Hd].
    cbn [fst]. unfold tenant_exists.
    rewrite update_tenants_ids by reflexivity.
    cbn [payments update_tenants with_tenants with_payments tenants].
    constructor; [|exact Hd].
    cbn [Payment.tenant_id]. apply select_tenant_exists. congruence.
Qed.

Lemma guarded_keeps :
  forall (P : store -> Prop) e roles a next s,
    P s -> (forall user, P (fst (next user s))) -> P (fst (guarded e roles a next s)).
Proof.
  intros P e roles a next s Hs Hnext. unfold guarded.
  destruct (auth_gate e roles a); [exact Hs | apply Hnext].
Qed.

Lemma refs_same_ledger :
  forall s s',
    references_kept s ->
    (forall id, tenant_exists (base s) id -> tenant_exists (base s') id) ->
    Forall (fun p => tenant_exists (base s') (Payment.tenant_id p)) (payments (base s')) ->
    (forall m tid,
        In m (maintenance s') -> Maintenance.tenant_id m = Some tid ->
        exists m0, In m0 (maintenance s) /\ Maintenance.tenant_id m0 = Some tid) ->
    (forall n tid,
        In n (notifications s') -> Notification.tenant_id n = Some tid ->
        exists n0, In n0 (notifications s) /\ Notification.tenant_id n0 = Some tid) ->
    references_kept s'.
Proof.
  intros s s' (Hp & Hm & Hn) Hmono Hp' Hm' Hn'.
  rewrite Forall_forall in Hm, Hn.
  split; [exact Hp'|]. split; apply Forall_forall.
  - intros m Hin tid Htid. destruct (Hm' m tid Hin Htid) as (m0 & Hin0 & Htid0).
    apply Hmono. exact (Hm m0 Hin0 tid Htid0).
  - intros n Hin tid Htid. destruct (Hn' n tid Hin Htid) as (n0 & Hin0 & Htid0).
    apply Hmono. exact (Hn n0 Hin0 tid Htid0).
Qed.

Lemma refs_users_changed :
  forall s us,
    references_kept s ->
    references_kept (with_base (with_users us (base s)) s).
Proof.
  intros s us H. apply (refs_same_ledger s); [exact H | auto | exact (proj1 H) | eauto | eauto].
Qed.

Lemma delete_tenant_ext_refs :
  forall id user s,
    references_kept s -> references_kept (fst (delete_tenant_ext id user s)).
Proof.
  intros id user s (Hp & Hm & Hn).
  assert (Hstay : forall tid,
             tid <> id -> tenant_exists (base s) tid ->
             tenant_exists (fst (delete_tenant id user (base s))) tid).
  { intros tid Hne Hex. unfold tenant_exists, delete_tenant in *. cbn [fst tenants].
    apply in_map_iff in Hex. destruct Hex as (t & Hid & Ht).
    apply in_map_iff. exists t. split; [exact Hid|]. apply filter_In. split; [exact Ht|].
    apply negb_true_iff, String.eqb_neq. congruence. }
  unfold delete_tenant_ext, references_kept. cbn [fst base maintenance notifications].
  rewrite Forall_forall in Hp, Hm, Hn.
  split; [|split]; apply Forall_forall.
  - intros p Hin. unfold delete_tenant in Hin. cbn [fst payments] in Hin.
    apply filter_In in Hin. destruct Hin as [Hin Hne].
    apply negb_true_iff, String.eqb_neq in Hne.
    apply Hstay; [exact Hne | apply Hp; exact Hin].
  - intros m Hin tid Htid. apply in_map_iff in Hin. destruct Hin as (m0 & Heq & Hin0).
    destruct (refers_to id (Maintenance.tenant_id m0)) eqn:Href.
    + subst m. discriminate Htid.
    + subst m. apply Hstay; [|exact (Hm m0 Hin0 tid Htid)].
      intros ->. rewrite Htid in Href. cbn in Href. rewrite String.eqb_refl in Href.
      discriminate.
  - intros n Hin tid Htid. apply in_map_iff in Hin. destruct Hin as (n0 & Heq & Hin0).
    destruct (refers_to id (Notification.tenant_id n0)) eqn:Href.
    + subst n. discriminate Htid.
    + subst n. apply Hstay; [|exact (Hn n0 Hin0 tid Htid)].
      intros ->. rewrite Htid in Href. cbn in Href. rewrite String.eqb_refl in Href.
      discriminate.
Qed.

Lemma ledger_route_refs :
  forall e r0 s,
    (forall a i, r0 <> DeleteTenant a i) ->
    references_kept s ->
    references_kept (with_base (fst (app e r0 (base s))) s).
Proof.
  intros e r0 s Hr H. apply (refs_same_ledger s); [exact H | | | eauto | eauto].
  - intros id. destruct s; cbn [base with_base]. apply app_tenant_ids_kept. exact Hr.
  - destruct s; cbn [base with_base]. apply app_payment_refs. exact (proj1 H).
Qed.

Lemma remind_keeps_tables :
  forall e sv template user ts k links s,
    base (fst (remind e sv template user ts k links s)) = base s
    /\ maintenance (fst (remind e sv template user ts k links s)) = maintenance s
    /\ notifications (fst (remind e sv template user ts k links s)) = notifications s.
Proof.
  intros e sv template user ts; induction ts as [|t rest IH]; intros k links s;
    cbn [remind]; [auto|].
  unfold insert_message.
  destruct (negb (enum_or_null channels _ && _)); [auto|].
  destruct (select_message s _); [auto|].
  destruct (Tenant.phone t); [|auto].
  destruct (IH (S k) (links ++ [mkreminder (Tenant.tenant_name t) s0
                                  (wa_link s0 (reminder_text sv template t))
                                  (Tenant.rent_per_annum t - Tenant.amount_paid t)])%list
               (with_message_log
                  (MessageLog.mk (uuid e k) (Some (Tenant.id t)) (Some (Tenant.tenant_name t))
                     (Some s0) (Some "whatsapp") (Some (reminder_text sv template t))
                     (Some "sent") (Some (c_id user)) :: message_log s) s))
    as (Hb & Hm & Hn).
  rewrite Hb, Hm, Hn. auto.
Qed.

Lemma api_keeps_references :
  forall e sv r s, references_kept s -> references_kept (fst (api e sv r s)).
Proof.
  intros e sv r s H.
  destruct r as [r0| | | | | | | | | | | | | | | | | | | | |]; cbn [api];
    try (apply guarded_keeps; [exact H|]; intros user).
  - destruct r0; cbn [fst];
      try (apply ledger_route_refs; [intros; discriminate | exact H]).
    apply guarded_keeps; [exact H|]. intros user. apply delete_tenant_ext_refs; exact H.
  - (* register *)
    unfold register.
    destruct (r_name b) as [name|]; [|exact H].
    destruct (r_email b) as [email|]; [|exact H].
    destruct (r_password b) as [password|]; [|exact H].
    destruct (_ || _); [exact H|].
    unfold insert_user.
    destruct (negb (enum_member roles _)); [exact H|].
    destruct (existsb _ _); [exact H|].
    cbn [fst]. apply refs_users_changed; exact H.
  - exact H.
  - unfold put_me. destruct name as [n|].
    + cbn [fst]. apply refs_users_changed; exact H.
    + destruct (select_user (base s) (c_id user)); exact H.
  - unfold change_password.
    destruct (select_user (base s) (c_id user)) as [u|]; [|exact H].
    destruct currentPassword as [cur|]; [|exact H].
    destruct (negb _); [exact H|].
    destruct newPassword as [np|]; [|exact H].
    cbn [fst]. apply refs_users_changed; exact H.
  - exact H.
  - unfold put_user. destruct (select_user (base s) id); [|exact H].
    destruct (u_name b); [|exact H]. destruct (u_email b); [|exact H].
    destruct (negb (enum_or_null roles _)); [exact H|].
    destruct (existsb _ _); [exact H|].
    cbn [fst]. apply refs_users_changed; exact H.
  - unfold delete_user. destruct (String.eqb id "admin-001"); [exact H|].
    cbn [fst]. apply refs_users_changed; exact H.
  - unfold get_tenant. destruct (select_tenant (base s) id); exact H.
  - exact H.
  - exact H.
  - (* post maintenance *)
    unfold post_maintenance. destruct (negb _); [exact H|].
    unfold insert_ticket. cbn [Maintenance.id Maintenance.tenant_id].
    destruct (negb (enum_or_null categories _ && _ && _)); [exact H|].
    destruct (select_ticket s (uuid e 0)); [exact H|].
    destruct (or_null (k_tenant_id b)) as [tid|] eqn:Htid.
    + destruct (select_tenant (base s) tid) eqn:Hsel; [|exact H].
      cbn [fst]. destruct H as (Hp & Hm & Hn).
      split; [exact Hp|]. split; [|exact Hn].
      cbn [maintenance with_maintenance base]. constructor; [|exact Hm].
      cbn [Maintenance.tenant_id]. intros tid' Heq. inversion Heq; subst.
      apply select_tenant_exists. congruence.
    + cbn [fst]. destruct H as (Hp & Hm & Hn).
      split; [exact Hp|]. split; [|exact Hn].
      cbn [maintenance with_maintenance base]. constructor; [|exact Hm].
      cbn [Maintenance.tenant_id]. discriminate.
  - (* patch maintenance *)
    unfold patch_maintenance. cbv zeta.
    destruct (select_ticket s id); [|exact H].
    destruct (negb _); [exact H|]. cbn [fst].
    apply (refs_same_ledger s); [exact H | auto | exact (proj1 H) | | eauto].
    intros m tid Hin Htid. cbn [maintenance with_maintenance] in Hin.
    apply in_map_iff in Hin. destruct Hin as (m0 & Heq & Hin0).
    exists m0. split; [exact Hin0|].
    destruct (String.eqb (Maintenance.id m0) id); subst m; exact Htid.
  - unfold delete_maintenance. cbn [fst].
    apply (refs_same_ledger s); [exact H | auto | exact (proj1 H) | | eauto].
    intros m tid Hin Htid. cbn [maintenance with_maintenance] in Hin.
    apply filter_In in Hin. exists m. tauto.
  - exact H.
  - unfold read_notification. cbn [fst].
    apply (refs_same_ledger s); [exact H | auto | exact (proj1 H) | eauto |].
    intros n tid Hin Htid. cbn [notifications with_notifications] in Hin.
    apply in_map_iff in Hin. destruct Hin as (n0 & Heq & Hin0).
    exists n0. split; [exact Hin0|].
    destruct (String.eqb (Notification.id n0) id); subst n; exact Htid.
  - unfold read_all_notifications. cbn [fst].
    apply (refs_same_ledger s); [exact H | auto | exact (proj1 H) | eauto |].
    intros n tid Hin Htid. cbn [notifications with_notifications] in Hin.
    apply in_map_iff in Hin. destruct Hin as (n0 & Heq & Hin0).
    exists n0. split; [exact Hin0|].
    destruct (addressed_to user n0); subst n; exact Htid.
  - unfold post_message, insert_message.
    destruct (negb (enum_or_null channels _ && _)); [exact H|].
    destruct (select_message s _); exact H.
  - exact H.
  - unfold bulk_reminder.
    destruct (remind_keeps_tables e sv (JS.str_or message_template default_template) user
                (filter owes_and_reachable (tenants (base s))) 0 [] s) as (Hb & Hm & Hn).
    unfold references_kept. rewrite Hb, Hm, Hn. exact H.
  - exact H.
  - unfold get_portal. destruct (select_tenant (base s) tenantId); exact H.
Qed.

(** X3.  Referential integrity is an invariant of the server: if every
    payment, and every maintenance ticket and notification that names a
    tenant, names an existing tenant, the same holds after any sequence of
    requests to any route.  (Deleting a tenant removes its payments and
    clears the reference of its tickets and notifications; a payment or a
    ticket for a tenant that does not exist is refused.) *)
Theorem references_stay_valid :
  forall (sv : services) (reqs : list (env * request_ext)) (s : store),
    references_kept s -> references_kept (run_api sv reqs s).
Proof.
  intros sv reqs; induction reqs as [|[e r] rest IH]; intros s H; cbn [run_api]; [exact H|].
  apply IH, api_keeps_references, H.
Qed.

Lemma seed_references_kept : references_kept seed_store.
Proof.
  unfold references_kept. split; [|split].
  - repeat (apply Forall_cons; [unfold tenant_exists; cbn; tauto|]). apply Forall_nil.
  - repeat (apply Forall_cons;
            [intros tid Heq; inversion Heq; subst; unfold tenant_exists; cbn; tauto|]).
    apply Forall_nil.
  - apply Forall_nil.
Defined.

Lemma references_stay_valid_witness :
  references_kept (run_api demo_services demo_week seed_store).
Proof.
  apply (references_stay_valid demo_services demo_week seed_store seed_references_kept).
Defined.

(** ** Keys *)

Lemma NoDup_map_filter :
  forall (A B : Type) (f : A -> B) (p : A -> bool) (l : list A),
    NoDup (map f l) -> NoDup (map f (filter p l)).
Proof.
  intros A B f p l; induction l as [|x r IH]; intros H; cbn; [constructor|].
  inversion H as [|? ? Hnot Hnd]; subst.
  destruct (p x); cbn; [constructor|]; auto.
  intros Hin. apply Hnot. apply in_map_iff in Hin. destruct Hin as (y & Hy & Hin).
  apply in_map_iff. exists y. split; [exact Hy|]. apply filter_In in Hin. tauto.
Qed.

Lemma NoDup_map_snoc :
  forall (A B : Type) (f : A -> B) (l : list A) (x : A),
    NoDup (map f l) -> ~ In (f x) (map f l) -> NoDup (map f (l ++ [x])).
Proof.
  intros A B f l x Hnd Hnot. rewrite map_app. cbn [map].
  induction (map f l) as [|y r IH]; cbn.
  - constructor; [tauto | constructor].
  - inversion Hnd as [|? ? Hy Hr]; subst. constructor.
    + intros Hin. apply in_app_or in Hin. destruct Hin as [Hin | [Heq | []]].
      * contradiction.
      * apply Hnot. left. symmetry. exact Heq.
    + apply IH; [exact Hr|]. intros Hin. apply Hnot. right. exact Hin.
Qed.

Lemma map_updated_key :
  forall (A B : Type) (key : A -> B) (sel : A -> bool) (f : A -> A) (l : list A),
    (forall x, key (f x) = key x) ->
    map key (map (fun x => if sel x then f x else x) l) = map key l.
Proof.
  intros A B key sel f l Hf. rewrite map_map. apply map_ext.
  intros x. destruct (sel x); [apply Hf | reflexivity].
Qed.

Lemma keys_tenants_updated :
  forall id f d,
    (forall t, Tenant.id (f t) = Tenant.id t) ->
    (forall t, Tenant.sn (f t) = Tenant.sn t) ->
    keys_unique_db d -> keys_unique_db (update_tenants id f d).
Proof.
  intros id f d Hid Hsn (H1 & H2 & H3 & H4 & H5 & H6).
  unfold keys_unique_db, update_tenants. cbn [tenants with_tenants payments users next_sn].
  rewrite !map_updated_key by assumption.
  repeat split; try assumption.
  rewrite Forall_map. eapply Forall_impl; [|exact H3]. intros t Ht. cbn beta.
  destruct (String.eqb (Tenant.id t) id); [rewrite Hsn|]; exact Ht.
Qed.

Lemma keys_tenant_inserted :
  forall row d d',
    keys_unique_db d -> insert_tenant row d = inr d' -> keys_unique_db d'.
Proof.
  intros row d d' (H1 & H2 & H3 & H4 & H5 & H6) Hins.
  destruct (insert_tenant_rows _ _ _ Hins) as (Ht & Hp & Hu & Hn & Hfresh).
  unfold keys_unique_db. rewrite Ht, Hp, Hu, Hn.
  split; [apply NoDup_map_snoc; [exact H1 | destruct row; exact Hfresh]|].
  split.
  { apply NoDup_map_snoc; [exact H2|]. destruct row; cbn [Tenant.sn Tenant.set_sn].
    intros Hin. apply in_map_iff in Hin. destruct Hin as (t & Hsn & Hin).
    rewrite Forall_forall in H3. specialize (H3 t Hin). lia. }
  split; [|auto].
  apply Forall_app. split.
  - eapply Forall_impl; [|exact H3]. intros t Ht'. cbn beta in *. lia.
  - constructor; [destruct row; cbn; lia | constructor].
Qed.

Lemma import_rows_keys :
  forall e user rows k inserted d,
    keys_unique_db d -> keys_unique_db (fst (import_rows e user rows k inserted d)).
Proof.
  intros e user rows; induction rows as [|row rest IH]; intros k inserted d Hd;
    cbn [import_rows]; [exact Hd|].
  destruct (negb (JS.str_truthy (g row _))); [apply IH; exact Hd|].
  destruct (csv_tenant _ user row) as [t|]; [|exact Hd].
  destruct (insert_tenant _ d) as [err|d'] eqn:Hins; [exact Hd|].
  apply IH. eapply keys_tenant_inserted; [exact Hd | exact Hins].
Qed.

Lemma select_payment_fresh :
  forall d id, select_payment d id = None -> ~ In id (map Payment.id (payments d)).
Proof.
  intros d id Hnone Hin. apply in_map_iff in Hin. destruct Hin as (p & Hid & Hin).
  unfold select_payment in Hnone.
  apply (find_none _ _ Hnone) in Hin. rewrite Hid, String.eqb_refl in Hin. discriminate.
Qed.

Lemma app_keeps_keys :
  forall e r d, keys_unique_db d -> keys_unique_db (fst (app e r d)).
Proof.
  intros e r d Hd.
  destruct r; cbn [app]; try (apply auth_keeps; [exact Hd|]; intros user).
  - unfold login. destruct email as [em|]; [|exact Hd]. destruct password as [pw|]; [|exact Hd].
    destruct (_ || _); [exact Hd|].
    destruct (find _ (users d)) as [u|]; [|exact Hd].
    destruct (negb _); [exact Hd|]. cbn [fst].
    destruct Hd as (H1 & H2 & H3 & H4 & H5 & H6).
    unfold keys_unique_db. cbn [tenants payments users next_sn with_users].
    rewrite !map_updated_key by (intros []; reflexivity). auto 10.
  - exact Hd.
  - unfold post_tenant. destruct (negb _); [exact Hd|].
    destruct (sql_decimal e _) as [rent|]; [|exact Hd].
    destruct (sql_decimal e _) as [paid|]; [|exact Hd].
    destruct (insert_tenant _ d) as [err|d'] eqn:Hins; [exact Hd|].
    eapply keys_tenant_inserted; [exact Hd | exact Hins].
  - unfold put_tenant.
    destruct (sql_decimal e _) as [rent|]; [|destruct (select_tenant d _); exact Hd].
    destruct (sql_decimal e _) as [paid|]; [|destruct (select_tenant d _); exact Hd].
    destruct (b_tenant_name b) as [name|].
    + apply keys_tenants_updated; [reflexivity | reflexivity | exact Hd].
    + destruct (select_tenant d id); exact Hd.
  - unfold patch_tenant_payment. destruct (sql_decimal e _); [|destruct (select_tenant d _); exact Hd].
    apply keys_tenants_updated; [reflexivity | reflexivity | exact Hd].
  - unfold patch_tenant_quit.
    apply keys_tenants_updated; [reflexivity | reflexivity | exact Hd].
  - unfold delete_tenant. cbn [fst]. destruct Hd as (H1 & H2 & H3 & H4 & H5 & H6).
    unfold keys_unique_db. cbn [tenants payments users next_sn].
    repeat split; try assumption; try (apply NoDup_map_filter; assumption).
    apply Forall_forall. intros t Ht. apply filter_In in Ht.
    rewrite Forall_forall in H3. apply H3. tauto.
  - unfold import_tenants. destruct file; [exact Hd | exact Hd |].
    apply import_rows_keys; exact Hd.
  - unfold post_payment. destruct (b_tenant_id b) as [tid|]; [|exact Hd].
    destruct (_ || _); [exact Hd|].
    destruct (sql_decimal e (b_amount b)) as [amount|]; [|exact Hd].
    unfold insert_payment. cbn [Payment.id Payment.tenant_id].
    destruct (negb (enum_member payment_methods _)); [exact Hd|].
    destruct (select_payment d (uuid e 0)) eqn:Hfresh; [exact Hd|].
    destruct (select_tenant d tid); [|exact Hd].
    cbn [fst]. apply keys_tenants_updated; [reflexivity | reflexivity |].
    destruct Hd as (H1 & H2 & H3 & H4 & H5 & H6).
    unfold keys_unique_db. cbn [tenants payments users next_sn with_payments map Payment.id].
    repeat split; try assumption.
    constructor; [apply select_payment_fresh; exact Hfresh | exact H4].
  - unfold delete_payment. destruct (select_payment d id) as [p|]; [|exact Hd].
    cbn [fst].
    pose proof (keys_tenants_updated (Payment.tenant_id p)
                  (fun t => Tenant.set_amount_paid
                              (Z.max 0 (Tenant.amount_paid t - Payment.amount p)) t)
                  d (fun _ => eq_refl) (fun _ => eq_refl) Hd) as (H1 & H2 & H3 & H4 & H5 & H6).
    unfold keys_unique_db. cbn [tenants payments users next_sn with_payments].
    repeat split; try assumption. apply NoDup_map_filter. exact H4.
  - exact Hd.
Qed.

Lemma keys_users_changed :
  forall s us,
    keys_unique s ->
    NoDup (map User.id us) -> NoDup (map User.email us) ->
    keys_unique (with_base (with_users us (base s)) s).
Proof.
  intros s us ((H1 & H2 & H3 & H4 & H5 & H6) & Hm & Hn & Hl) Hid Hem.
  unfold keys_unique, keys_unique_db.
  cbn [base with_base with_users tenants payments users next_sn maintenance
       notifications message_log].
  auto 12.
Qed.

Lemma keys_users_updated :
  forall s id f,
    (forall u, User.id (f u) = User.id u) ->
    (forall u, User.email (f u) = User.email u) ->
    keys_unique s ->
    keys_unique (with_base (update_users id f (base s)) s).
Proof.
  intros s id f Hid Hem H. unfold update_users.
  apply keys_users_changed; [exact H | |]; rewrite map_updated_key by assumption;
    destruct H as ((_ & _ & _ & _ & H5 & H6) & _); assumption.
Qed.

Lemma email_replaced :
  forall (us : list User.t) id email f,
    NoDup (map User.id us) -> NoDup (map User.email us) ->
    existsb (fun u => negb (String.eqb (User.id u) id) && String.eqb (User.email u) email) us
    = false ->
    (forall u, User.email (f u) = email) ->
    NoDup (map User.email (map (fun u => if String.eqb (User.id u) id then f u else u) us)).
Proof.
  intros us id email f Hid Hem Hex Hf.
  assert (Hother : forall u, In u us -> User.id u <> id -> User.email u <> email).
  { intros u Hin Hne Heq.
    assert (Htrue : existsb (fun u0 => negb (String.eqb (User.id u0) id)
                                       && String.eqb (User.email u0) email) us = true).
    { apply existsb_exists. exists u. split; [exact Hin|]. apply andb_true_iff. split.
      - apply negb_true_iff, String.eqb_neq. exact Hne.
      - apply String.eqb_eq. exact Heq. }
    congruence. }
  clear Hex. induction us as [|u r IH]; cbn [map]; [constructor|].
  cbn [map] in Hid, Hem. inversion Hid as [|? ? Hidu Hidr]; subst.
  inversion Hem as [|? ? Hemu Hemr]; subst.
  assert (IHr := IH Hidr Hemr (fun v Hv => Hother v (or_intror Hv))).
  constructor; [|exact IHr].
  intros Hin. apply in_map_iff in Hin. destruct Hin as (v' & Hv' & Hin).
  apply in_map_iff in Hin. destruct Hin as (v & Hv & Hin). subst v'.
  destruct (String.eqb (User.id u) id) eqn:Eu.
  - apply String.eqb_eq in Eu. rewrite Hf in Hv'.
    destruct (String.eqb (User.id v) id) eqn:Ev.
    + apply String.eqb_eq in Ev. apply Hidu. rewrite Eu, <- Ev. apply in_map. exact Hin.
    + apply String.eqb_neq in Ev. apply (Hother v (or_intror Hin) Ev). exact Hv'.
  - apply String.eqb_neq in Eu.
    destruct (String.eqb (User.id v) id) eqn:Ev.
    + rewrite Hf in Hv'. apply (Hother u (or_introl eq_refl) Eu). symmetry. exact Hv'.
    + apply Hemu. rewrite <- Hv'. apply in_map. exact Hin.
Qed.

Lemma remind_keeps_message_keys :
  forall e sv template user ts k links s,
    NoDup (map MessageLog.id (message_log s)) ->
    NoDup (map MessageLog.id (message_log (fst (remind e sv template user ts k links s)))).
Proof.
  intros e sv template user ts; induction ts as [|t rest IH]; intros k links s H;
    cbn [remind]; [exact H|].
  unfold insert_message. cbn [MessageLog.id].
  destruct (negb (enum_or_null channels _ && _)); [exact H|].
  destruct (select_message s (uuid e k)) eqn:Hsel; [exact H|].
  assert (Hnew : NoDup (map MessageLog.id
                          (MessageLog.mk (uuid e k) (Some (Tenant.id t))
                             (Some (Tenant.tenant_name t)) (Tenant.phone t) (Some "whatsapp")
                             (Some (reminder_text sv template t)) (Some "sent")
                             (Some (c_id user)) :: message_log s))).
  { cbn [map MessageLog.id]. constructor; [|exact H].
    intros Hin. apply in_map_iff in Hin. destruct Hin as (m & Hid & Hin).
    unfold select_message in Hsel. apply (find_none _ _ Hsel) in Hin.
    rewrite Hid, String.eqb_refl in Hin. discriminate. }
  destruct (Tenant.phone t) as [phone|]; [|exact Hnew].
  apply IH. exact Hnew.
Qed.

Lemma api_keeps_keys :
  forall e sv r s, keys_unique s -> keys_unique (fst (api e sv r s)).
Proof.
  intros e sv r s H.
  destruct r as [r0| | | | | | | | | | | | | | | | | | | | |]; cbn [api];
    try (apply guarded_keeps; [exact H|]; intros user).
  - assert (Hledger : forall r1, keys_unique (with_base (fst (app e r1 (base s))) s)).
    { intros r1. destruct H as (Hd & Hm & Hn & Hl). destruct s as [d ms ns ls].
      cbn [base with_base] in *. split; [apply app_keeps_keys; exact Hd | auto]. }
    destruct r0; cbn [fst]; try apply Hledger.
    apply guarded_keeps; [exact H|]. intros user.
    destruct H as (Hd & Hm & Hn & Hl).
    unfold delete_tenant_ext, keys_unique.
    cbn [fst base maintenance notifications message_log].
    rewrite !map_updated_key by reflexivity.
    split; [|auto].
    destruct Hd as (H1 & H2 & H3 & H4 & H5 & H6).
    unfold delete_tenant, keys_unique_db. cbn [fst tenants payments users next_sn].
    repeat split; try assumption; try (apply NoDup_map_filter; assumption).
    apply Forall_forall. intros t Ht. apply filter_In in Ht.
    rewrite Forall_forall in H3. apply H3. tauto.
  - (* register *)
    unfold register.
    destruct (r_name b) as [name|]; [|exact H].
    destruct (r_email b) as [email|]; [|exact H].
    destruct (r_password b) as [password|]; [|exact H].
    destruct (_ || _); [exact H|].
    unfold insert_user. cbn [User.id User.email].
    destruct (negb (enum_member roles _)); [exact H|].
    destruct (existsb _ (users (base s))) eqn:Hex; [exact H|].
    cbn [fst].
    assert (Hfresh : forall u, In u (users (base s)) ->
                               User.id u <> uuid e 0 /\ User.email u <> email).
    { intros u Hin.
      destruct (String.eqb (User.id u) (uuid e 0) || String.eqb (User.email u) email) eqn:E.
      - exfalso.
        assert (Htrue : existsb (fun u0 => String.eqb (User.id u0) (uuid e 0)
                                           || String.eqb (User.email u0) email)
                                (users (base s)) = true)
          by (apply existsb_exists; exists u; auto).
        congruence.
      - apply orb_false_iff in E. destruct E as [E1 E2].
        apply String.eqb_neq in E1, E2. auto. }
    pose proof H as ((_ & _ & _ & _ & H5 & H6) & _).
    apply keys_users_changed; [exact H | |]; apply NoDup_map_snoc; try assumption;
      cbn [User.id User.email]; intros Hin; apply in_map_iff in Hin;
      destruct Hin as (u & Hu & Hin); destruct (Hfresh u Hin); congruence.
  - exact H.
  - unfold put_me. destruct name as [n|].
    + cbn [fst]. apply keys_users_updated; [reflexivity | reflexivity | exact H].
    + destruct (select_user (base s) (c_id user)); exact H.
  - unfold change_password.
    destruct (select_user (base s) (c_id user)) as [u|]; [|exact H].
    destruct currentPassword as [cur|]; [|exact H].
    destruct (negb _); [exact H|].
    destruct newPassword as [np|]; [|exact H].
    cbn [fst]. apply keys_users_updated; [reflexivity | reflexivity | exact H].
  - exact H.
  - unfold put_user. destruct (select_user (base s) id); [|exact H].
    destruct (u_name b) as [name|]; [|exact H]. destruct (u_email b) as [email|]; [|exact H].
    destruct (negb (enum_or_null roles _)); [exact H|].
    destruct (existsb _ (users (base s))) eqn:Hex; [exact H|].
    cbn [fst]. pose proof H as ((_ & _ & _ & _ & H5 & H6) & _).
    unfold update_users. apply keys_users_changed; [exact H | |].
    + rewrite map_updated_key by reflexivity. exact H5.
    + apply (email_replaced (users (base s)) id email);
        [exact H5 | exact H6 | exact Hex | reflexivity].
  - unfold delete_user. destruct (String.eqb id "admin-001"); [exact H|].
    cbn [fst]. pose proof H as ((_ & _ & _ & _ & H5 & H6) & _).
    apply keys_users_changed; [exact H | |]; apply NoDup_map_filter; assumption.
  - unfold get_tenant. destruct (select_tenant (base s) id); exact H.
  - exact H.
  - exact H.
  - (* post maintenance *)
    unfold post_maintenance. destruct (negb _); [exact H|].
    unfold insert_ticket. cbn [Maintenance.id Maintenance.tenant_id].
    destruct (negb (enum_or_null categories _ && _ && _)); [exact H|].
    destruct (select_ticket s (uuid e 0)) eqn:Hsel; [exact H|].
    assert (Hfresh : ~ In (uuid e 0) (map Maintenance.id (maintenance s))).
    { intros Hin. apply in_map_iff in Hin. destruct Hin as (m & Hid & Hin).
      unfold select_ticket in Hsel. apply (find_none _ _ Hsel) in Hin.
      rewrite Hid, String.eqb_refl in Hin. discriminate. }
    destruct H as (Hd & Hm & Hn & Hl).
    destruct (or_null (k_tenant_id b)) as [tid|];
      [destruct (select_tenant (base s) tid); [|unfold keys_unique; auto]|];
      cbn [fst]; unfold keys_unique;
      cbn [base maintenance notifications message_log with_maintenance map Maintenance.id];
      (split; [exact Hd|]; split; [constructor; assumption | auto]).
  - unfold patch_maintenance. cbv zeta.
    destruct (select_ticket s id); [|exact H].
    destruct (negb _); [exact H|]. cbn [fst]. destruct H as (Hd & Hm & Hn & Hl).
    unfold keys_unique. cbn [base maintenance notifications message_log with_maintenance].
    rewrite map_map.
    replace (map _ (maintenance s)) with (map Maintenance.id (maintenance s)); [auto|].
    apply map_ext. intros m. destruct (String.eqb (Maintenance.id m) id); reflexivity.
  - unfold delete_maintenance. cbn [fst]. destruct H as (Hd & Hm & Hn & Hl).
    unfold keys_unique. cbn [base maintenance notifications message_log with_maintenance].
    split; [exact Hd|]. split; [apply NoDup_map_filter; exact Hm | auto].
  - exact H.
  - unfold read_notification. cbn [fst]. destruct H as (Hd & Hm & Hn & Hl).
    unfold keys_unique. cbn [base maintenance notifications message_log with_notifications].
    rewrite map_updated_key by reflexivity. auto.
  - unfold read_all_notifications. cbn [fst]. destruct H as (Hd & Hm & Hn & Hl).
    unfold keys_unique. cbn [base maintenance notifications message_log with_notifications].
    rewrite map_updated_key by reflexivity. auto.
  - unfold post_message, insert_message. cbn [MessageLog.id].
    destruct (negb (enum_or_null channels _ && _)); [exact H|].
    destruct (select_message s (uuid e 0)) eqn:Hsel; [exact H|].
    cbn [fst]. destruct H as (Hd & Hm & Hn & Hl).
    unfold keys_unique. cbn [base maintenance notifications message_log with_message_log
                                  map MessageLog.id].
    split; [exact Hd|]. split; [exact Hm|]. split; [exact Hn|].
    constructor; [|exact Hl].
    intros Hin. apply in_map_iff in Hin. destruct Hin as (m & Hid & Hin).
    unfold select_message in Hsel. apply (find_none _ _ Hsel) in Hin.
    rewrite Hid, String.eqb_refl in Hin. discriminate.
  - exact H.
  - unfold bulk_reminder. destruct H as (Hd & Hm & Hn & Hl).
    destruct (remind_keeps_tables e sv (JS.str_or message_template default_template) user
                (filter owes_and_reachable (tenants (base s))) 0 [] s) as (Hb & Hm' & Hn').
    unfold keys_unique. rewrite Hb, Hm', Hn'.
    split; [exact Hd|]. split; [exact Hm|]. split; [exact Hn|].
    apply remind_keeps_message_keys. exact Hl.
  - exact H.
  - unfold get_portal. destruct (select_tenant (base s) tenantId); exact H.
Qed.

(** X4.  The keys stay unique: if no two tenants, payments, users, tickets,
    notifications or logged messages share an identifier, no two users an
    e-mail address and no two tenants a sequence number, and every sequence
    number lies below the AUTO_INCREMENT counter, then the same holds after
    any sequence of requests to any route. *)
Theorem keys_stay_unique :
  forall (sv : services) (reqs : list (env * request_ext)) (s : store),
    keys_unique s -> keys_unique (run_api sv reqs s).
Proof.
  intros sv reqs; induction reqs as [|[e r] rest IH]; intros s H; cbn [run_api]; [exact H|].
  apply IH, api_keeps_keys, H.
Qed.

Lemma seed_keys_unique : keys_unique seed_store.
Proof.
  unfold keys_unique, keys_unique_db. cbn.
  repeat split;
    try (repeat constructor; cbn; intuition (discriminate || lia)).
Defined.

Lemma keys_stay_unique_witness :
  keys_unique (run_api demo_services demo_week seed_store).
Proof.
  apply (keys_stay_unique demo_services demo_week seed_store seed_keys_unique).
Defined.

(** ** Payments and balances *)












Lemma seed_reconciled : reconciled seed_db.
Proof.
  split; [|split; [|split]].
  - unfold seed_db. cbn [tenants payments seed_tenants].
    repeat (apply Forall_cons; [vm_compute; reflexivity|]). apply Forall_nil.
  - unfold seed_db. cbn [payments seed_payments].
    repeat (apply Forall_cons; [vm_compute; discriminate|]). apply Forall_nil.
  - exact (proj1 seed_keys_unique).
  - exact (proj1 seed_references_kept).
Defined.


(** ** The dashboard totals *)

Lemma sql_sum_from :
  forall (f : Tenant.t -> Z) ts a,
    fold_left
      (fun acc x =>
         match x with
         | None => acc
         | Some v => Some (match acc with None => v | Some a0 => a0 + v end)
         end)
      (map (fun t => Some (f t)) ts) (Some a)
    = Some (a + total f ts).
Proof.
  intros f ts; induction ts as [|t r IH]; intros a; cbn [map fold_left total fold_right].
  - f_equal; lia.
  - rewrite IH. unfold total. f_equal. lia.
Qed.

Lemma sql_sum_total :
  forall (f : Tenant.t -> Z) ts,
    sql_sum (map (fun t => Some (f t)) ts)
    = match ts with [] => None | _ => Some (total f ts) end.
Proof.
  intros f [|t r]; [reflexivity|].
  unfold sql_sum. cbn [map fold_left]. rewrite sql_sum_from. reflexivity.
Qed.

Lemma count_as_total :
  forall (p : Tenant.t -> bool) ts,
    Z.of_nat (List.length (filter p ts)) = total (fun t => Z.b2z (p t)) ts.
Proof.
  intros p ts; induction ts as [|t r IH]; [reflexivity|].
  cbn [filter total fold_right]. fold (total (fun t => Z.b2z (p t)) r).
  rewrite <- IH. destruct (p t); cbn [List.length Z.b2z]; lia.
Qed.

Lemma one_status :
  forall a r,
    Z.b2z (is_paid a r) + Z.b2z (is_partial a r) + Z.b2z (is_unpaid a r)
    + Z.b2z (unclassified a r) = 1.
Proof.
  intros a r. unfold is_paid, is_partial, is_unpaid, unclassified.
  destruct (r >? 0) eqn:E1; destruct (a >=? r) eqn:E2; destruct (0 <? a) eqn:E3;
    destruct (a <? r) eqn:E4; destruct (a =? 0) eqn:E5; destruct (a <? 0) eqn:E6;
    destruct (r <=? 0) eqn:E7; cbn; try reflexivity; exfalso; lia.
Qed.

Lemma total_add :
  forall f g ts, total (fun t => f t + g t) ts = total f ts + total g ts.
Proof.
  intros f g ts; induction ts as [|t r IH]; [reflexivity|].
  cbn [total fold_right]. fold (total (fun t => f t + g t) r) (total f r) (total g r).
  rewrite IH. lia.
Qed.

Lemma total_ones : forall ts, total (fun _ => 1) ts = Z.of_nat (List.length ts).
Proof.
  induction ts as [|t r IH]; [reflexivity|].
  cbn [total fold_right List.length]. fold (total (fun _ : Tenant.t => 1) r). rewrite IH. lia.
Qed.

Lemma total_ext :
  forall f g ts, (forall t, f t = g t) -> total f ts = total g ts.
Proof.
  intros f g ts H; induction ts as [|t r IH]; [reflexivity|].
  cbn [total fold_right]. fold (total f r) (total g r). rewrite IH, H. reflexivity.
Qed.

Lemma total_le :
  forall f g ts, (forall t, In t ts -> f t <= g t) -> total f ts <= total g ts.
Proof.
  intros f g ts; induction ts as [|t r IH]; intros H; [cbn; lia|].
  cbn [total fold_right]. fold (total f r) (total g r).
  pose proof (H t (or_introl eq_refl)).
  assert (total f r <= total g r) by (apply IH; intros x Hx; apply H; right; exact Hx).
  lia.
Qed.

Lemma total_eq_on :
  forall f g ts, (forall t, In t ts -> f t = g t) -> total f ts = total g ts.
Proof.
  intros f g ts; induction ts as [|t r IH]; intros H; [reflexivity|].
  cbn [total fold_right]. fold (total f r) (total g r).
  rewrite (H t (or_introl eq_refl)), IH; [reflexivity|].
  intros x Hx; apply H; right; exact Hx.
Qed.

(** X7.  The three status counters of the dashboard never count a tenant
    twice, and they miss exactly the tenants whose balance is negative or
    whose balance is positive against a rent that is not positive: on a
    table that is not empty, fully_paid + partial_paid + unpaid_count plus
    the number of those tenants is total_tenants.  On an empty table the
    three counters are null and total_tenants is 0. *)
Theorem status_counters_partition :
  forall (e : env) (d : db),
    (forall a r,
        Z.b2z (is_paid a r) + Z.b2z (is_partial a r) + Z.b2z (is_unpaid a r)
        + Z.b2z (unclassified a r) = 1)
    /\ match fully_paid (stats_summary e d), partial_paid (stats_summary e d),
             unpaid_count (stats_summary e d), counted unclassified d with
       | Some p, Some q, Some u, Some c =>
           p + q + u + c = total_tenants (stats_summary e d) /\ tenants d <> []
       | None, None, None, None =>
           total_tenants (stats_summary e d) = 0 /\ tenants d = []
       | _, _, _, _ => False
       end.
Proof.
  intros e d. split; [exact one_status|].
  destruct (counters_of_stats e d) as (-> & -> & ->).
  unfold counted, stats_summary. cbn [total_tenants].
  destruct (tenants d) as [|t ts] eqn:Ht; [split; reflexivity|].
  split; [|discriminate].
  rewrite !count_as_total, <- !total_add, <- total_ones.
  apply total_ext. intros x. apply one_status.
Qed.

(** X8.  The money totals of the dashboard: on a table that is not empty,
    total_outstanding is never negative and never less than total_rent
    minus total_paid, and it is exactly total_rent minus total_paid when no
    tenant has paid more than the rent; a tenant who has overpaid lowers
    neither total. *)
Theorem outstanding_total_bounds :
  forall (e : env) (d : db),
    match total_rent (stats_summary e d), total_paid (stats_summary e d),
          total_outstanding (stats_summary e d) with
    | Some rent, Some paid, Some outstanding =>
        0 <= outstanding
        /\ rent - paid <= outstanding
        /\ ((forall t, In t (tenants d) -> Tenant.amount_paid t <= Tenant.rent_per_annum t)
            -> outstanding = rent - paid)
        /\ tenants d <> []
    | None, None, None => tenants d = []
    | _, _, _ => False
    end.
Proof.
  intros e d. unfold stats_summary. cbn [total_rent total_paid total_outstanding].
  rewrite !sql_sum_total.
  destruct (tenants d) as [|t ts]; [reflexivity|].
  set (l := t :: ts).
  assert (Hdiff : total Tenant.rent_per_annum l - total Tenant.amount_paid l
                  = total (fun x => Tenant.rent_per_annum x - Tenant.amount_paid x) l).
  { replace (total Tenant.rent_per_annum l)
      with (total (fun x => (Tenant.rent_per_annum x - Tenant.amount_paid x)
                            + Tenant.amount_paid x) l)
      by (apply total_ext; intros x; lia).
    rewrite total_add. lia. }
  split; [|split; [|split; [|discriminate]]].
  - assert (Hz : total (fun _ => 0) l = 0).
    { clear. induction l as [|x r IH]; [reflexivity|].
      cbn [total fold_right]. fold (total (fun _ : Tenant.t => 0) r). rewrite IH. reflexivity. }
    rewrite <- Hz at 1. apply total_le. intros x _. lia.
  - rewrite Hdiff. apply total_le. intros x _. lia.
  - intros Hle. rewrite Hdiff. apply total_eq_on. intros x Hx.
    specialize (Hle x Hx). lia.
Qed.

(** ** Accounts *)

Lemma gate_pass :
  forall e roles h user,
    authenticates e h user -> permitted roles user ->
    auth_gate e roles (Some h) = inr user.
Proof.
  intros e roles h user (token & Hnth & Htr & Hver) Hperm.
  unfold auth_gate. rewrite Hnth, Htr, Hver. cbn [negb].
  destruct Hperm as [-> | Hin]; [reflexivity|].
  assert (Hex : existsb (String.eqb (c_role user)) roles = true).
  { apply existsb_exists. exists (c_role user). split; [exact Hin | apply String.eqb_refl]. }
  rewrite Hex. cbn [negb]. rewrite andb_false_r. reflexivity.
Qed.

Lemma guarded_pass :
  forall e roles h user next s,
    authenticates e h user -> permitted roles user ->
    guarded e roles (Some h) next s = next user s.
Proof.
  intros e roles h user next s Ha Hp. unfold guarded.
  rewrite (gate_pass e roles h user Ha Hp). reflexivity.
Qed.

Lemma admin_permitted :
  forall user, c_role user = "admin" -> permitted ["admin"] user.
Proof. intros user H. right. rewrite H. left. reflexivity. Qed.











Lemma find_account_updated :
  forall (us : list User.t) (f : User.t -> User.t) id u,
    (forall v, User.email (f v) = User.email v) ->
    (forall v, User.is_active (f v) = User.is_active v) ->
    NoDup (map User.email us) -> In u us -> User.id u = id -> User.is_active u = true ->
    find (fun x => String.eqb (User.email x) (User.email u) && User.is_active x)
         (map (fun v => if String.eqb (User.id v) id then f v else v) us)
    = Some (f u).
Proof.
  intros us f id u Hfe Hfa Hnd Hin Hid Hact.
  set (g := fun v => if String.eqb (User.id v) id then f v else v).
  assert (Hemails : map User.email (map g us) = map User.email us).
  { rewrite map_map. apply map_ext. intros v. unfold g.
    destruct (String.eqb (User.id v) id); [apply Hfe | reflexivity]. }
  assert (Hgu : g u = f u).
  { unfold g. rewrite Hid, String.eqb_refl. reflexivity. }
  assert (Hnd' : NoDup (map User.email (map g us))) by (rewrite Hemails; exact Hnd).
  assert (Hin' : In (f u) (map g us)).
  { rewrite <- Hgu. apply in_map. exact Hin. }
  pose proof (find_active_account (map g us) (f u) Hnd' Hin') as H.
  rewrite Hfe, Hfa, Hact in H. exact H.
Qed.

(** X11.  A caller whose account is active changes the password with the
    right current one: the answer is 200, and the address then logs in
    with the new password; with a current password that does not match,
    the answer is 400 "Current password incorrect" and nothing is written;
    and when the old password does not match the new hash, it no longer
    logs in. *)
Theorem password_change_takes_effect :
  forall (e e2 : env) (sv : services) (h : string) (user : claims)
         (current new : string) (u : User.t) (s : store),
    authenticates e h user ->
    select_user (base s) (c_id user) = Some u ->
    NoDup (map User.email (users (base s))) ->
    User.is_active u = true ->
    JS.str_truthy (User.email u) = true ->
    JS.str_truthy new = true ->
    bcrypt_compare e current (User.password_hash u) = true ->
    bcrypt_compare e2 new (bcrypt_hash sv new) = true ->
    let changed := api e sv (PutChangePassword (Some h) (Some current) (Some new)) s in
    let session := mkclaims (User.id u) (User.name u) (User.email u) (User.role u) in
    snd changed = answer 200 (Core Success)
    /\ snd (app e2 (PostLogin (Some (User.email u)) (Some new)) (base (fst changed)))
       = reply 200 (Session (jwt_sign e2 session) session (User.phone u))
    /\ (forall wrong,
           bcrypt_compare e wrong (User.password_hash u) = false ->
           api e sv (PutChangePassword (Some h) (Some wrong) (Some new)) s
           = (s, answer 400 (Core (Error "Current password incorrect"))))
    /\ (JS.str_truthy current = true ->
        bcrypt_compare e2 current (bcrypt_hash sv new) = false ->
        app e2 (PostLogin (Some (User.email u)) (Some current)) (base (fst changed))
        = (base (fst changed), reply 401 (Error "Invalid credentials"))).
Proof.
  intros e e2 sv h user current new u s
         Hauth Hsel Hnd Hact Hem Hnew Hcur Hcmp changed session.
  assert (Hin : In u (users (base s)) /\ User.id u = c_id user).
  { unfold select_user in Hsel. apply find_some in Hsel.
    split; [exact (proj1 Hsel) | apply String.eqb_eq; exact (proj2 Hsel)]. }
  destruct Hin as [Hin Hid].
  assert (Hchanged :
            changed
            = (with_base
                 (update_users (c_id user)
                    (fun v => User.mk (User.id v) (User.name v) (User.email v)
                                      (User.phone v) (bcrypt_hash sv new) (User.role v)
                                      (User.is_active v) (User.last_login v))
                    (base s)) s,
               answer 200 (Core Success))).
  { unfold changed. cbn [api].
    rewrite (guarded_pass e [] h user _ s Hauth (permitted_any user)).
    unfold change_password. rewrite Hsel, Hcur. reflexivity. }
  rewrite Hchanged. cbn [fst snd].
  assert (Hfind :
            find (fun x => String.eqb (User.email x) (User.email u) && User.is_active x)
                 (users (base
                    (with_base
                       (update_users (c_id user)
                          (fun v => User.mk (User.id v) (User.name v) (User.email v)
                                      (User.phone v) (bcrypt_hash sv new) (User.role v)
                                      (User.is_active v) (User.last_login v))
                          (base s)) s)))
            = Some (User.mk (User.id u) (User.name u) (User.email u) (User.phone u)
                            (bcrypt_hash sv new) (User.role u) (User.is_active u)
                            (User.last_login u))).
  { unfold with_base, update_users, with_users. cbn [base users].
    apply (find_account_updated (users (base s))
             (fun v => User.mk (User.id v) (User.name v) (User.email v)
                               (User.phone v) (bcrypt_hash sv new) (User.role v)
                               (User.is_active v) (User.last_login v))
             (c_id user) u); auto. }
  split; [reflexivity|]. split; [|split].
  - cbn [app]. unfold login. rewrite Hem, Hnew. cbn [negb orb].
    rewrite Hfind. cbn [User.password_hash]. rewrite Hcmp. cbn [negb snd].
    reflexivity.
  - intros wrong Hwrong. cbn [api].
    rewrite (guarded_pass e [] h user _ s Hauth (permitted_any user)).
    unfold change_password. rewrite Hsel, Hwrong. reflexivity.
  - intros Htr Hold. cbn [app]. unfold login. rewrite Hem, Htr. cbn [negb orb].
    rewrite Hfind. cbn [User.password_hash]. rewrite Hold. reflexivity.
Qed.

Lemma password_change_takes_effect_witness :
  let changed :=
    api clerk_env demo_services
        (PutChangePassword (Some "Bearer clerk-token") (Some "Clerk@1234") (Some "Clerk@5678"))
        staffed_store in
  let session := mkclaims "user-003" "Clerk" "clerk@estateiq.ng" "staff" in
  snd changed = answer 200 (Core Success)
  /\ snd (app office_env (PostLogin (Some "clerk@estateiq.ng") (Some "Clerk@5678"))
              (base (fst changed)))
     = reply 200 (Session (jwt_sign office_env session) session None)
  /\ (forall wrong,
         bcrypt_compare clerk_env wrong (User.password_hash clerk) = false ->
         api clerk_env demo_services
             (PutChangePassword (Some "Bearer clerk-token") (Some wrong) (Some "Clerk@5678"))
             staffed_store
         = (staffed_store, answer 400 (Core (Error "Current password incorrect"))))
  /\ (JS.str_truthy "Clerk@1234" = true ->
      bcrypt_compare office_env "Clerk@1234" (bcrypt_hash demo_services "Clerk@5678") = false ->
      app office_env (PostLogin (Some "clerk@estateiq.ng") (Some "Clerk@1234"))
          (base (fst changed))
      = (base (fst changed), reply 401 (Error "Invalid credentials"))).
Proof.
  apply (password_change_takes_effect clerk_env office_env demo_services
           "Bearer clerk-token" (mkclaims "user-003" "Clerk" "clerk@estateiq.ng" "staff")
           "Clerk@1234" "Clerk@5678" clerk staffed_store).
  - exists "clerk-token". repeat split.
  - reflexivity.
  - cbn. repeat constructor; cbn; intuition discriminate.
  - reflexivity.
  - reflexivity.
  - reflexivity.
  - reflexivity.
  - reflexivity.
Defined.

(** ** One tenant across the tables *)






Lemma filter_negb_other :
  forall (A : Type) (key : A -> string) (id : string) (l : list A) (x : A),
    key x <> id ->
    (In x (filter (fun y => negb (String.eqb (key y) id)) l) <-> In x l).
Proof.
  intros A key id l x Hx. rewrite filter_In. split; [tauto|].
  intros H. split; [exact H|]. apply String.eqb_neq in Hx. rewrite Hx. reflexivity.
Qed.

Lemma find_filtered_out :
  forall (A : Type) (key : A -> string) (id : string) (l : list A),
    find (fun y => String.eqb (key y) id)
         (filter (fun y => negb (String.eqb (key y) id)) l) = None.
Proof.
  intros A key id l; induction l as [|x r IH]; [reflexivity|].
  cbn [filter]. destruct (String.eqb (key x) id) eqn:E; cbn [negb]; [exact IH|].
  cbn [find]. rewrite E. exact IH.
Qed.

(** X13.  An administrator or manager deletes a tenant: the answer is 200,
    whether or not the tenant existed.  Afterwards the tenant is gone (GET
    /api/tenants/:id and the portal answer 404), none of its payments is
    left while the other tenants and their payments stand as they were,
    and every maintenance ticket is still there, in the same order and
    with the same columns apart from tenant_id, which no longer names the
    deleted tenant; users and message log are untouched. *)
Theorem deleted_tenant_is_unlinked :
  forall (e : env) (sv : services) (h : string) (user : claims) (id : string) (s : store),
    authenticates e h user -> permitted ["admin"; "manager"] user ->
    let deleted := api e sv (Ledger (DeleteTenant (Some h) id)) s in
    snd deleted = answer 200 (Core Success)
    /\ (forall e2 h2 user2,
           authenticates e2 h2 user2 ->
           api e2 sv (GetTenant (Some h2) id) (fst deleted)
           = (fst deleted, answer 404 (Core (Error "Not found"))))
    /\ api e sv (GetPortal id) (fst deleted)
       = (fst deleted, answer 404 (Core (Error "Not found")))
    /\ (forall t, Tenant.id t <> id ->
                  (In t (tenants (base (fst deleted))) <-> In t (tenants (base s))))
    /\ (forall p, In p (payments (base (fst deleted)))
                  <-> In p (payments (base s)) /\ Payment.tenant_id p <> id)
    /\ Forall2 (fun m' m =>
                  Maintenance.tenant_id m'
                  = (if refers_to id (Maintenance.tenant_id m) then None
                     else Maintenance.tenant_id m)
                  /\ Maintenance.mk (Maintenance.id m') (Maintenance.tenant_id m)
                       (Maintenance.tenant_name m') (Maintenance.property_address m')
                       (Maintenance.category m') (Maintenance.title m')
                       (Maintenance.description m') (Maintenance.priority m')
                       (Maintenance.status m') (Maintenance.assigned_to m')
                       (Maintenance.resolved_at m')
                     = m)
               (maintenance (fst deleted)) (maintenance s)
    /\ users (base (fst deleted)) = users (base s)
    /\ message_log (fst deleted) = message_log s.
Proof.
  intros e sv h user id s Hauth Hperm deleted.
  unfold deleted. cbn [api].
  rewrite (guarded_pass e _ h user _ s Hauth Hperm).
  unfold delete_tenant_ext, delete_tenant.
  cbn [fst snd base tenants payments users maintenance message_log].
  split; [reflexivity|]. split; [|split; [|split; [|split; [|split; [|split]]]]].
  - intros e2 h2 user2 Hauth2. cbn [api].
    rewrite (guarded_pass e2 [] h2 user2 _ _ Hauth2 (permitted_any user2)).
    unfold get_tenant, select_tenant. cbn [base tenants].
    rewrite (find_filtered_out _ Tenant.id). reflexivity.
  - cbn [api]. unfold get_portal, select_tenant. cbn [base tenants].
    rewrite (find_filtered_out _ Tenant.id). reflexivity.
  - intros t Ht. apply (filter_negb_other _ Tenant.id); exact Ht.
  - intros p. rewrite filter_In. split.
    + intros [Hin Hneq]. split; [exact Hin|].
      apply String.eqb_neq. destruct (String.eqb (Payment.tenant_id p) id);
        [discriminate Hneq | reflexivity].
    + intros [Hin Hneq]. split; [exact Hin|].
      apply String.eqb_neq in Hneq. rewrite Hneq. reflexivity.
  - induction (maintenance s) as [|m r IH]; cbn [map]; constructor; [|exact IH].
    destruct m as [mid mt mn ma mc mti md mp ms masg mr].
    cbn [Maintenance.tenant_id]. destruct (refers_to id mt); split; reflexivity.
  - reflexivity.
  - reflexivity.
Qed.

Lemma deleted_tenant_is_unlinked_witness :
  let deleted :=
    api demo_env demo_services (Ledger (DeleteTenant (Some "Bearer admin-token") "t-002"))
        seed_store in
  snd deleted = answer 200 (Core Success)
  /\ (forall e2 h2 user2,
         authenticates e2 h2 user2 ->
         api e2 demo_services (GetTenant (Some h2) "t-002") (fst deleted)
         = (fst deleted, answer 404 (Core (Error "Not found"))))
  /\ api demo_env demo_services (GetPortal "t-002") (fst deleted)
     = (fst deleted, answer 404 (Core (Error "Not found")))
  /\ (forall t, Tenant.id t <> "t-002" ->
                (In t (tenants (base (fst deleted))) <-> In t (tenants (base seed_store))))
  /\ (forall p, In p (payments (base (fst deleted)))
                <-> In p (payments (base seed_store)) /\ Payment.tenant_id p <> "t-002")
  /\ Forall2 (fun m' m =>
                Maintenance.tenant_id m'
                = (if refers_to "t-002" (Maintenance.tenant_id m) then None
                   else Maintenance.tenant_id m)
                /\ Maintenance.mk (Maintenance.id m') (Maintenance.tenant_id m)
                     (Maintenance.tenant_name m') (Maintenance.property_address m')
                     (Maintenance.category m') (Maintenance.title m')
                     (Maintenance.description m') (Maintenance.priority m')
                     (Maintenance.status m') (Maintenance.assigned_to m')
                     (Maintenance.resolved_at m')
                   = m)
             (maintenance (fst deleted)) (maintenance seed_store)
  /\ users (base (fst deleted)) = users (base seed_store)
  /\ message_log (fst deleted) = message_log seed_store.
Proof.
  apply (deleted_tenant_is_unlinked demo_env demo_services "Bearer admin-token"
           admin_claims "t-002" seed_store).
  - exact demo_admin_authenticates.
  - right. left. reflexivity.
Defined.

(** ** Listings *)

Lemma insert_sorted_perm :
  forall (A : Type) (le : A -> A -> bool) x l,
    Permutation (insert_sorted le x l) (x :: l).
Proof.
  intros A le x l; induction l as [|y r IH]; cbn [insert_sorted]; [apply Permutation_refl|].
  destruct (le x y); [apply Permutation_refl|].
  eapply Permutation_trans; [apply perm_skip; exact IH | apply perm_swap].
Qed.

Lemma order_by_perm :
  forall (A : Type) (le : A -> A -> bool) l, Permutation (order_by le l) l.
Proof.
  intros A le l; induction l as [|x r IH]; [apply Permutation_refl|].
  unfold order_by in *. cbn [fold_right].
  eapply Permutation_trans; [apply insert_sorted_perm | apply perm_skip; exact IH].
Qed.

Lemma insert_sorted_in_order :
  forall (A : Type) (le : A -> A -> bool),
    (forall x y, le x y = false -> le y x = true) ->
    (forall x y z, le x y = true -> le y z = true -> le x z = true) ->
    forall x l, in_order le l -> in_order le (insert_sorted le x l).
Proof.
  intros A le Htot Htrans x l; induction l as [|y r IH]; intros Hl.
  - cbn. split; [constructor | exact I].
  - cbn [insert_sorted]. destruct (le x y) eqn:E.
    + cbn [in_order] in *. destruct Hl as [Hy Hr]. split; [|split; assumption].
      constructor; [exact E|].
      rewrite Forall_forall in *. intros z Hz. apply (Htrans x y z E). apply Hy; exact Hz.
    + cbn [in_order] in *. destruct Hl as [Hy Hr]. split; [|apply IH; exact Hr].
      rewrite Forall_forall in *. intros z Hz.
      apply (Permutation_in _ (insert_sorted_perm A le x r)) in Hz.
      destruct Hz as [<- | Hz]; [apply Htot; exact E | apply Hy; exact Hz].
Qed.

Lemma order_by_in_order :
  forall (A : Type) (le : A -> A -> bool),
    (forall x y, le x y = false -> le y x = true) ->
    (forall x y z, le x y = true -> le y z = true -> le x z = true) ->
    forall l, in_order le (order_by le l).
Proof.
  intros A le Htot Htrans l; induction l as [|x r IH]; [exact I|].
  unfold order_by in *. cbn [fold_right].
  apply insert_sorted_in_order; assumption.
Qed.

Lemma in_order_map :
  forall (A B : Type) (f : A -> B) (le : B -> B -> bool) l,
    in_order (fun x y => le (f x) (f y)) l -> in_order le (map f l).
Proof.
  intros A B f le l; induction l as [|x r IH]; intros H; [exact I|].
  cbn [map in_order] in *. destruct H as [Hx Hr]. split; [|apply IH; exact Hr].
  rewrite Forall_forall in *. intros y Hy. apply in_map_iff in Hy.
  destruct Hy as (z & <- & Hz). apply Hx; exact Hz.
Qed.

Lemma by_payment_date_desc_total :
  forall p q, by_payment_date_desc p q = false -> by_payment_date_desc q p = true.
Proof. unfold by_payment_date_desc; intros p q H. lia. Qed.

Lemma by_payment_date_desc_trans :
  forall p q r,
    by_payment_date_desc p q = true -> by_payment_date_desc q r = true ->
    by_payment_date_desc p r = true.
Proof. unfold by_payment_date_desc; intros p q r H1 H2. lia. Qed.

Lemma select_tenant_of_existing :
  forall d id, tenant_exists d id ->
               exists t, select_tenant d id = Some t /\ In t (tenants d) /\ Tenant.id t = id.
Proof.
  intros d id H. apply select_tenant_exists in H.
  destruct (select_tenant d id) as [t|] eqn:E; [|congruence].
  exists t. split; [reflexivity|]. apply select_tenant_In. exact E.
Qed.

Lemma payments_where_spec :
  forall tenant_id from to p,
    payments_where tenant_id from to p = true
    <-> (forall t, tenant_id = Some t -> t <> EmptyString -> Payment.tenant_id p = t)
        /\ (forall f, from = Some f -> f <= Payment.payment_date p)
        /\ (forall t, to = Some t -> Payment.payment_date p <= t).
Proof.
  intros tenant_id from to p. unfold payments_where.
  rewrite !andb_true_iff. split.
  - intros [[H1 H2] H3]. split; [|split].
    + intros t -> Ht. destruct t as [|c r]; [congruence|].
      cbn [JS.str_truthy] in H1. apply String.eqb_eq. exact H1.
    + intros f ->. lia.
    + intros t ->. lia.
  - intros (H1 & H2 & H3). split; [split|].
    + destruct tenant_id as [t|]; [|reflexivity].
      destruct t as [|c r]; [reflexivity|]. cbn [JS.str_truthy].
      apply String.eqb_eq. apply H1; [reflexivity | discriminate].
    + destruct from as [f|]; [|reflexivity]. specialize (H2 f eq_refl). lia.
    + destruct to as [t|]; [|reflexivity]. specialize (H3 t eq_refl). lia.
Qed.

(** X14.  GET /api/payments reads only.  It lists, each once, exactly the
    payments that pass the filters the query gives: of the tenant when
    tenant_id is not empty, on or after [from], on or before [to]; the
    rows stand by payment date, the latest first; and on a database whose
    references are valid every row carries the name and the address of the
    tenant of its payment. *)
Theorem payments_listing :
  forall (e : env) (sv : services) (h : string) (user : claims)
         (tenant_id : option string) (from to : option Z) (s : store),
    authenticates e h user ->
    let r := api e sv (GetPayments (Some h) tenant_id from to) s in
    fst r = s
    /\ status_ext (snd r) = 200
    /\ Permutation (map payment_of (listed_payments (snd r)))
                   (filter (payments_where tenant_id from to) (payments (base s)))
    /\ (forall p,
           payments_where tenant_id from to p = true
           <-> (forall t, tenant_id = Some t -> t <> EmptyString -> Payment.tenant_id p = t)
               /\ (forall f, from = Some f -> f <= Payment.payment_date p)
               /\ (forall t, to = Some t -> Payment.payment_date p <= t))
    /\ in_order (fun x y => Payment.payment_date (payment_of y)
                            <=? Payment.payment_date (payment_of x))
                (listed_payments (snd r))
    /\ (references_kept s ->
        forall row, In row (listed_payments (snd r)) ->
                    exists t, In t (tenants (base s))
                              /\ Tenant.id t = Payment.tenant_id (payment_of row)
                              /\ snd (fst row) = Some (Tenant.tenant_name t)
                              /\ snd row = Tenant.property_address t).
Proof.
  intros e sv h user tenant_id from to s Hauth r.
  unfold r. cbn [api].
  rewrite (guarded_pass e [] h user _ s Hauth (permitted_any user)).
  unfold get_payments, listed_payments. cbn [fst snd answer status_ext body_ext].
  split; [reflexivity|]. split; [reflexivity|].
  split; [|split; [|split]].
  - rewrite map_map. unfold payment_of. cbn [fst]. rewrite map_id. apply order_by_perm.
  - intros p. apply payments_where_spec.
  - apply (in_order_map _ _ _
             (fun x y => Payment.payment_date (payment_of y)
                         <=? Payment.payment_date (payment_of x))).
    unfold payment_of. cbn [fst].
    apply (order_by_in_order _ by_payment_date_desc
             by_payment_date_desc_total by_payment_date_desc_trans).
  - intros (Hp & _ & _) row Hrow. apply in_map_iff in Hrow.
    destruct Hrow as (p & <- & Hin).
    apply (Permutation_in _ (order_by_perm _ _ _)) in Hin.
    apply filter_In in Hin. destruct Hin as [Hin _].
    rewrite Forall_forall in Hp. specialize (Hp p Hin).
    destruct (select_tenant_of_existing _ _ Hp) as (t & Hsel & Ht & Hid).
    exists t. unfold payment_of. cbn [fst snd]. rewrite Hsel.
    repeat split; try assumption; reflexivity.
Qed.

Lemma payments_listing_witness :
  let r := api demo_env demo_services
               (GetPayments (Some "Bearer staff-token") (Some "t-002") None None)
               seed_store in
  fst r = seed_store
  /\ status_ext (snd r) = 200
  /\ Permutation (map payment_of (listed_payments (snd r)))
                 (filter (payments_where (Some "t-002") None None)
                         (payments (base seed_store)))
  /\ (forall p,
         payments_where (Some "t-002") None None p = true
         <-> (forall t, Some "t-002" = Some t -> t <> EmptyString -> Payment.tenant_id p = t)
             /\ (forall f, @None Z = Some f -> f <= Payment.payment_date p)
             /\ (forall t, @None Z = Some t -> Payment.payment_date p <= t))
  /\ in_order (fun x y => Payment.payment_date (payment_of y)
                          <=? Payment.payment_date (payment_of x))
              (listed_payments (snd r))
  /\ (references_kept seed_store ->
      forall row, In row (listed_payments (snd r)) ->
                  exists t, In t (tenants (base seed_store))
                            /\ Tenant.id t = Payment.tenant_id (payment_of row)
                            /\ snd (fst row) = Some (Tenant.tenant_name t)
                            /\ snd row = Tenant.property_address t).
Proof.
  apply (payments_listing demo_env demo_services "Bearer staff-token" staff_claims
           (Some "t-002") None None seed_store).
  exact demo_staff_authenticates.
Defined.

Lemma paid_by_perm :
  forall id l l', Permutation l l' -> paid_by id l = paid_by id l'.
Proof.
  intros id l l' H; induction H; cbn [paid_by]; lia.
Qed.

Lemma paid_by_own :
  forall id ps,
    paid_by id (filter (fun p => String.eqb (Payment.tenant_id p) id) ps) = paid_by id ps.
Proof.
  intros id ps; induction ps as [|p r IH]; [reflexivity|].
  cbn [filter paid_by]. destruct (String.eqb (Payment.tenant_id p) id) eqn:E.
  - cbn [paid_by]. rewrite E, IH. reflexivity.
  - rewrite IH. lia.
Qed.

Lemma sum_amounts_own :
  forall id l,
    (forall p, In p l -> String.eqb (Payment.tenant_id p) id = true) ->
    sum_amounts
      (map (fun p => mkportal_payment (Payment.amount p) (Payment.payment_date p)
                       (Payment.payment_method p) (Payment.receipt_number p)) l)
    = paid_by id l.
Proof.
  intros id l; induction l as [|p r IH]; intros H; [reflexivity|].
  cbn [map sum_amounts fold_right paid_by pp_amount].
  rewrite (H p (or_introl eq_refl)).
  fold (sum_amounts
          (map (fun p => mkportal_payment (Payment.amount p) (Payment.payment_date p)
                           (Payment.payment_method p) (Payment.receipt_number p)) r)).
  rewrite IH; [reflexivity|]. intros q Hq. apply H. right. exact Hq.
Qed.

(** X15.  The tenant portal answers without a token.  On a reconciled
    ledger the page of an existing tenant adds up: the amounts of the
    payments it lists, the latest first and none of them negative, sum to
    the amount paid it shows. *)
Theorem portal_history_adds_up :
  forall (e : env) (sv : services) (id : string) (t : Tenant.t) (s : store),
    reconciled (base s) ->
    select_tenant (base s) id = Some t ->
    exists view history,
      api e sv (GetPortal id) s = (s, answer 200 (PortalView view history))
      /\ pt_id view = id
      /\ pt_tenant_name view = Tenant.tenant_name t
      /\ pt_rent_per_annum view = Tenant.rent_per_annum t
      /\ pt_amount_paid view = sum_amounts history
      /\ Forall (fun p => 0 <= pp_amount p) history
      /\ in_order (fun x y => pp_payment_date y <=? pp_payment_date x) history.
Proof.
  intros e sv id t s (Hbal & Hpos & _ & _) Hsel.
  destruct (select_tenant_In _ _ _ Hsel) as [Hin Hid].
  cbn [api]. unfold get_portal. rewrite Hsel.
  eexists. eexists. split; [reflexivity|].
  cbn [pt_id pt_tenant_name pt_rent_per_annum pt_amount_paid].
  set (own := filter (fun p => String.eqb (Payment.tenant_id p) id) (payments (base s))).
  assert (Hown : forall p, In p (order_by by_payment_date_desc own) ->
                           In p (payments (base s))
                           /\ String.eqb (Payment.tenant_id p) id = true).
  { intros p Hp. apply (Permutation_in _ (order_by_perm _ _ _)) in Hp.
    unfold own in Hp. apply filter_In in Hp. exact Hp. }
  split; [exact Hid|]. split; [reflexivity|]. split; [reflexivity|].
  split; [|split].
  - rewrite (sum_amounts_own id) by (intros p Hp; apply Hown; exact Hp).
    rewrite (paid_by_perm id _ _ (order_by_perm _ by_payment_date_desc own)).
    unfold own. rewrite paid_by_own.
    rewrite Forall_forall in Hbal. rewrite (Hbal t Hin), Hid. reflexivity.
  - rewrite Forall_forall. intros q Hq. apply in_map_iff in Hq.
    destruct Hq as (p & <- & Hp). cbn [pp_amount].
    rewrite Forall_forall in Hpos. apply Hpos. apply Hown. exact Hp.
  - apply (in_order_map _ _ _ (fun x y => pp_payment_date y <=? pp_payment_date x)).
    cbn [pp_payment_date].
    apply (order_by_in_order _ by_payment_date_desc
             by_payment_date_desc_total by_payment_date_desc_trans).
Qed.

Lemma portal_history_adds_up_witness :
  exists view history,
    api demo_env demo_services (GetPortal "t-002") seed_store
    = (seed_store, answer 200 (PortalView view history))
    /\ pt_id view = "t-002"
    /\ pt_tenant_name view = Tenant.tenant_name seed_t002
    /\ pt_rent_per_annum view = Tenant.rent_per_annum seed_t002
    /\ pt_amount_paid view = sum_amounts history
    /\ Forall (fun p => 0 <= pp_amount p) history
    /\ in_order (fun x y => pp_payment_date y <=? pp_payment_date x) history.
Proof.
  apply (portal_history_adds_up demo_env demo_services "t-002" seed_t002 seed_store).
  - exact seed_reconciled.
  - reflexivity.
Defined.

(** ** Maintenance *)

Lemma insert_sorted_stable :
  forall (A : Type) (key : A -> Z) (k : Z) x l,
    filter (fun y => key y =? k) (insert_sorted (fun a b => key a <=? key b) x l)
    = filter (fun y => key y =? k) (x :: l).
Proof.
  intros A key k x l; induction l as [|y r IH]; [reflexivity|].
  cbn [insert_sorted]. destruct (key x <=? key y) eqn:E; [reflexivity|].
  cbn [filter] in *. rewrite IH.
  destruct (key y =? k) eqn:Ey; destruct (key x =? k) eqn:Ex; try reflexivity.
  exfalso. lia.
Qed.

Lemma order_by_stable :
  forall (A : Type) (key : A -> Z) (k : Z) l,
    filter (fun y => key y =? k) (order_by (fun a b => key a <=? key b) l)
    = filter (fun y => key y =? k) l.
Proof.
  intros A key k l; induction l as [|x r IH]; [reflexivity|].
  unfold order_by in *. cbn [fold_right]. rewrite insert_sorted_stable.
  cbn [filter]. rewrite IH. reflexivity.
Qed.


Lemma map_unmatched :
  forall (id : string) (f : Maintenance.t -> Maintenance.t) (ms : list Maintenance.t),
    find (fun m => String.eqb (Maintenance.id m) id) ms = None ->
    map (fun m => if String.eqb (Maintenance.id m) id then f m else m) ms = ms.
Proof.
  intros id f ms; induction ms as [|m r IH]; intros H; [reflexivity|].
  cbn [map find] in *. destruct (String.eqb (Maintenance.id m) id); [discriminate|].
  rewrite IH by exact H. reflexivity.
Qed.



Lemma by_priority_total :
  forall m n, by_priority m n = false -> by_priority n m = true.
Proof. unfold by_priority; intros m n H. lia. Qed.

Lemma by_priority_trans :
  forall m n k, by_priority m n = true -> by_priority n k = true -> by_priority m k = true.
Proof. unfold by_priority; intros m n k H1 H2. lia. Qed.

Lemma maintenance_where_spec :
  forall status priority m,
    maintenance_where status priority m = true
    <-> (forall st, status = Some st -> st <> EmptyString -> Maintenance.status m = Some st)
        /\ (forall pr, priority = Some pr -> pr <> EmptyString ->
                       Maintenance.priority m = Some pr).
Proof.
  assert (Href : forall x col, refers_to x col = true <-> col = Some x).
  { intros x [y|]; cbn [refers_to]; [|split; discriminate].
    rewrite String.eqb_eq. split; [intros ->; reflexivity | intros H; inversion H; reflexivity]. }
  intros status priority m. unfold maintenance_where. rewrite andb_true_iff. split.
  - intros [H1 H2]. split.
    + intros st -> Hst. destruct st as [|c r]; [congruence|].
      cbn [JS.str_truthy] in H1. apply Href. exact H1.
    + intros pr -> Hpr. destruct pr as [|c r]; [congruence|].
      cbn [JS.str_truthy] in H2. apply Href. exact H2.
  - intros [H1 H2]. split.
    + destruct status as [st|]; [|reflexivity].
      destruct st as [|c r]; [reflexivity|]. cbn [JS.str_truthy].
      apply Href. apply H1; [reflexivity | discriminate].
    + destruct priority as [pr|]; [|reflexivity].
      destruct pr as [|c r]; [reflexivity|]. cbn [JS.str_truthy].
      apply Href. apply H2; [reflexivity | discriminate].
Qed.

(** X17.  GET /api/maintenance reads only.  It lists, each once, exactly
    the tickets that pass the filters the query gives (status and priority,
    each when not empty).  The tickets stand by priority: those whose
    priority is null or none of the four names first, then urgent, high,
    medium and low; within one of these groups they stand as in the table,
    the most recently created first. *)
Theorem maintenance_listing :
  forall (e : env) (sv : services) (h : string) (user : claims)
         (status priority : option string) (s : store),
    authenticates e h user ->
    let r := api e sv (GetMaintenance (Some h) status priority) s in
    fst r = s
    /\ status_ext (snd r) = 200
    /\ Permutation (listed_tickets (snd r))
                   (filter (maintenance_where status priority) (maintenance s))
    /\ (forall m,
           maintenance_where status priority m = true
           <-> (forall st, status = Some st -> st <> EmptyString ->
                           Maintenance.status m = Some st)
               /\ (forall pr, priority = Some pr -> pr <> EmptyString ->
                              Maintenance.priority m = Some pr))
    /\ in_order (fun m n => priority_rank (Maintenance.priority m)
                            <=? priority_rank (Maintenance.priority n))
                (listed_tickets (snd r))
    /\ (forall k,
           filter (fun m => priority_rank (Maintenance.priority m) =? k)
                  (listed_tickets (snd r))
           = filter (fun m => priority_rank (Maintenance.priority m) =? k)
                    (filter (maintenance_where status priority) (maintenance s)))
    /\ priority_rank None = 0
    /\ (forall p, 0 <= priority_rank p <= 4)
    /\ (forall p, 0 < priority_rank p ->
                  In p [Some "urgent"; Some "high"; Some "medium"; Some "low"]).
Proof.
  intros e sv h user status priority s Hauth r.
  unfold r. cbn [api].
  rewrite (guarded_pass e [] h user _ s Hauth (permitted_any user)).
  unfold get_maintenance, listed_tickets. cbn [fst snd answer status_ext body_ext].
  rewrite map_map. cbn [fst]. rewrite map_id.
  split; [reflexivity|]. split; [reflexivity|].
  split; [apply order_by_perm|].
  split; [intros m; apply maintenance_where_spec|].
  split; [apply (order_by_in_order _ by_priority by_priority_total by_priority_trans)|].
  split.
  { intros k.
    apply (order_by_stable _ (fun m => priority_rank (Maintenance.priority m)) k). }
  split; [reflexivity|].
  assert (Hrank : forall p,
             (priority_rank p = 0
              \/ (0 < priority_rank p <= 4
                  /\ In p [Some "urgent"; Some "high"; Some "medium"; Some "low"]))).
  { intros [p|]; [|left; reflexivity].
    destruct (String.eqb p "urgent") eqn:E1;
      [apply String.eqb_eq in E1; subst; right; cbn; split; [lia | tauto]|].
    destruct (String.eqb p "high") eqn:E2;
      [apply String.eqb_eq in E2; subst; right; cbn; split; [lia | tauto]|].
    destruct (String.eqb p "medium") eqn:E3;
      [apply String.eqb_eq in E3; subst; right; cbn; split; [lia | tauto]|].
    destruct (String.eqb p "low") eqn:E4;
      [apply String.eqb_eq in E4; subst; right; cbn; split; [lia | tauto]|].
    left. unfold priority_rank.
    repeat match goal with
           | |- context [match ?x with _ => _ end] => destruct x; try reflexivity
           end;
      discriminate. }
  split.
  - intros p. destruct (Hrank p) as [-> | [H _]]; lia.
  - intros p Hp. destruct (Hrank p) as [H0 | [_ H]]; [lia | exact H].
Qed.

Lemma maintenance_listing_witness :
  let r := api demo_env demo_services
               (GetMaintenance (Some "Bearer staff-token") (Some "open") None) seed_store in
  fst r = seed_store
  /\ status_ext (snd r) = 200
  /\ Permutation (listed_tickets (snd r))
                 (filter (maintenance_where (Some "open") None) (maintenance seed_store))
  /\ (forall m,
         maintenance_where (Some "open") None m = true
         <-> (forall st, Some "open" = Some st -> st <> EmptyString ->
                         Maintenance.status m = Some st)
             /\ (forall pr, @None string = Some pr -> pr <> EmptyString ->
                            Maintenance.priority m = Some pr))
  /\ in_order (fun m n => priority_rank (Maintenance.priority m)
                          <=? priority_rank (Maintenance.priority n))
              (listed_tickets (snd r))
  /\ (forall k,
         filter (fun m => priority_rank (Maintenance.priority m) =? k)
                (listed_tickets (snd r))
         = filter (fun m => priority_rank (Maintenance.priority m) =? k)
                  (filter (maintenance_where (Some "open") None) (maintenance seed_store)))
  /\ priority_rank None = 0
  /\ (forall p, 0 <= priority_rank p <= 4)
  /\ (forall p, 0 < priority_rank p ->
                In p [Some "urgent"; Some "high"; Some "medium"; Some "low"]).
Proof.
  apply (maintenance_listing demo_env demo_services "Bearer staff-token" staff_claims
           (Some "open") None seed_store).
  exact demo_staff_authenticates.
Defined.

Lemma find_key_absent :
  forall (A : Type) (key : A -> string) (id : string) (l : list A),
    ~ In id (map key l) -> find (fun x => String.eqb (key x) id) l = None.
Proof.
  intros A key id l; induction l as [|x r IH]; intros Hnot; [reflexivity|].
  cbn [find]. cbn [map] in Hnot.
  destruct (String.eqb (key x) id) eqn:E.
  - apply String.eqb_eq in E. exfalso. apply Hnot. left. exact E.
  - apply IH. intros H. apply Hnot. right. exact H.
Qed.



(** ** Notifications *)

Lemma firstn_incl :
  forall (A : Type) n (l : list A) x, In x (firstn n l) -> In x l.
Proof.
  intros A n; induction n as [|n IH]; intros l x H; [destruct H|].
  destruct l as [|y r]; [destruct H|]. cbn [firstn] in H.
  destruct H as [-> | H]; [left; reflexivity | right; apply IH; exact H].
Qed.

(** X19.  GET /api/notifications reads only and lists at most fifty rows:
    the first fifty, as the table stands, of those addressed to the caller
    or to nobody.  After PATCH /api/notifications/read-all every row that
    listing shows the same user is read, and the rows addressed to other
    users are as they were.  PATCH /api/notifications/:id/read marks the
    row of that identifier read whoever it is addressed to, and leaves
    the other rows as they were. *)
Theorem notifications_read_state :
  forall (e : env) (sv : services) (h : string) (user : claims) (s : store),
    authenticates e h user ->
    let listing := api e sv (GetNotifications (Some h)) s in
    let marked := api e sv (PatchNotificationsReadAll (Some h)) s in
    fst listing = s
    /\ listed_notifications (snd listing)
       = firstn 50 (filter (addressed_to user) (notifications s))
    /\ (forall n, addressed_to user n = true
                  <-> Notification.user_id n = None
                      \/ Notification.user_id n = Some (c_id user))
    /\ snd marked = answer 200 (Core Success)
    /\ (forall e2 h2 user2 n,
           authenticates e2 h2 user2 -> c_id user2 = c_id user ->
           In n (listed_notifications (snd (api e2 sv (GetNotifications (Some h2))
                                                (fst marked)))) ->
           Notification.is_read n = true)
    /\ (forall n, addressed_to user n = false ->
                  (In n (notifications (fst marked)) <-> In n (notifications s)))
    /\ (forall id,
           let one := api e sv (PatchNotificationRead (Some h) id) s in
           snd one = answer 200 (Core Success)
           /\ (forall n, In n (notifications s) -> Notification.id n = id ->
                         In (Notification.set_is_read true n) (notifications (fst one)))
           /\ (forall n, Notification.id n <> id ->
                         (In n (notifications (fst one)) <-> In n (notifications s)))).
Proof.
  intros e sv h user s Hauth listing marked.
  unfold listing, marked. cbn [api].
  rewrite !(guarded_pass e [] h user _ s Hauth (permitted_any user)).
  unfold get_notifications at 1 2, read_all_notifications, listed_notifications.
  cbn [fst snd answer body_ext].
  split; [reflexivity|]. split; [reflexivity|].
  split.
  { intros n. unfold addressed_to. destruct (Notification.user_id n) as [uid|].
    - rewrite String.eqb_eq. split.
      + intros ->. right. reflexivity.
      + intros [H|H]; [discriminate | inversion H; reflexivity].
    - split; [left; reflexivity | reflexivity]. }
  split; [reflexivity|].
  split; [|split].
  - intros e2 h2 user2 n Hauth2 Hid. cbn [api].
    rewrite (guarded_pass e2 [] h2 user2 _ _ Hauth2 (permitted_any user2)).
    unfold get_notifications, with_notifications. cbn [snd answer body_ext notifications].
    intros Hin. apply firstn_incl in Hin. apply filter_In in Hin.
    destruct Hin as [Hin Haddr]. apply in_map_iff in Hin.
    destruct Hin as (m & Hm & _).
    assert (Hsame : forall x, addressed_to user2 x = addressed_to user x).
    { intros x. unfold addressed_to. rewrite Hid. reflexivity. }
    destruct (addressed_to user m) eqn:E.
    + subst n. reflexivity.
    + subst n. rewrite Hsame, E in Haddr. discriminate Haddr.
  - intros n Hn. unfold with_notifications. cbn [notifications]. rewrite in_map_iff. split.
    + intros (m & Hm & Hin). destruct (addressed_to user m) eqn:E.
      * exfalso. subst n. unfold addressed_to in Hn, E.
        unfold Notification.set_is_read in Hn. cbn [Notification.user_id] in Hn.
        congruence.
      * subst n. exact Hin.
    + intros Hin. exists n. rewrite Hn. split; [reflexivity | exact Hin].
  - intros id. cbn zeta. cbn [api].
    rewrite !(guarded_pass e [] h user _ s Hauth (permitted_any user)).
    unfold read_notification, with_notifications. cbn [fst snd notifications].
    split; [reflexivity|]. split.
    + intros n Hin Hid. apply in_map_iff. exists n.
      apply String.eqb_eq in Hid. rewrite Hid. split; [reflexivity | exact Hin].
    + intros n Hid. rewrite in_map_iff. split.
      * intros (m & Hm & Hin). destruct (String.eqb (Notification.id m) id) eqn:E.
        -- exfalso. subst n. apply String.eqb_eq in E. apply Hid.
           unfold Notification.set_is_read. cbn [Notification.id]. exact E.
        -- subst n. exact Hin.
      * intros Hin. exists n. apply String.eqb_neq in Hid. rewrite Hid.
        split; [reflexivity | exact Hin].
Qed.

Lemma notifications_read_state_witness :
  let listing := api demo_env demo_services (GetNotifications (Some "Bearer staff-token"))
                     noticed_store in
  let marked := api demo_env demo_services
                    (PatchNotificationsReadAll (Some "Bearer staff-token")) noticed_store in
  fst listing = noticed_store
  /\ listed_notifications (snd listing)
     = firstn 50 (filter (addressed_to staff_claims) (notifications noticed_store))
  /\ (forall n, addressed_to staff_claims n = true
                <-> Notification.user_id n = None
                    \/ Notification.user_id n = Some (c_id staff_claims))
  /\ snd marked = answer 200 (Core Success)
  /\ (forall e2 h2 user2 n,
         authenticates e2 h2 user2 -> c_id user2 = c_id staff_claims ->
         In n (listed_notifications (snd (api e2 demo_services (GetNotifications (Some h2))
                                              (fst marked)))) ->
         Notification.is_read n = true)
  /\ (forall n, addressed_to staff_claims n = false ->
                (In n (notifications (fst marked)) <-> In n (notifications noticed_store)))
  /\ (forall id,
         let one := api demo_env demo_services
                        (PatchNotificationRead (Some "Bearer staff-token") id)
                        noticed_store in
         snd one = answer 200 (Core Success)
         /\ (forall n, In n (notifications noticed_store) -> Notification.id n = id ->
                       In (Notification.set_is_read true n) (notifications (fst one)))
         /\ (forall n, Notification.id n <> id ->
                       (In n (notifications (fst one))
                        <-> In n (notifications noticed_store)))).
Proof.
  apply (notifications_read_state demo_env demo_services "Bearer staff-token"
           staff_claims noticed_store).
  exact demo_staff_authenticates.
Defined.

(** ** Alerts *)

Lemma filter_length_le :
  forall (A : Type) (p q : A -> bool) l,
    (forall x, p x = true -> q x = true) ->
    (List.length (filter p l) <= List.length (filter q l))%nat.
Proof.
  intros A p q l H; induction l as [|x r IH]; [apply le_n|].
  cbn [filter]. destruct (p x) eqn:E.
  - rewrite (H x E). cbn [List.length]. apply le_n_S. exact IH.
  - destruct (q x); cbn [List.length]; [apply le_S|]; exact IH.
Qed.

Lemma sql_sum_nullable_from :
  forall (p : Z -> bool) ts acc,
    let g := fun t => match Tenant.lease_end t with
                      | Some le => sql_bool (p le)
                      | None => None
                      end in
    let q := fun t => match Tenant.lease_end t with
                      | Some le => p le
                      | None => false
                      end in
    fold_left
      (fun acc x =>
         match x with
         | None => acc
         | Some v => Some (match acc with None => v | Some a0 => a0 + v end)
         end)
      (map g ts) acc
    = None
    \/ fold_left
         (fun acc x =>
            match x with
            | None => acc
            | Some v => Some (match acc with None => v | Some a0 => a0 + v end)
            end)
         (map g ts) acc
       = Some ((match acc with Some a => a | None => 0 end)
               + Z.of_nat (List.length (filter q ts))).
Proof.
  intros p ts; induction ts as [|t r IH]; intros acc g q.
  - cbn [map fold_left filter List.length]. destruct acc as [a|]; [right | left; reflexivity].
    f_equal. lia.
  - cbn [map fold_left filter]. unfold g at 2 4, q at 1.
    destruct (Tenant.lease_end t) as [le|].
    + cbn [sql_bool].
      destruct (IH (Some (match acc with None => if p le then 1 else 0
                                    | Some a0 => a0 + (if p le then 1 else 0) end)))
        as [H|H]; [left; exact H | right].
      fold g in H. rewrite H. fold q.
      destruct (p le); destruct acc; cbn [List.length]; f_equal; lia.
    + destruct (IH acc) as [H|H]; [left; exact H | right; exact H].
Qed.

Lemma expiring_rows_of :
  forall (today : Z) (ts : list Tenant.t),
    let f := fun t =>
               match Tenant.lease_end t with
               | Some le =>
                   if (today <=? le) && (le <=? today + 60)
                   then [mkexpiring_row (Tenant.id t) (Tenant.tenant_name t)
                           (Tenant.property_address t) le (Tenant.phone t) (le - today)]
                   else []
               | None => []
               end in
    let g := fun t =>
               let le := match Tenant.lease_end t with Some le => le | None => 0 end in
               mkexpiring_row (Tenant.id t) (Tenant.tenant_name t)
                 (Tenant.property_address t) le (Tenant.phone t) (le - today) in
    flat_map f ts = map g (filter (lease_ends_within today 60) ts).
Proof.
  intros today ts f g; induction ts as [|t r IH]; [reflexivity|].
  cbn [flat_map filter]. rewrite IH. unfold f at 1, lease_ends_within at 2, g at 2.
  destruct (Tenant.lease_end t) as [le|] eqn:E; [|reflexivity].
  destruct ((today <=? le) && (le <=? today + 60)); [|reflexivity].
  cbn [Datatypes.app map]. unfold g at 1. rewrite E. reflexivity.
Qed.

Lemma rows_of_selected :
  forall (A B : Type) (f : A -> B) (R : A -> B -> Prop) (p : A -> bool) (l : list A)
         (rows : list B),
    Permutation rows (map f (filter p l)) ->
    (forall x, p x = true -> R x (f x)) ->
    exists selected,
      Permutation selected (filter p l) /\ Forall2 R selected rows.
Proof.
  intros A B f R p l rows Hperm HR.
  apply Permutation_map_inv in Hperm. destruct Hperm as (sel & -> & Hsel).
  exists sel. split; [apply Permutation_sym; exact Hsel|].
  assert (Hall : Forall (fun x => p x = true) sel).
  { rewrite Forall_forall. intros x Hx.
    apply (Permutation_in _ (Permutation_sym Hsel)) in Hx.
    apply filter_In in Hx. tauto. }
  clear Hsel. induction sel as [|x r IH]; cbn [map]; constructor.
  - apply HR. inversion Hall; assumption.
  - apply IH. inversion Hall; assumption.
Qed.

(** X20.  GET /api/alerts reads only and answers 200 with three lists.
    The expiring list has one row for each tenant whose lease ends today
    or within the next 60 days, and no other row; a row carries the
    tenant's identifier, name, address, phone and end of lease, and the
    days from today to that end, between 0 and 60; the earliest end comes
    first.  The overdue list has one row for each tenant who has paid less
    than a rent that is positive, and no other row; a row carries the
    tenant's identifier, name, address, phone, rent and amount paid, and
    the rent less the amount paid, which is positive; the largest debt
    comes first.  The quit list has one row for each tenant under notice,
    in table order, with the tenant's identifier, name, address, phone and
    date of notice.  Against the dashboard of the same day: every tenant
    counted there as expiring soon is in the expiring list, and its quit
    count is the length of the quit list. *)
Theorem alerts_listing :
  forall (e : env) (sv : services) (h : string) (user : claims) (s : store),
    authenticates e h user ->
    exists expiring overdue quitNotices,
      api e sv (GetAlerts (Some h)) s
      = (s, answer 200 (AlertLists expiring overdue quitNotices))
      /\ (exists ending,
             Permutation ending
               (filter (lease_ends_within (curdate e) 60) (tenants (base s)))
             /\ Forall2 (expiring_of (curdate e)) ending expiring)
      /\ Forall (fun r => 0 <= ex_days_remaining r <= 60) expiring
      /\ in_order (fun x y => ex_lease_end x <=? ex_lease_end y) expiring
      /\ (exists owing,
             Permutation owing (filter owes_on_rent (tenants (base s)))
             /\ Forall2 overdue_of owing overdue)
      /\ Forall (fun r => 0 < ov_amount_owed r /\ 0 < ov_rent_per_annum r) overdue
      /\ in_order (fun x y => ov_amount_owed y <=? ov_amount_owed x) overdue
      /\ Forall2 quit_of (filter Tenant.quit_notice (tenants (base s))) quitNotices
      /\ match expiring_soon (stats_summary e (base s)) with
         | Some n => n <= Z.of_nat (List.length expiring)
         | None => True
         end
      /\ match quit_count (stats_summary e (base s)) with
         | Some n => n = Z.of_nat (List.length quitNotices)
         | None => tenants (base s) = []
         end.
Proof.
  intros e sv h user s Hauth.
  cbn [api]. rewrite (guarded_pass e [] h user _ s Hauth (permitted_any user)).
  unfold get_alerts. do 3 eexists. split; [reflexivity|].
  set (ts := tenants (base s)).
  assert (Hexp : Permutation (expiring_rows e ts)
                   (map (fun t =>
                           let le := match Tenant.lease_end t with
                                     | Some le => le | None => 0 end in
                           mkexpiring_row (Tenant.id t) (Tenant.tenant_name t)
                             (Tenant.property_address t) le (Tenant.phone t)
                             (le - curdate e))
                        (filter (lease_ends_within (curdate e) 60) ts))).
  { unfold expiring_rows. rewrite <- expiring_rows_of. apply order_by_perm. }
  split; [|split; [|split; [|split; [|split; [|split; [|split; [|split]]]]]]].
  - apply (rows_of_selected _ _ _ _ _ _ _ Hexp).
    intros t Ht. unfold lease_ends_within in Ht. unfold expiring_of.
    destruct (Tenant.lease_end t) as [le|]; [|discriminate Ht].
    cbn. repeat split; reflexivity.
  - rewrite Forall_forall. intros r Hr.
    apply (Permutation_in _ Hexp) in Hr.
    apply in_map_iff in Hr. destruct Hr as (t & <- & Ht).
    apply filter_In in Ht. destruct Ht as [_ Ht]. unfold lease_ends_within in Ht.
    destruct (Tenant.lease_end t) as [le|]; [|discriminate Ht].
    apply andb_true_iff in Ht. cbn [ex_days_remaining]. lia.
  - unfold expiring_rows. apply order_by_in_order.
    + intros x y H. lia.
    + intros x y z H1 H2. lia.
  - apply (rows_of_selected _ _
             (fun t => mkoverdue_row (Tenant.id t) (Tenant.tenant_name t)
                         (Tenant.property_address t) (Tenant.rent_per_annum t)
                         (Tenant.amount_paid t) (Tenant.phone t)
                         (Tenant.rent_per_annum t - Tenant.amount_paid t))).
    + unfold overdue_rows. apply order_by_perm.
    + intros t _. unfold overdue_of. cbn. repeat split; reflexivity.
  - rewrite Forall_forall. intros r Hr. unfold overdue_rows in Hr.
    apply (Permutation_in _ (order_by_perm _ _ _)) in Hr.
    apply in_map_iff in Hr. destruct Hr as (t & <- & Ht).
    apply filter_In in Ht. destruct Ht as [_ Ht]. apply andb_true_iff in Ht.
    cbn [ov_amount_owed ov_rent_per_annum ov_amount_paid]. lia.
  - unfold overdue_rows. apply order_by_in_order.
    + intros x y H. lia.
    + intros x y z H1 H2. lia.
  - unfold quit_rows. generalize (filter Tenant.quit_notice ts). intros l.
    induction l as [|t r IH]; cbn [map]; constructor; [|exact IH].
    unfold quit_of. cbn. repeat split; reflexivity.
  - unfold stats_summary. cbn [expiring_soon]. fold ts. unfold sql_sum.
    destruct (sql_sum_nullable_from
                (fun le => (curdate e <=? le) && (le <=? curdate e + 30)) ts None)
      as [H|H]; cbv zeta in H; rewrite H; [exact I|].
    rewrite (Permutation_length Hexp), length_map.
    apply inj_le. apply filter_length_le. intros t. unfold lease_ends_within.
    destruct (Tenant.lease_end t) as [le|]; [|discriminate].
    rewrite !andb_true_iff. lia.
  - unfold stats_summary. cbn [quit_count]. fold ts.
    rewrite (sql_sum_count Tenant.quit_notice). unfold quit_rows. rewrite length_map.
    destruct ts; reflexivity.
Qed.

Lemma alerts_listing_witness :
  exists expiring overdue quitNotices,
    api demo_env demo_services (GetAlerts (Some "Bearer staff-token")) seed_store
    = (seed_store, answer 200 (AlertLists expiring overdue quitNotices))
    /\ (exists ending,
           Permutation ending
             (filter (lease_ends_within (curdate demo_env) 60) (tenants (base seed_store)))
           /\ Forall2 (expiring_of (curdate demo_env)) ending expiring)
    /\ Forall (fun r => 0 <= ex_days_remaining r <= 60) expiring
    /\ in_order (fun x y => ex_lease_end x <=? ex_lease_end y) expiring
    /\ (exists owing,
           Permutation owing (filter owes_on_rent (tenants (base seed_store)))
           /\ Forall2 overdue_of owing overdue)
    /\ Forall (fun r => 0 < ov_amount_owed r /\ 0 < ov_rent_per_annum r) overdue
    /\ in_order (fun x y => ov_amount_owed y <=? ov_amount_owed x) overdue
    /\ Forall2 quit_of (filter Tenant.quit_notice (tenants (base seed_store))) quitNotices
    /\ match expiring_soon (stats_summary demo_env (base seed_store)) with
       | Some n => n <= Z.of_nat (List.length expiring)
       | None => True
       end
    /\ match quit_count (stats_summary demo_env (base seed_store)) with
       | Some n => n = Z.of_nat (List.length quitNotices)
       | None => tenants (base seed_store) = []
       end.
Proof.
  apply (alerts_listing demo_env demo_services "Bearer staff-token" staff_claims seed_store).
  exact demo_staff_authenticates.
Defined.

(** ** Messages *)







Lemma owes_and_reachable_spec :
  forall t,
    owes_and_reachable t = true
    <-> Tenant.amount_paid t < Tenant.rent_per_annum t
        /\ exists p, Tenant.phone t = Some p /\ p <> EmptyString.
Proof.
  intros t. unfold owes_and_reachable. rewrite andb_true_iff, Z.ltb_lt.
  destruct (Tenant.phone t) as [p|].
  - destruct p as [|c r]; cbn [JS.str_truthy].
    + split; [intros [_ H]; discriminate H|].
      intros [_ (p & Hp & Hne)]. inversion Hp; subst. congruence.
    + split; [|intros [H _]; split; [exact H | reflexivity]].
      intros [H _]. split; [exact H|]. eexists. split; [reflexivity | discriminate].
  - split; [intros [_ H]; discriminate H|].
    intros [_ (p & Hp & _)]. discriminate Hp.
Qed.

Lemma draws_fresh_next :
  forall e k n taken id,
    draws_fresh e k (S n) taken -> id = uuid e k ->
    draws_fresh e (S k) n (id :: taken).
Proof.
  intros e k n taken id [Hnd Hall] ->. cbn [seq map] in Hnd, Hall.
  inversion Hnd as [|? ? Hnot Hnd']; subst. inversion Hall as [|? ? Hk Hall']; subst.
  split; [exact Hnd'|].
  rewrite Forall_forall in *. intros j Hj [Heq | Hin].
  - apply Hnot. rewrite Heq. apply in_map. exact Hj.
  - apply (Hall' j Hj). exact Hin.
Qed.

Lemma remind_loop :
  forall e sv template user ts k links s,
    Forall (fun t => owes_and_reachable t = true) ts ->
    draws_fresh e k (List.length ts) (map MessageLog.id (message_log s)) ->
    exists new more,
      remind e sv template user ts k links s
      = (with_message_log (new ++ message_log s)%list s,
         answer 200 (Reminders (List.length links + List.length ts)
                               (links ++ more)%list))
      /\ Forall2 (reminds sv template) ts more
      /\ Forall2 (logs_reminder sv template user) ts (rev new).
Proof.
  intros e sv template user ts; induction ts as [|t r IH]; intros k links s Hall Hfresh.
  - exists [], []. cbn [remind Datatypes.app List.length rev]. rewrite app_nil_r, Nat.add_0_r.
    split; [destruct s; reflexivity|]. split; constructor.
  - inversion Hall as [|? ? Ht Hr]; subst.
    apply owes_and_reachable_spec in Ht. destruct Ht as [Hlt (p & Hp & Hne)].
    cbn [remind]. unfold insert_message.
    cbn [MessageLog.id MessageLog.channel MessageLog.status enum_or_null].
    change (enum_member channels "whatsapp") with true.
    change (enum_member message_statuses "sent") with true. cbn [andb negb].
    assert (Hnone : select_message s (uuid e k) = None).
    { unfold select_message. apply (find_key_absent _ MessageLog.id).
      destruct Hfresh as [_ Hf]. cbn [List.length seq] in Hf.
      inversion Hf; subst. assumption. }
    rewrite Hnone, Hp.
    set (row := MessageLog.mk (uuid e k) (Some (Tenant.id t)) (Some (Tenant.tenant_name t))
                  (Some p) (Some "whatsapp") (Some (reminder_text sv template t))
                  (Some "sent") (Some (c_id user))).
    set (l := mkreminder (Tenant.tenant_name t) p
                (wa_link p (reminder_text sv template t))
                (Tenant.rent_per_annum t - Tenant.amount_paid t)).
    destruct (IH (S k) (links ++ [l])%list (with_message_log (row :: message_log s) s) Hr)
      as (new & more & Heq & Hlinks & Hrows).
    { unfold with_message_log. cbn [message_log map].
      apply (draws_fresh_next e k _ _ _ Hfresh). reflexivity. }
    exists (new ++ [row])%list, (l :: more). rewrite Heq. split; [|split].
    + unfold with_message_log. cbn [message_log base maintenance notifications].
      rewrite <- !app_assoc. cbn [Datatypes.app].
      rewrite length_app. cbn [List.length].
      replace (List.length links + 1 + List.length r)%nat
        with (List.length links + S (List.length r))%nat by lia.
      reflexivity.
    + constructor; [|exact Hlinks].
      unfold reminds, l. cbn [rm_tenant rm_phone rm_amount_owed rm_link].
      repeat split; try assumption; try reflexivity. lia.
    + rewrite rev_app_distr. cbn [rev Datatypes.app]. constructor; [|exact Hrows].
      unfold logs_reminder, row.
      cbn [MessageLog.tenant_id MessageLog.tenant_name MessageLog.phone MessageLog.channel
           MessageLog.message MessageLog.status MessageLog.sent_by].
      rewrite Hp. repeat split.
Qed.

(** X22.  The bulk reminder, sent by an administrator or a manager while
    the identifiers drawn are new, reaches exactly the tenants who have
    paid less than the rent and have a phone that is not empty, in table
    order: the answer is 200, sent is their number, and links holds one
    entry for each with the name, the phone, the amount owed (rent minus
    amount paid, positive) and the link of that phone and the reminder
    text; the message log gains one row for each, the last reminded on
    top, with the tenant, the text, the channel "whatsapp", the status
    "sent" and the caller as sender; no other table changes. *)
Theorem bulk_reminder_reaches_debtors :
  forall (e : env) (sv : services) (h : string) (user : claims)
         (message_template : option string) (s : store),
    authenticates e h user ->
    permitted ["admin"; "manager"] user ->
    let debtors := filter owes_and_reachable (tenants (base s)) in
    let template := JS.str_or message_template default_template in
    draws_fresh e 0 (List.length debtors) (map MessageLog.id (message_log s)) ->
    exists new links,
      api e sv (PostBulkReminder (Some h) message_template) s
      = (with_message_log (new ++ message_log s)%list s,
         answer 200 (Reminders (List.length debtors) links))
      /\ Forall2 (reminds sv template) debtors links
      /\ Forall2 (logs_reminder sv template user) debtors (rev new)
      /\ (forall t,
             In t debtors
             <-> In t (tenants (base s))
                 /\ Tenant.amount_paid t < Tenant.rent_per_annum t
                 /\ exists p, Tenant.phone t = Some p /\ p <> EmptyString).
Proof.
  intros e sv h user message_template s Hauth Hperm debtors template Hfresh.
  cbn [api]. rewrite (guarded_pass e _ h user _ s Hauth Hperm).
  unfold bulk_reminder. fold debtors template.
  destruct (remind_loop e sv template user debtors 0%nat [] s) as (new & more & Heq & H1 & H2).
  { unfold debtors. rewrite Forall_forall. intros t Ht. apply filter_In in Ht. tauto. }
  { exact Hfresh. }
  exists new, more. rewrite Heq. cbn [Datatypes.app List.length Nat.add].
  split; [reflexivity|]. split; [exact H1|]. split; [exact H2|].
  intros t. unfold debtors. rewrite filter_In, owes_and_reachable_spec. tauto.
Qed.

Lemma bulk_reminder_reaches_debtors_witness :
  let debtors := filter owes_and_reachable (tenants (base seed_store)) in
  let template := JS.str_or None default_template in
  exists new links,
    api demo_env demo_services (PostBulkReminder (Some "Bearer admin-token") None) seed_store
    = (with_message_log (new ++ message_log seed_store)%list seed_store,
       answer 200 (Reminders (List.length debtors) links))
    /\ Forall2 (reminds demo_services template) debtors links
    /\ Forall2 (logs_reminder demo_services template admin_claims) debtors (rev new)
    /\ (forall t,
           In t debtors
           <-> In t (tenants (base seed_store))
               /\ Tenant.amount_paid t < Tenant.rent_per_annum t
               /\ exists p, Tenant.phone t = Some p /\ p <> EmptyString).
Proof.
  apply (bulk_reminder_reaches_debtors demo_env demo_services "Bearer admin-token"
           admin_claims None seed_store).
  - exact demo_admin_authenticates.
  - right. left. reflexivity.
  - split.
    + vm_compute. repeat constructor; cbn; intuition discriminate.
    + vm_compute. repeat constructor; tauto.
Defined.

(** ** The text of a reminder *)

Lemma plain_app : forall a b, plain (a ++ b) = plain a && plain b.
Proof.
  induction a as [|c r IH]; intros b; [reflexivity|].
  cbn [String.append plain]. rewrite IH, !andb_assoc. reflexivity.
Qed.

Lemma substitution_plain :
  forall matched before after r, plain r = true -> substitution matched before after r = r.
Proof.
  intros matched before after r; induction r as [|c r IH]; intros H; [reflexivity|].
  cbn [plain] in H. apply andb_true_iff in H. destruct H as [H Hr].
  apply andb_true_iff in H. destruct H as [H36 _].
  cbn [substitution]. destruct (JS.code c =? 36); [discriminate H36|].
  rewrite (IH Hr). reflexivity.
Qed.

Lemma brace_code : forall c, Ascii.eqb "{" c = (JS.code c =? 123).
Proof. intros c. destruct c as [[] [] [] [] [] [] [] []]; reflexivity. Qed.

Lemma split_plain :
  forall p s, plain s = true -> split_at_first (String "{" p) s = None.
Proof.
  intros p s; induction s as [|c r IH]; intros H; [reflexivity|].
  cbn [plain] in H. apply andb_true_iff in H. destruct H as [H Hr].
  apply andb_true_iff in H. destruct H as [_ H123].
  cbn [split_at_first strip_prefix]. rewrite brace_code.
  destruct (JS.code c =? 123); [discriminate H123|]. rewrite (IH Hr). reflexivity.
Qed.

Lemma split_after_plain :
  forall p s1 s2 before after,
    plain s1 = true ->
    split_at_first (String "{" p) s2 = Some (before, after) ->
    split_at_first (String "{" p) (s1 ++ s2) = Some (s1 ++ before, after).
Proof.
  intros p s1 s2 before after; induction s1 as [|c r IH]; intros H Hs; [exact Hs|].
  cbn [plain] in H. apply andb_true_iff in H. destruct H as [H Hr].
  apply andb_true_iff in H. destruct H as [_ H123].
  cbn [String.append split_at_first strip_prefix]. rewrite brace_code.
  destruct (JS.code c =? 123); [discriminate H123|]. rewrite (IH Hr Hs). reflexivity.
Qed.

Lemma replace_plain :
  forall p replacement s, plain s = true -> replace (String "{" p) replacement s = s.
Proof.
  intros p replacement s H. unfold replace. rewrite (split_plain p s H). reflexivity.
Qed.

(** X23.  The text of a reminder.  With the default template, for a
    tenant whose name and whose printed amount hold no dollar sign and no
    opening brace, the text is "Dear NAME, your outstanding rent balance
    is ₦AMOUNT. Please contact us. - EstateIQ", where AMOUNT prints the
    rent less the amount paid.  A template that holds no opening brace is
    sent to every tenant as it is. *)
Theorem reminder_text_default :
  forall (sv : services) (t : Tenant.t),
    plain (Tenant.tenant_name t) = true ->
    plain (toLocaleString sv (Tenant.rent_per_annum t - Tenant.amount_paid t)) = true ->
    reminder_text sv (JS.str_or None default_template) t
    = "Dear " ++ Tenant.tenant_name t ++ ", your outstanding rent balance is ₦"
      ++ toLocaleString sv (Tenant.rent_per_annum t - Tenant.amount_paid t)
      ++ ". Please contact us. - EstateIQ"
    /\ (forall template,
           JS.str_truthy template = true -> plain template = true ->
           reminder_text sv (JS.str_or (Some template) default_template) t = template).
Proof.
  intros sv t Hname Hamount. split.
  - unfold reminder_text. cbn [JS.str_or].
    set (name := Tenant.tenant_name t) in *.
    set (amount := toLocaleString sv (Tenant.rent_per_annum t - Tenant.amount_paid t)) in *.
    assert (H1 : replace "{name}" name default_template
                 = ("Dear " ++ name)
                   ++ ", your outstanding rent balance is ₦{amount}. Please contact us. - EstateIQ").
    { unfold replace, default_template.
      cbn [split_at_first strip_prefix Ascii.eqb Bool.eqb].
      rewrite (substitution_plain _ _ _ name Hname). rewrite append_assoc. reflexivity. }
    rewrite H1.
    assert (H2 : replace "{amount}" amount
                   (("Dear " ++ name)
                    ++ ", your outstanding rent balance is ₦{amount}. Please contact us. - EstateIQ")
                 = (("Dear " ++ name) ++ ", your outstanding rent balance is ₦")
                   ++ amount ++ ". Please contact us. - EstateIQ").
    { unfold replace.
      rewrite (split_after_plain _ ("Dear " ++ name) _
                 ", your outstanding rent balance is ₦" ". Please contact us. - EstateIQ").
      - rewrite (substitution_plain _ _ _ amount Hamount). reflexivity.
      - rewrite plain_app, Hname. reflexivity.
      - reflexivity. }
    rewrite H2. rewrite replace_plain.
    + rewrite !append_assoc. reflexivity.
    + rewrite !plain_app, Hname, Hamount. reflexivity.
  - intros template Htr Hplain. unfold reminder_text.
    cbn [JS.str_or]. rewrite Htr.
    rewrite (replace_plain _ (Tenant.tenant_name t) template Hplain).
    rewrite (replace_plain _ _ template Hplain).
    apply replace_plain. exact Hplain.
Qed.

Lemma reminder_text_default_witness :
  reminder_text demo_services (JS.str_or None default_template) seed_t002
  = "Dear " ++ Tenant.tenant_name seed_t002 ++ ", your outstanding rent balance is ₦"
    ++ toLocaleString demo_services
         (Tenant.rent_per_annum seed_t002 - Tenant.amount_paid seed_t002)
    ++ ". Please contact us. - EstateIQ"
  /\ (forall template,
         JS.str_truthy template = true -> plain template = true ->
         reminder_text demo_services (JS.str_or (Some template) default_template) seed_t002
         = template).
Proof.
  apply (reminder_text_default demo_services seed_t002).
  - reflexivity.
  - reflexivity.
Defined.

(** ** What no request does *)

Lemma notice_carried_refl : forall n, notice_carried n n.
Proof. intros n. unfold notice_carried. tauto. Qed.

Lemma notice_carried_trans :
  forall a b c, notice_carried a b -> notice_carried b c -> notice_carried a c.
Proof.
  unfold notice_carried.
  intros a b c (H1 & H2 & H3 & H4 & H5 & H6 & H7) (K1 & K2 & K3 & K4 & K5 & K6 & K7).
  repeat split; try congruence; [tauto|].
  destruct K7 as [K7|K7]; [rewrite K7; exact H7 | right; exact K7].
Qed.

Lemma Forall2_same :
  forall (A : Type) (R : A -> A -> Prop) l, (forall x, R x x) -> Forall2 R l l.
Proof. intros A R l H; induction l; constructor; auto. Qed.

Lemma Forall2_through :
  forall (A : Type) (R : A -> A -> Prop),
    (forall a b c, R a b -> R b c -> R a c) ->
    forall l1 l2 l3, Forall2 R l1 l2 -> Forall2 R l2 l3 -> Forall2 R l1 l3.
Proof.
  intros A R Ht l1 l2 l3 H; revert l3; induction H; intros l3 H3; inversion H3; subst;
    constructor; eauto.
Qed.

Lemma Forall2_mapped :
  forall (A : Type) (R : A -> A -> Prop) (f : A -> A) l,
    (forall x, R x (f x)) -> Forall2 R l (map f l).
Proof. intros A R f l H; induction l; cbn [map]; constructor; auto. Qed.

Lemma records_kept_refl : forall s, records_kept s s.
Proof.
  intros s. split; [exists []; reflexivity|].
  apply Forall2_same. apply notice_carried_refl.
Qed.

Lemma records_kept_trans :
  forall a b c, records_kept a b -> records_kept b c -> records_kept a c.
Proof.
  intros a b c [(n1 & H1) F1] [(n2 & H2) F2]. split.
  - exists (n2 ++ n1)%list. rewrite H2, H1, app_assoc. reflexivity.
  - exact (Forall2_through _ _ notice_carried_trans _ _ _ F1 F2).
Qed.

Lemma records_same :
  forall s s',
    message_log s' = message_log s -> notifications s' = notifications s ->
    records_kept s s'.
Proof.
  intros s s' Hl Hn. split; [exists []; rewrite Hl; reflexivity|].
  rewrite Hn. apply Forall2_same. apply notice_carried_refl.
Qed.

Lemma remind_appends :
  forall e sv template user ts k links s,
    exists new,
      message_log (fst (remind e sv template user ts k links s))
      = (new ++ message_log s)%list.
Proof.
  intros e sv template user ts; induction ts as [|t rest IH]; intros k links s;
    cbn [remind]; [exists []; reflexivity|].
  unfold insert_message.
  destruct (negb _); [exists []; reflexivity|].
  destruct (select_message s _); [exists []; reflexivity|].
  destruct (Tenant.phone t) as [phone|].
  - match goal with
    | |- context [remind e sv template user rest (S k) ?l ?s1] =>
        destruct (IH (S k) l s1) as (new & Hnew)
    end.
    rewrite Hnew. unfold with_message_log. cbn [message_log].
    eexists (new ++ [_])%list. rewrite <- app_assoc. reflexivity.
  - cbn [fst with_message_log message_log]. eexists [_]. reflexivity.
Qed.

Lemma api_keeps_records :
  forall e sv r s, records_kept s (fst (api e sv r s)).
Proof.
  intros e sv r s.
  destruct r as [r0| | | | | | | | | | | | | | | | | | | | |]; cbn [api];
    try (apply (guarded_keeps (records_kept s)); [apply records_kept_refl|]; intros user).
  - destruct r0; cbn [fst];
      try (apply records_same; reflexivity).
    apply (guarded_keeps (records_kept s)); [apply records_kept_refl|]. intros user.
    unfold delete_tenant_ext. cbn [fst]. split; [exists []; reflexivity|].
    cbn [notifications]. apply Forall2_mapped. intros n.
    destruct (refers_to id (Notification.tenant_id n)); [|apply notice_carried_refl].
    unfold notice_carried. cbn. tauto.
  - unfold register.
    repeat match goal with
           | |- context [match ?x with _ => _ end] => destruct x
           end; apply records_same; reflexivity.
  - apply records_kept_refl.
  - unfold put_me.
    repeat match goal with
           | |- context [match ?x with _ => _ end] => destruct x
           end; apply records_same; reflexivity.
  - unfold change_password.
    repeat match goal with
           | |- context [match ?x with _ => _ end] => destruct x
           end; apply records_same; reflexivity.
  - apply records_kept_refl.
  - unfold put_user.
    repeat match goal with
           | |- context [match ?x with _ => _ end] => destruct x
           end; apply records_same; reflexivity.
  - unfold delete_user. destruct (String.eqb id "admin-001");
      apply records_same; reflexivity.
  - unfold get_tenant. destruct (select_tenant (base s) id); apply records_kept_refl.
  - apply records_kept_refl.
  - apply records_kept_refl.
  - unfold post_maintenance. destruct (negb _); [apply records_kept_refl|].
    unfold insert_ticket. cbn [Maintenance.id Maintenance.tenant_id].
    destruct (negb (enum_or_null categories _ && _ && _)); [apply records_kept_refl|].
    destruct (select_ticket s (uuid e 0)); [apply records_kept_refl|].
    destruct (or_null (k_tenant_id b)) as [tid|].
    + destruct (select_tenant (base s) tid);
        [apply records_same; reflexivity | apply records_kept_refl].
    + apply records_same; reflexivity.
  - unfold patch_maintenance.
    repeat match goal with
           | |- context [match ?x with _ => _ end] => destruct x
           end; apply records_same; reflexivity.
  - apply records_same; reflexivity.
  - apply records_kept_refl.
  - unfold read_notification. cbn [fst]. split; [exists []; reflexivity|].
    cbn [notifications with_notifications]. apply Forall2_mapped. intros n.
    destruct (String.eqb (Notification.id n) id); [|apply notice_carried_refl].
    unfold notice_carried. cbn. tauto.
  - unfold read_all_notifications. cbn [fst]. split; [exists []; reflexivity|].
    cbn [notifications with_notifications]. apply Forall2_mapped. intros n.
    destruct (addressed_to user n); [|apply notice_carried_refl].
    unfold notice_carried. cbn. tauto.
  - unfold post_message, insert_message. cbn [MessageLog.id].
    destruct (negb (enum_or_null channels _ && _)); [apply records_kept_refl|].
    destruct (select_message s (uuid e 0)); [apply records_kept_refl|].
    cbn [fst]. split; [eexists [_]; reflexivity|].
    apply Forall2_same. apply notice_carried_refl.
  - apply records_kept_refl.
  - unfold bulk_reminder. split; [apply remind_appends|].
    rewrite (proj2 (proj2 (remind_keeps_tables _ _ _ _ _ _ _ _))).
    apply Forall2_same. apply notice_carried_refl.
  - apply records_kept_refl.
  - unfold get_portal. destruct (select_tenant (base s) tenantId); apply records_kept_refl.
Qed.

(** X24.  Whatever requests are served, in whatever order and with
    whatever tokens: the message log only gains rows, on top of the ones
    it held, none of which is removed or altered; and no notification is
    created or deleted, none is marked unread again, and each keeps its
    type, title, message and addressee, and its tenant unless that tenant
    was deleted. *)
Theorem records_are_kept :
  forall (sv : services) (reqs : list (env * request_ext)) (s : store),
    (exists new, message_log (run_api sv reqs s) = (new ++ message_log s)%list)
    /\ Forall2 notice_carried (notifications s) (notifications (run_api sv reqs s)).
Proof.
  intros sv reqs. change (forall s, records_kept s (run_api sv reqs s)).
  induction reqs as [|[e r] rest IH]; intros s; cbn [run_api].
  - apply records_kept_refl.
  - eapply records_kept_trans; [apply api_keeps_records | apply IH].
Qed.

(** X25.  A GET request never writes: whatever the token, and whether the
    request is served or refused, every table is afterwards as it was. *)
Theorem get_requests_write_nothing :
  forall (e : env) (sv : services) (r : request_ext) (s : store),
    is_get r = true -> fst (api e sv r s) = s.
Proof.
  intros e sv r s Hget.
  destruct r as [r0| | | | | | | | | | | | | | | | | | | | |];
    try discriminate Hget; cbn [api];
    try (apply (guarded_keeps (fun s' => s' = s)); [reflexivity|]; intros user).
  - destruct r0; try discriminate Hget; cbn [app fst].
    + rewrite auth_by_gate. destruct (auth_gate e [] authorization);
        cbn [fst]; apply with_base_same.
    + rewrite auth_by_gate. destruct (auth_gate e [] authorization);
        cbn [fst]; apply with_base_same.
  - reflexivity.
  - reflexivity.
  - unfold get_tenant. destruct (select_tenant (base s) id); reflexivity.
  - reflexivity.
  - reflexivity.
  - reflexivity.
  - reflexivity.
  - reflexivity.
  - unfold get_portal. destruct (select_tenant (base s) tenantId); reflexivity.
Qed.

Lemma get_requests_write_nothing_witness :
  fst (api demo_env demo_services (GetUsers (Some "Bearer staff-token")) seed_store)
  = seed_store.
Proof.
  apply (get_requests_write_nothing demo_env demo_services
           (GetUsers (Some "Bearer staff-token")) seed_store).
  reflexivity.
Defined.

Lemma NoDup_map_same_key :
  forall (A B : Type) (f : A -> B) (l : list A) x y,
    NoDup (map f l) -> In x l -> In y l -> f x = f y -> x = y.
Proof.
  intros A B f l; induction l as [|a r IH]; intros x y Hnd Hx Hy Hf; [destruct Hx|].
  cbn [map] in Hnd. inversion Hnd as [|? ? Hnot Hnd']; subst.
  destruct Hx as [-> | Hx]; destruct Hy as [-> | Hy].
  - reflexivity.
  - exfalso. apply Hnot. rewrite Hf. apply in_map. exact Hy.
  - exfalso. apply Hnot. rewrite <- Hf. apply in_map. exact Hx.
  - apply IH; assumption.
Qed.

(** X26.  An administrator deletes an account.  The handler compares the
    identifier with "admin-001" letter for letter: for that identifier the
    answer is 403 "Cannot delete primary admin" and nothing changes.  For
    any other identifier the answer is 200, whether or not an account
    matched; the accounts whose identifier the database takes for the
    given one are removed and the others stay, in the order they had;
    GET /api/users lists exactly those; the addresses being unique, the
    address of a removed account no longer logs in, whatever the password;
    tenants and payments are as before. *)
Theorem deleted_account_is_gone :
  forall (e : env) (sv : services) (h : string) (admin : claims) (id : string) (s : store),
    authenticates e h admin -> c_role admin = "admin" ->
    let r := api e sv (DeleteUser (Some h) id) s in
    if String.eqb id "admin-001"
    then r = (s, answer 403 (Core (Error "Cannot delete primary admin")))
    else
      snd r = answer 200 (Core Success)
      /\ (forall u, In u (users (base (fst r)))
                    <-> In u (users (base s)) /\ sql_same e (User.id u) id = false)
      /\ users (base (fst r))
         = filter (fun u => negb (sql_same e (User.id u) id)) (users (base s))
      /\ (forall e2 h2 user2,
             authenticates e2 h2 user2 -> permitted ["admin"; "manager"] user2 ->
             api e2 sv (GetUsers (Some h2)) (fst r)
             = (fst r,
                answer 200
                  (AccountList
                     (map (fun u => (account_of u, User.is_active u, User.last_login u))
                          (filter (fun u => negb (sql_same e (User.id u) id))
                                  (users (base s)))))))
      /\ (forall u e2 password,
             In u (users (base s)) ->
             sql_same e (User.id u) id = true ->
             NoDup (map User.email (users (base s))) ->
             JS.str_truthy (User.email u) = true ->
             JS.str_truthy password = true ->
             app e2 (PostLogin (Some (User.email u)) (Some password)) (base (fst r))
             = (base (fst r), reply 401 (Error "Invalid credentials")))
      /\ tenants (base (fst r)) = tenants (base s)
      /\ payments (base (fst r)) = payments (base s).
Proof.
  intros e sv h admin id s Hauth Hrole r.
  unfold r. cbn [api].
  rewrite (guarded_pass e ["admin"] h admin _ s Hauth (admin_permitted admin Hrole)).
  unfold delete_user. destruct (String.eqb id "admin-001") eqn:E; [reflexivity|].
  cbn [fst snd]. split; [reflexivity|].
  split; [|split; [reflexivity|split; [|split; [|split; reflexivity]]]].
  - intros u. unfold with_base, with_users. cbn [base users].
    rewrite filter_In, negb_true_iff. reflexivity.
  - intros e2 h2 user2 Hauth2 Hperm2. cbn [api].
    rewrite (guarded_pass e2 _ h2 user2 _ _ Hauth2 Hperm2). reflexivity.
  - intros u e2 password Hu Hid Hnd Hem Hpw.
    cbn [app]. unfold login. rewrite Hem, Hpw. cbn [negb orb].
    unfold with_base, with_users. cbn [base users].
    rewrite find_no_email; [reflexivity|].
    intros Hin. apply in_map_iff in Hin. destruct Hin as (v & Hv & Hin).
    apply filter_In in Hin. destruct Hin as [Hin Hneq].
    assert (v = u) by (apply (NoDup_map_same_key _ _ User.email (users (base s))); assumption).
    subst v. rewrite Hid in Hneq. discriminate Hneq.
Qed.

Lemma deleted_account_is_gone_witness :
  let r := api demo_env demo_services (DeleteUser (Some "Bearer admin-token") "user-003")
               staffed_store in
  snd r = answer 200 (Core Success)
  /\ (forall u, In u (users (base (fst r)))
                <-> In u (users (base staffed_store))
                    /\ sql_same demo_env (User.id u) "user-003" = false)
  /\ users (base (fst r))
     = filter (fun u => negb (sql_same demo_env (User.id u) "user-003"))
              (users (base staffed_store))
  /\ (forall e2 h2 user2,
         authenticates e2 h2 user2 -> permitted ["admin"; "manager"] user2 ->
         api e2 demo_services (GetUsers (Some h2)) (fst r)
         = (fst r,
            answer 200
              (AccountList
                 (map (fun u => (account_of u, User.is_active u, User.last_login u))
                      (filter (fun u => negb (sql_same demo_env (User.id u) "user-003"))
                              (users (base staffed_store)))))))
  /\ (forall u e2 password,
         In u (users (base staffed_store)) ->
         sql_same demo_env (User.id u) "user-003" = true ->
         NoDup (map User.email (users (base staffed_store))) ->
         JS.str_truthy (User.email u) = true ->
         JS.str_truthy password = true ->
         app e2 (PostLogin (Some (User.email u)) (Some password)) (base (fst r))
         = (base (fst r), reply 401 (Error "Invalid credentials")))
  /\ tenants (base (fst r)) = tenants (base staffed_store)
  /\ payments (base (fst r)) = payments (base staffed_store).
Proof.
  apply (deleted_account_is_gone demo_env demo_services "Bearer admin-token" admin_claims
           "user-003" staffed_store).
  - exact demo_admin_authenticates.
  - reflexivity.
Defined.

(** On a database that compares identifiers without regard to case, the
    identifier "ADMIN-001" passes the guard and the statement removes the
    primary administrator; on one that compares letter for letter it
    removes nobody. *)
Lemma delete_user_collation_examples :
  users (base (fst (api folding_env demo_services
                        (DeleteUser (Some "Bearer admin-token") "ADMIN-001") staffed_store)))
  = [former_manager; clerk]
  /\ snd (api folding_env demo_services
              (DeleteUser (Some "Bearer admin-token") "ADMIN-001") staffed_store)
     = answer 200 (Core Success)
  /\ users (base (fst (api demo_env demo_services
                           (DeleteUser (Some "Bearer admin-token") "ADMIN-001") staffed_store)))
     = [seed_admin; former_manager; clerk]
  /\ api folding_env demo_services
         (DeleteUser (Some "Bearer admin-token") "admin-001") staffed_store
     = (staffed_store, answer 403 (Core (Error "Cannot delete primary admin"))).
Proof.
  repeat split; vm_compute; reflexivity.
Qed.

